(** * dpp-protocol-git: the git protocol of dpp.vim

    A shallow embedding of the two variants of the protocol that the
    repository carries,

      - [denops/@dpp-protocols/git/main.ts]  (module [Main]), and
      - [denops/@dpp-protocols/git.ts]       (module [Git]),

    together with the small part of ECMAScript they rely on: strings,
    the regular expressions written in the sources, and the host services
    (file system probes, denops calls, subprocess output).

    JavaScript strings are modelled as lists of 8-bit code units
    ([list ascii]); a regular expression is kept as a syntax tree that is
    transcribed from the literal in the source and run by a backtracking
    matcher. *)

From Stdlib Require Import List Ascii ZArith Lia Bool.
From Stdlib Require Strings.String.
From Stdlib Require Import Strings.Byte Numbers.DecimalString.
Import ListNotations.

Set Implicit Arguments.

(* ================================================================== *)
(** * Strings                                                          *)
(* ================================================================== *)

Definition str := list ascii.

Inductive literal := lnil | lcons (a : ascii) (l : literal).

Fixpoint literal_of_bytes (l : list Byte.byte) : literal :=
  match l with
  | [] => lnil
  | b :: l' => lcons (ascii_of_byte b) (literal_of_bytes l')
  end.

Fixpoint bytes_of_literal (l : literal) : list Byte.byte :=
  match l with
  | lnil => []
  | lcons a l' => byte_of_ascii a :: bytes_of_literal l'
  end.

Declare Scope str_scope.
Delimit Scope str_scope with str.
#[warnings="-via-type-mismatch,-via-type-remapping"]
String Notation str literal_of_bytes bytes_of_literal
  (via literal mapping [[nil] => lnil, [cons] => lcons]) : str_scope.
Open Scope list_scope.
Open Scope str_scope.

Module Str.

(** [a === b] on strings. *)
Fixpoint eqb (a b : str) : bool :=
  match a, b with
  | [], [] => true
  | x :: a', y :: b' => Ascii.eqb x y && eqb a' b'
  | _, _ => false
  end.

(** [s.startsWith(p)], returning what follows the prefix. *)
Fixpoint strip_prefix (p s : str) : option str :=
  match p with
  | [] => Some s
  | x :: p' =>
      match s with
      | y :: s' => if Ascii.eqb x y then strip_prefix p' s' else None
      | [] => None
      end
  end.

Definition startsWith (s p : str) : bool :=
  match strip_prefix p s with Some _ => true | None => false end.

(** [s.endsWith(p)]. *)
Definition endsWith (s p : str) : bool :=
  startsWith (rev s) (rev p).

(** [s.includes(p)]. *)
Fixpoint includes (s p : str) : bool :=
  startsWith s p
  || match s with
     | [] => false
     | _ :: s' => includes s' p
     end.

(** [s.slice(n)] for a non-negative [n]. *)
Definition slice (n : nat) (s : str) : str := skipn n s.

(** [s.split(sep)] for a one-character separator: never empty. *)
Fixpoint split (sep : ascii) (s : str) : list str :=
  match s with
  | [] => [[]]
  | c :: s' =>
      if Ascii.eqb c sep then [] :: split sep s'
      else match split sep s' with
           | l :: ls => (c :: l) :: ls
           | [] => [[c]]
           end
  end.

(** The longest prefix whose characters satisfy [p], and the rest. *)
Fixpoint span (p : ascii -> bool) (s : str) : str * str :=
  match s with
  | [] => ([], [])
  | c :: s' =>
      if p c then let (h, r) := span p s' in (c :: h, r)
      else ([], s)
  end.

(** Template-literal rendering of a [number] that is a safe integer (of
    magnitude below [2^53]): its decimal digits.  Other numbers, which
    JavaScript rounds or renders with an exponent, are outside the
    embedding. *)
Definition of_Z (z : Z) : str :=
  String.list_ascii_of_string (NilZero.string_of_int (Z.to_int z)).

(** The truthiness of a string: [""] is falsy. *)
Definition truthy (s : str) : bool :=
  match s with [] => false | _ => true end.

End Str.

Infix "=?s" := Str.eqb (at level 70) : str_scope.

(** The truthiness of an optional string property: [undefined] and [""]
    are falsy. *)
Definition truthy (o : option str) : bool :=
  match o with
  | Some s => Str.truthy s
  | None => false
  end.

(** [o ?? d] *)
Definition nullish {A} (o : option A) (d : A) : A :=
  match o with Some a => a | None => d end.

Infix "??" := nullish (at level 45, left associativity).

(* ================================================================== *)
(** * Regular expressions                                              *)
(* ================================================================== *)

Module RegExp.

(** One-character patterns. [Cls neg rs] is a character class of
    inclusive ranges, negated when [neg]. *)
Inductive atom :=
| Chr (c : ascii)
| Dot
| Cls (neg : bool) (rs : list (ascii * ascii)).

(** The fragment of the pattern language the sources use.  Quantifiers
    are greedy and only ever applied to one-character patterns or, for
    [?], to a group. *)
Inductive regex :=
| Eps
| Atom (a : atom)
| Bol
| Eol
| Cat (r1 r2 : regex)
| Alt (r1 r2 : regex)
| Opt (r : regex)
| Star (a : atom)
| Plus (a : atom)
| Grp (name : str) (r : regex).

Definition seq (rs : list regex) : regex := fold_right Cat Eps rs.

(** A literal run of characters. *)
Definition Lit (s : str) : regex := seq (map (fun c => Atom (Chr c)) s).

(** [[^c]] *)
Definition Not (c : ascii) : atom := Cls true [(c, c)].

Definition line_terminator (c : ascii) : bool :=
  (c =? "010")%char || (c =? "013")%char.

Definition in_range (c : ascii) (r : ascii * ascii) : bool :=
  (nat_of_ascii (fst r) <=? nat_of_ascii c)%nat
  && (nat_of_ascii c <=? nat_of_ascii (snd r))%nat.

Definition atom_ok (a : atom) (c : ascii) : bool :=
  match a with
  | Chr x => (x =? c)%char
  | Dot => negb (line_terminator c)
  | Cls neg rs => xorb neg (existsb (in_range c) rs)
  end.

Definition captures := list (str * str).

(** Matcher state: [bol] holds while nothing of the subject has been
    consumed, [rest] is what is left of it. *)
Record mstate := MState { bol : bool; rest : str; caps : captures }.

Definition cont := mstate -> option mstate.

(** What was consumed between two states of the same subject. *)
Definition consumed (s s' : str) : str :=
  firstn (length s - length s') s.

(** Greedy repetition of a one-character pattern: the longest run is
    tried first, then shorter ones. *)
Fixpoint many (p : ascii -> bool) (b : bool) (cs : captures) (s : str)
         (k : cont) : option mstate :=
  match s with
  | c :: s' =>
      if p c then
        match many p false cs s' k with
        | Some r => Some r
        | None => k (MState b s cs)
        end
      else k (MState b s cs)
  | [] => k (MState b [] cs)
  end.

Fixpoint m (r : regex) (st : mstate) (k : cont) : option mstate :=
  match r with
  | Eps => k st
  | Atom a =>
      match rest st with
      | c :: s' =>
          if atom_ok a c then k (MState false s' (caps st)) else None
      | [] => None
      end
  | Bol => if bol st then k st else None
  | Eol => match rest st with [] => k st | _ :: _ => None end
  | Cat r1 r2 => m r1 st (fun st' => m r2 st' k)
  | Alt r1 r2 =>
      match m r1 st k with
      | Some x => Some x
      | None => m r2 st k
      end
  | Opt r1 =>
      match m r1 st k with
      | Some x => Some x
      | None => k st
      end
  | Star a => many (atom_ok a) (bol st) (caps st) (rest st) k
  | Plus a =>
      match rest st with
      | c :: s' =>
          if atom_ok a c then many (atom_ok a) false (caps st) s' k
          else None
      | [] => None
      end
  | Grp n r1 =>
      m r1 st (fun st' =>
        k (MState (bol st') (rest st')
             ((n, consumed (rest st) (rest st')) :: caps st')))
  end.

(** The result of a successful match. *)
Record result :=
  Result { before : str; matched : str; after : str; groups : captures }.

Definition shift (c : ascii) (r : result) : result :=
  Result (c :: before r) (matched r) (after r) (groups r).

(** Leftmost match, starting the attempts at the head of [s]. *)
Fixpoint search (r : regex) (b : bool) (s : str) : option result :=
  match m r (MState b s []) Some with
  | Some st' =>
      Some (Result [] (consumed s (rest st')) (rest st') (caps st'))
  | None =>
      match s with
      | [] => None
      | c :: s' => option_map (shift c) (search r false s')
      end
  end.

(** [s.match(r)] for a pattern without the [g] flag. *)
Definition exec (r : regex) (s : str) : option result := search r true s.

(** [s.match(r)] used as a condition. *)
Definition test (r : regex) (s : str) : bool :=
  match exec r s with Some _ => true | None => false end.

(** [groups.name]; [None] is [undefined]. *)
Fixpoint group (n : str) (cs : captures) : option str :=
  match cs with
  | [] => None
  | (n', v) :: cs' => if n' =?s n then Some v else group n cs'
  end.

(** A named group that takes part in every match of its pattern. *)
Definition group_str (n : str) (cs : captures) : str :=
  group n cs ?? "".

(** [s.replace(r, f)] for a pattern without the [g] flag. *)
Definition replace (r : regex) (f : captures -> str) (s : str) : str :=
  match exec r s with
  | Some x => before x ++ f (groups x) ++ after x
  | None => s
  end.

(** [s.replace(r, f)] for a pattern with the [g] flag.  [skip] counts the
    characters of the current match that are still to be dropped. *)
Fixpoint replace_from (r : regex) (f : captures -> str) (b : bool)
         (skip : nat) (s : str) : str :=
  match skip with
  | S n =>
      match s with
      | [] => []
      | _ :: s' => replace_from r f false n s'
      end
  | O =>
      match m r (MState b s []) Some with
      | Some st' =>
          f (caps st')
          ++ match s with
             | [] => []
             | c :: s' =>
                 match length s - length (rest st') with
                 | O => c :: replace_from r f false 0 s'
                 | S n => replace_from r f false n s'
                 end
             end
      | None =>
          match s with
          | [] => []
          | c :: s' => c :: replace_from r f false 0 s'
          end
      end
  end.

Definition replaceAll (r : regex) (f : captures -> str) (s : str) : str :=
  replace_from r f true 0 s.

End RegExp.

Import RegExp.

(* ================================================================== *)
(** * The host                                                         *)
(* ================================================================== *)

(** What a protocol sees of the outside world.  None of it is defined in
    this repository: denops functions, the modules of dpp.vim and of the
    Deno standard library, and the Deno runtime. *)
Record Host := {
  (** [denops.call("dpp#util#_expand", p)] *)
  expand : str -> str;
  (** [vars.g.get(denops, "dpp#_base_path")] *)
  base_path : str;
  (** [isAbsolute] of [@std/path] *)
  isAbsolute : str -> bool;
  (** [isDirectory] of dpp.vim's utilities *)
  isDirectory : str -> bool;
  (** [safeStat] of dpp.vim's utilities, as a condition *)
  safeStat : str -> bool;
  (** [Deno.readTextFile]; [None] when the promise rejects *)
  readTextFile : str -> option str;
  (** [new Deno.Command(cmd, {args, cwd}).output()], its decoded standard
      output; [None] when the promise rejects *)
  output : str -> list str -> str -> option str;
  (** [Deno.cwd()] *)
  cwd : str
}.

(** An asynchronous method either returns or rejects. *)
Inductive outcome (A : Type) :=
| Returned (a : A)
| Thrown.

Arguments Thrown {A}.

(** Computations that read the host and send messages to
    [dpp#util#_error], the error sink of dpp.vim. *)
Definition M (A : Type) : Type := Host -> list str -> outcome A * list str.

Definition ret {A} (a : A) : M A := fun _ log => (Returned a, log).

Definition bind {A B} (c : M A) (f : A -> M B) : M B :=
  fun h log =>
    match c h log with
    | (Returned a, log') => f a h log'
    | (Thrown, log') => (Thrown, log')
    end.

Notation "x <- c ;; k" := (bind c (fun x => k))
  (at level 61, c at next level, right associativity).

Definition ask {A} (f : Host -> A) : M A := fun h log => (Returned (f h), log).

Definition await {A} (f : Host -> option A) : M A :=
  fun h log =>
    match f h with
    | Some a => (Returned a, log)
    | None => (Thrown, log)
    end.

(** [denops.call("dpp#util#_error", msg)] *)
Definition report (msg : str) : M unit :=
  fun _ log => (Returned tt, log ++ [msg]).

(** [Command] of dpp.vim's protocol interface. *)
Record Command := { command : str; args : list str }.

(** The [Partial<Plugin>] a [detect] answers with. *)
Record PluginUpdate := {
  u_frozen : option bool;
  u_local : option bool;
  u_path : option str;
  u_url : option str
}.

Definition quote : ascii := "034"%char.

(** [lines[0]] of [text.split("\n")] *)
Definition first_line (text : str) : str :=
  hd "" (Str.split "010"%char text).

(* ================================================================== *)
(** * denops/@dpp-protocols/git/main.ts                                *)
(* ================================================================== *)

Module Main.

(** [cloneDepth] is a [number]; it is taken to be a safe integer, of
    magnitude below [2^53]. *)
Record Params := {
  cloneDepth : Z;
  commandPath : str;
  defaultBranch : str;
  defaultHubSite : str;
  defaultProtocol : str;
  defaultRemote : str;
  enableCredentialHelper : bool;
  enablePartialClone : bool;
  enableSSLVerify : bool;
  pullArgs : list str
}.

Record Attrs := {
  gitDefaultBranch : option str;
  gitRemote : option str
}.

(** The properties of dpp.vim's [Plugin] that the protocol reads. *)
Record Plugin := {
  name : str;
  repo : option str;
  path : option str;
  rev : option str;
  local : option bool;
  protocolAttrs : option Attrs
}.

(** [params()] *)
Definition params : Params := {|
  cloneDepth := 0;
  commandPath := "git";
  defaultBranch := "main";
  defaultHubSite := "github.com";
  defaultProtocol := "https";
  defaultRemote := "origin";
  enableCredentialHelper := false;
  enablePartialClone := false;
  enableSSLVerify := true;
  pullArgs := ["pull"; "--ff"; "--ff-only"]
|}.

(** ** getGitUrl *)

(** [/\//] *)
Definition re_slash : regex := Atom (Chr "/").

(** [/^git@(?<host>[^:]+):(?<user>[^\/]+)\/(?<name>.+)/] *)
Definition re_ssh : regex :=
  seq [Bol; Lit "git@"; Grp "host" (Plus (Not ":")); Atom (Chr ":");
       Grp "user" (Plus (Not "/")); Atom (Chr "/"); Grp "name" (Plus Dot)].

(** [/^(?<protocol>[^:]+):\/\/(?<host>[^\/]+)\/(?<user>[^\/]+)\/(?<name>.+)/] *)
Definition re_protocol : regex :=
  seq [Bol; Grp "protocol" (Plus (Not ":")); Lit "://";
       Grp "host" (Plus (Not "/")); Atom (Chr "/");
       Grp "user" (Plus (Not "/")); Atom (Chr "/"); Grp "name" (Plus Dot)].

(** [/^((?<host>[^\/]+)\/)?(?<user>[^\/]+)\/(?<name>.+)/] *)
Definition re_host : regex :=
  seq [Bol; Opt (Grp "1" (seq [Grp "host" (Plus (Not "/")); Atom (Chr "/")]));
       Grp "user" (Plus (Not "/")); Atom (Chr "/"); Grp "name" (Plus Dot)].

(** The four variables [protocol], [host], [user] and [name] of
    [getGitUrl], as they stand once the three patterns have been tried. *)
Record Parsed := {
  p_protocol : str;
  p_host : str;
  p_user : str;
  p_name : str
}.

Definition parse (repo defaultHubSite defaultProtocol : str) : Parsed :=
  let sshMatch := exec re_ssh repo in
  let protocolMatch := exec re_protocol repo in
  let hostMatch := exec re_host repo in
  match sshMatch with
  | Some x =>
      {| p_protocol := "ssh";
         p_host := group_str "host" (groups x);
         p_user := group_str "user" (groups x);
         p_name := group_str "name" (groups x) |}
  | None =>
      match protocolMatch with
      | Some x =>
          {| p_protocol := group_str "protocol" (groups x);
             p_host := group_str "host" (groups x);
             p_user := group_str "user" (groups x);
             p_name := group_str "name" (groups x) |}
      | None =>
          match hostMatch with
          | Some x =>
              {| p_protocol := defaultProtocol;
                 p_host := if truthy (group "host" (groups x))
                           then group_str "host" (groups x)
                           else defaultHubSite;
                 p_user := group_str "user" (groups x);
                 p_name := group_str "name" (groups x) |}
          | None =>
              {| p_protocol := defaultProtocol;
                 p_host := defaultHubSite;
                 p_user := "";
                 p_name := "" |}
          end
      end
  end.

(** The url before the suffix policy. *)
Definition url_of (p : Parsed) : str :=
  if p_protocol p =?s "ssh"
  then "git@" ++ p_host p ++ ":" ++ p_user p ++ "/" ++ p_name p
  else p_protocol p ++ "://" ++ p_host p ++ "/" ++ p_user p ++ "/"
       ++ p_name p.

(** The checks and the construction that follow the parse. *)
Definition build (p : Parsed) : str :=
  if (p_user p =?s "") || (p_name p =?s "") then ""
  else if negb (p_protocol p =?s "https") && negb (p_protocol p =?s "ssh")
  then ""
  else
    let url := url_of p in
    if (p_host p =?s "git.sr.ht") || Str.endsWith url ".git"
    then url
    else url ++ ".git".

Definition getGitUrl (plugin : Plugin) (defaultHubSite defaultProtocol : str)
  : str :=
  match repo plugin with
  | None => ""
  | Some r =>
      if negb (Str.truthy r) || negb (test re_slash r) then ""
      else build (parse r defaultHubSite defaultProtocol)
  end.

(** ** Protocol *)

(** [/\/\/(raw|gist)\.githubusercontent\.com\/|\/archive\/[^\/]+.zip$/] *)
Definition re_raw : regex :=
  Alt (seq [Lit "//"; Grp "1" (Alt (Lit "raw") (Lit "gist"));
            Lit ".githubusercontent.com/"])
      (seq [Lit "/archive/"; Plus (Not "/"); Atom Dot; Lit "zip"; Eol]).

(** [/^~/] *)
Definition re_tilde : regex := seq [Bol; Atom (Chr "~")].

(** [/\.git$/] *)
Definition re_dot_git : regex := seq [Lit ".git"; Eol].

(** [/https:\/+|^git@/g] *)
Definition re_scheme : regex :=
  Alt (seq [Lit "https:"; Plus (Chr "/")]) (seq [Bol; Lit "git@"]).

(** [/:/] *)
Definition re_colon : regex := Atom (Chr ":").

(** [/^git@github.com:/] *)
Definition re_github : regex :=
  seq [Bol; Lit "git@github"; Atom Dot; Lit "com:"].

(** [/^git@git.sr.ht:/] *)
Definition re_srht : regex :=
  seq [Bol; Lit "git@git"; Atom Dot; Lit "sr"; Atom Dot; Lit "ht:"].

(** [/\*/] *)
Definition re_star : regex := Atom (Chr "*").

(** [/fatal: /] *)
Definition re_fatal : regex := Lit "fatal: ".

(** [/^(H) /] where [H] is [[0-9a-f]] starred: a run of hexadecimal
    digits, captured, and the space after it *)
Definition re_hash : regex :=
  seq [Bol; Grp "1" (Star (Cls false [("0"%char, "9"%char);
                                      ("a"%char, "f"%char)]));
       Atom (Chr " ")].

Definition getUrl (plugin : Plugin) (protocolParams : Params) : str :=
  getGitUrl plugin (defaultHubSite protocolParams)
            (defaultProtocol protocolParams).

Definition is_true (o : option bool) : bool := o ?? false.

Definition detect (plugin : Plugin) (protocolParams : Params)
  : M (option PluginUpdate) :=
  match repo plugin with
  | None => ret None
  | Some r =>
      if negb (Str.truthy r) then ret None
      else if test re_raw r then
        (* Raw repository *)
        ret None
      else
        absolute <- ask (fun h => isAbsolute h r) ;;
        early <-
          (if absolute || test re_tilde r then
             if is_true (local plugin) then
               (* Already local *)
               ret (Some None)
             else
               path <- ask (fun h => expand h r) ;;
               dir <- ask (fun h => isDirectory h path) ;;
               if dir then
                 (* Local repository *)
                 ret (Some (Some {| u_frozen := None;
                                    u_local := Some true;
                                    u_path := Some path;
                                    u_url := None |}))
               else ret None
           else ret None) ;;
        match early with
        | Some answer => ret answer
        | None =>
            let url := getUrl plugin protocolParams in
            if length url =? 0 then ret None
            else
              let directory :=
                replace re_colon (fun _ => "/")
                  (replaceAll re_scheme (fun _ => "")
                     (replace re_dot_git (fun _ => "") url)) in
              let browseUrl :=
                replace re_dot_git (fun _ => "")
                  (replace re_srht (fun _ => "https://git.sr.ht")
                     (replace re_github (fun _ => "https://github.com/")
                        url)) in
              base <- ask base_path ;;
              ret (Some {| u_frozen := None;
                           u_local := None;
                           u_path := Some (base ++ "/repos/" ++ directory);
                           u_url := Some browseUrl |})
        end
  end.

(** [!args.plugin.repo || !args.plugin.path] *)
Definition inapplicable (plugin : Plugin) : bool :=
  negb (truthy (repo plugin)) || negb (truthy (path plugin)).

Definition credentialHelper (protocolParams : Params) : list str :=
  if enableCredentialHelper protocolParams then []
  else ["-c"; "credential.helper="; "-c"; "core.fsmonitor=false"].

Definition sslVerify (protocolParams : Params) : list str :=
  if enableSSLVerify protocolParams then []
  else ["-c"; "http.sslVerify=false"].

Definition initArgs (protocolParams : Params) : list str :=
  credentialHelper protocolParams ++ sslVerify protocolParams.

(** [attrs?.gitRemote ?? args.protocolParams.defaultRemote] *)
Definition remote (plugin : Plugin) (protocolParams : Params) : str :=
  match protocolAttrs plugin with
  | Some attrs => gitRemote attrs ?? defaultRemote protocolParams
  | None => defaultRemote protocolParams
  end.

(** [attrs?.gitDefaultBranch ?? args.protocolParams.defaultBranch] *)
Definition branch (plugin : Plugin) (protocolParams : Params) : str :=
  match protocolAttrs plugin with
  | Some attrs => gitDefaultBranch attrs ?? defaultBranch protocolParams
  | None => defaultBranch protocolParams
  end.

Definition getSyncCommands (plugin : Plugin) (protocolParams : Params)
  : M (list Command) :=
  if inapplicable plugin then ret []
  else
    let depth := cloneDepth protocolParams in
    let initArgs := initArgs protocolParams in
    let path := path plugin ?? "" in
    dir <- ask (fun h => isDirectory h path) ;;
    if dir then
      let fetchArgs := initArgs ++ ["fetch"] in
      let remoteArgs :=
        ["remote"; "set-head"; remote plugin protocolParams; "-a"] in
      let submoduleArgs :=
        ["submodule"; "update"; "--init"; "--recursive"] in
      let commands := [] in
      let commands :=
        commands
        ++ [{| command := commandPath protocolParams; args := fetchArgs |}] in
      let commands :=
        if (depth =? 0)%Z && (depth <=? 0)%Z then
          commands
          ++ [{| command := commandPath protocolParams;
                 args := remoteArgs |}]
        else commands in
      let commands :=
        commands
        ++ [{| command := commandPath protocolParams;
               args := pullArgs protocolParams |}] in
      let commands :=
        commands
        ++ [{| command := commandPath protocolParams;
               args := submoduleArgs |}] in
      ret commands
    else
      let commandArgs := initArgs ++ ["clone"; "--recursive"] in
      let commandArgs :=
        if enablePartialClone protocolParams
        then commandArgs ++ ["--filter=blob:none"]
        else commandArgs in
      let commandArgs :=
        if negb (depth =? 0)%Z && (0 <? depth)%Z then
          let commandArgs := commandArgs ++ ["--depth=" ++ Str.of_Z depth] in
          match rev plugin with
          | Some r =>
              if Str.truthy r && (0 <? length r)
              then commandArgs ++ ["--branch"; r]
              else commandArgs
          | None => commandArgs
          end
        else commandArgs in
      let commandArgs := commandArgs ++ [getUrl plugin protocolParams] in
      let commandArgs := commandArgs ++ [path] in
      ret [{| command := commandPath protocolParams; args := commandArgs |}].

Definition getRollbackCommands (plugin : Plugin) (protocolParams : Params)
           (rev : str) : list Command :=
  if inapplicable plugin then []
  else [{| command := commandPath protocolParams;
           args := ["reset"; "--hard"; rev] |}].

Definition getDiffCommands (plugin : Plugin) (protocolParams : Params)
           (newRev oldRev : str) : list Command :=
  if inapplicable plugin then []
  else [{| command := commandPath protocolParams;
           args := ["diff"; oldRev ++ ".." ++ newRev; "--"; "doc"; "README";
                    "README.md"] |}].

(** [cwd: await isDirectory(args.plugin.path ?? "") ? args.plugin.path
    : Deno.cwd()] *)
Definition workdir (plugin : Plugin) : M str :=
  dir <- ask (fun h => isDirectory h (path plugin ?? "")) ;;
  if dir then ret (path plugin ?? "") else ask cwd.

(** A subprocess of the git command, run to completion. *)
Definition run (plugin : Plugin) (protocolParams : Params)
           (arguments : list str) : M str :=
  dir <- workdir plugin ;;
  await (fun h => output h (commandPath protocolParams) arguments dir).

Definition getLogCommands (plugin : Plugin) (protocolParams : Params)
           (newRev oldRev : str) : M (list Command) :=
  if inapplicable plugin || (length newRev =? 0) || (length oldRev =? 0)
  then ret []
  else
    stdout <- run plugin protocolParams ["merge-base"; oldRev; newRev] ;;
    let isNotAncestor := stdout =?s oldRev in
    ret [{| command := commandPath protocolParams;
            args := ["log";
                     oldRev ++ (if isNotAncestor then "" else "^") ++ ".."
                     ++ newRev;
                     "--graph";
                     "--no-show-signature";
                     "--pretty=format:" ++ [quote] ++ "%h [%cr] %s"
                     ++ [quote]] |}].

Definition getRevisionLockCommands (plugin : Plugin)
           (protocolParams : Params) : M (list Command) :=
  if inapplicable plugin then ret []
  else
    let rev0 := rev plugin ?? "" in
    rev1 <-
      (if Str.truthy rev0 && test re_star rev0 then
         (* Use the released tag *)
         stdout <- run plugin protocolParams
                     ["tag"; rev0; "--list"; "--sort"; "-version:refname"] ;;
         ret (first_line stdout)
       else ret rev0) ;;
    rev2 <-
      (if length rev1 =? 0 then
         (* Fix detach HEAD. *)
         stdout <- run plugin protocolParams
                     ["symbolic-ref"; "--short"; "HEAD"] ;;
         let rev := first_line stdout in
         if test re_fatal rev then ret (branch plugin protocolParams)
         else ret rev
       else ret rev1) ;;
    ret [{| command := commandPath protocolParams;
            args := ["checkout"; "--quiet"; "--guess"; rev2; "--"] |}].

Definition getChangesCountCommands (plugin : Plugin)
           (protocolParams : Params) (newRev oldRev : str) : list Command :=
  if inapplicable plugin then []
  else [{| command := commandPath protocolParams;
           args := ["rev-list"; "--count"; oldRev ++ ".." ++ newRev] |}].

Definition getGitDir (base : str) : M str :=
  dir <- ask (fun h => isDirectory h (base ++ "/.git")) ;;
  ret (if dir then base ++ "/.git" else "").

Definition getRevision (plugin : Plugin) : M str :=
  if inapplicable plugin then ret ""
  else
    gitDir <- getGitDir (path plugin ?? "") ;;
    if length gitDir =? 0 then ret ""
    else
      head <- await (fun h => readTextFile h (gitDir ++ "/HEAD")) ;;
      let headFileLine := first_line head in
      if Str.startsWith headFileLine "ref: " then
        let ref := Str.slice 5 headFileLine in
        found <- ask (fun h => safeStat h (gitDir ++ "/" ++ ref)) ;;
        if found then
          text <- await (fun h => readTextFile h (gitDir ++ "/" ++ ref)) ;;
          ret (first_line text)
        else
          packed <-
            await (fun h => readTextFile h (gitDir ++ "/packed-refs")) ;;
          match filter (fun line => Str.includes line (" " ++ ref))
                       (Str.split "010"%char packed) with
          | line :: _ => ret (replace re_hash (group_str "1") line)
          | [] => ret headFileLine
          end
      else ret headFileLine.

End Main.

(* ================================================================== *)
(** * denops/@dpp-protocols/git.ts                                     *)
(* ================================================================== *)

(** The earlier variant of the protocol.  Its rollback, diff, log and
    revision operations read as those of [Main]; what differs, and is
    embedded here, is [detect], [getUrl] and [getSyncCommands]. *)
Module Git.

(** [cloneDepth] is a [number]; it is taken to be a safe integer, of
    magnitude below [2^53]. *)
Record Params := {
  cloneDepth : Z;
  commandPath : str;
  defaultBranch : str;
  defaultHubSite : str;
  defaultProtocol : str;
  defaultRemote : str;
  partialClone : bool;
  pullArgs : list str
}.

(** [GitPlugin]: dpp.vim's [Plugin] and the two attributes of the
    protocol. *)
Record Plugin := {
  name : str;
  repo : option str;
  path : option str;
  rev : option str;
  local : option bool;
  __gitDefaultBranch : option str;
  __gitRemote : option str
}.

(** [params()] *)
Definition params : Params := {|
  cloneDepth := 0;
  commandPath := "git";
  defaultBranch := "main";
  defaultHubSite := "github.com";
  defaultProtocol := "https";
  defaultRemote := "origin";
  partialClone := false;
  pullArgs := ["pull"; "--ff"; "--ff-only"]
|}.

(** [/^git@(?<host>[^:]+):(?<name>.+)/] *)
Definition re_ssh : regex :=
  seq [Bol; Lit "git@"; Grp "host" (Plus (Not ":")); Atom (Chr ":");
       Grp "name" (Plus Dot)].

(** [/^(?<protocol>[^:]+):\/\/(?<host>[^\/]+)\/(?<name>.+)/] *)
Definition re_protocol : regex :=
  seq [Bol; Grp "protocol" (Plus (Not ":")); Lit "://";
       Grp "host" (Plus (Not "/")); Atom (Chr "/"); Grp "name" (Plus Dot)].

(** [/^https:\/+|^git@/] *)
Definition re_scheme : regex :=
  Alt (seq [Bol; Lit "https:"; Plus (Chr "/")]) (seq [Bol; Lit "git@"]).

Record Parsed := {
  p_protocol : str;
  p_host : str;
  p_name : str
}.

Definition parse (repo defaultHubSite defaultProtocol : str) : Parsed :=
  let sshMatch := exec re_ssh repo in
  let protocolMatch := exec re_protocol repo in
  match sshMatch with
  | Some x =>
      {| p_protocol := "ssh";
         p_host := group_str "host" (groups x);
         p_name := group_str "name" (groups x) |}
  | None =>
      match protocolMatch with
      | Some x =>
          {| p_protocol := group_str "protocol" (groups x);
             p_host := group_str "host" (groups x);
             p_name := group_str "name" (groups x) |}
      | None =>
          {| p_protocol := defaultProtocol;
             p_host := defaultHubSite;
             p_name := repo |}
      end
  end.

Definition getUrl (plugin : Plugin) (protocolParams : Params) : M str :=
  match repo plugin with
  | None => ret ""
  | Some r =>
      if negb (Str.truthy r) || negb (test Main.re_slash r) then ret ""
      else
        let p := parse r (defaultHubSite protocolParams)
                       (defaultProtocol protocolParams) in
        if negb (p_protocol p =?s "https") && negb (p_protocol p =?s "ssh")
        then
          _ <- report ("Invalid git protocol: " ++ [quote] ++ p_protocol p
                       ++ [quote]) ;;
          ret ""
        else
          ret (if p_protocol p =?s "ssh"
               then "git@" ++ p_host p ++ ":" ++ p_name p
               else p_protocol p ++ "://" ++ p_host p ++ "/" ++ p_name p)
  end.

Definition detect (plugin : Plugin) (protocolParams : Params)
  : M (option PluginUpdate) :=
  match repo plugin with
  | None => ret None
  | Some r =>
      if negb (Str.truthy r) then ret None
      else if test Main.re_raw r then
        (* Raw repository *)
        ret None
      else
        absolute <- ask (fun h => isAbsolute h r) ;;
        early <-
          (if absolute || test Main.re_tilde r then
             if Main.is_true (local plugin) then
               (* Already local *)
               ret (Some None)
             else
               path <- ask (fun h => expand h r) ;;
               dir <- ask (fun h => isDirectory h path) ;;
               if dir then
                 (* Local repository *)
                 ret (Some (Some {| u_frozen := Some true;
                                    u_local := Some true;
                                    u_path := Some path;
                                    u_url := None |}))
               else ret None
           else ret None) ;;
        match early with
        | Some answer => ret answer
        | None =>
            url <- getUrl plugin protocolParams ;;
            if length url =? 0 then ret None
            else
              let directory :=
                replace Main.re_colon (fun _ => "/")
                  (replace re_scheme (fun _ => "")
                     (replace Main.re_dot_git (fun _ => "") url)) in
              base <- ask base_path ;;
              ret (Some {| u_frozen := None;
                           u_local := None;
                           u_path := Some (base ++ "/repos/" ++ directory);
                           u_url := None |})
        end
  end.

Definition inapplicable (plugin : Plugin) : bool :=
  negb (truthy (repo plugin)) || negb (truthy (path plugin)).

Definition getSyncCommands (plugin : Plugin) (protocolParams : Params)
  : M (list Command) :=
  if inapplicable plugin then ret []
  else
    let depth := cloneDepth protocolParams in
    let path := path plugin ?? "" in
    dir <- ask (fun h => isDirectory h path) ;;
    if dir then
      let fetchArgs := ["-c"; "credential.helper="; "fetch"] in
      let remoteArgs :=
        ["remote"; "set-head";
         __gitRemote plugin ?? defaultRemote protocolParams; "-a"] in
      let submoduleArgs :=
        ["submodule"; "update"; "--init"; "--recursive"] in
      let commands := [] in
      let commands :=
        commands
        ++ [{| command := commandPath protocolParams; args := fetchArgs |}] in
      let commands :=
        if (depth =? 0)%Z && (depth <=? 0)%Z then
          commands
          ++ [{| command := commandPath protocolParams;
                 args := remoteArgs |}]
        else commands in
      let commands :=
        commands
        ++ [{| command := commandPath protocolParams;
               args := pullArgs protocolParams |}] in
      let commands :=
        commands
        ++ [{| command := commandPath protocolParams;
               args := submoduleArgs |}] in
      ret commands
    else
      let commandArgs := ["-c"; "credential.helper="; "clone"; "--recursive"] in
      let commandArgs :=
        if partialClone protocolParams
        then commandArgs ++ ["--filter=blob:none"]
        else commandArgs in
      let commandArgs :=
        if negb (depth =? 0)%Z && (0 <? depth)%Z then
          let commandArgs := commandArgs ++ ["--depth=" ++ Str.of_Z depth] in
          match rev plugin with
          | Some r =>
              if Str.truthy r && (0 <? length r)
              then commandArgs ++ ["--branch"; r]
              else commandArgs
          | None => commandArgs
          end
        else commandArgs in
      url <- getUrl plugin protocolParams ;;
      let commandArgs := commandArgs ++ [url] in
      let commandArgs := commandArgs ++ [path] in
      ret [{| command := commandPath protocolParams; args := commandArgs |}].

End Git.

(* ================================================================== *)
(** * Vocabulary of the properties                                     *)
(* ================================================================== *)

(** ** Deterministic readings of the identifier patterns

    Each of the patterns of [getGitUrl] is a sequence of greedy fields, and
    every field but the last is followed by a character its class excludes,
    so that backtracking never changes a field.  The functions below read
    an identifier field by field; they are proved equal to the matcher on
    the patterns of the source. *)

(** One or more characters matching [a], as many as there are. *)
Definition field (a : atom) (s : str) : option (str * str) :=
  match Str.span (atom_ok a) s with
  | ([], _) => None
  | (h, r) => Some (h, r)
  end.

(** The character [c]. *)
Definition sep (c : ascii) (s : str) : option str :=
  match s with
  | x :: s' => if (c =? x)%char then Some s' else None
  | [] => None
  end.

Notation "' p <-? c ;; k" :=
  (match c with Some p => k | None => None end)
  (at level 61, p pattern, c at next level, right associativity).

(** [user/name], the tail shared by the three patterns of [Main]. *)
Definition user_name (s : str) : option (str * str) :=
  ' (u, s1) <-? field (Not "/") s ;;
  ' s2 <-? sep "/" s1 ;;
  ' (n, _) <-? field Dot s2 ;;
  Some (u, n).

Definition ssh_direct (s : str) : option (str * str * str) :=
  ' s1 <-? Str.strip_prefix "git@" s ;;
  ' (h, s2) <-? field (Not ":") s1 ;;
  ' s3 <-? sep ":" s2 ;;
  ' (u, n) <-? user_name s3 ;;
  Some (h, u, n).

Definition protocol_direct (s : str) : option (str * str * str * str) :=
  ' (p, s1) <-? field (Not ":") s ;;
  ' s2 <-? Str.strip_prefix "://" s1 ;;
  ' (h, s3) <-? field (Not "/") s2 ;;
  ' s4 <-? sep "/" s3 ;;
  ' (u, n) <-? user_name s4 ;;
  Some (p, h, u, n).

Definition host_direct (s : str) : option (option str * str * str) :=
  match (' (h, s1) <-? field (Not "/") s ;;
         ' s2 <-? sep "/" s1 ;;
         ' (u, n) <-? user_name s2 ;;
         Some (Some h, u, n)) with
  | Some x => Some x
  | None => ' (u, n) <-? user_name s ;; Some (None, u, n)
  end.

(** ** Shapes of identifiers and of plans *)

(** The suffix policy of [getGitUrl]. *)
Definition suffix_policy (host url : str) : str :=
  if (host =?s "git.sr.ht") || Str.endsWith url ".git" then url
  else url ++ ".git".

Definition no_slash (s : str) : Prop := ~ In "/"%char s.
Definition no_colon (s : str) : Prop := ~ In ":"%char s.
Definition one_line (s : str) : Prop :=
  Forall (fun c => line_terminator c = false) s.

(** The bare shorthand: [user/name], or [host/user/name].  The identifier,
    the host it names if any, the user and the name. *)
Inductive shorthand : str -> option str -> str -> str -> Prop :=
| shorthand_user_name user name :
    user <> "" -> no_slash user ->
    name <> "" -> no_slash name -> one_line name ->
    shorthand (user ++ "/" ++ name) None user name
| shorthand_host_user_name host user name :
    host <> "" -> no_slash host ->
    user <> "" -> no_slash user ->
    name <> "" -> one_line name ->
    shorthand (host ++ "/" ++ user ++ "/" ++ name) (Some host) user name.

(** An argument that is a [--depth] flag. *)
Definition is_depth_flag (a : str) : bool := Str.startsWith a "--depth".

Definition has_depth_flag (c : Command) : bool :=
  existsb is_depth_flag (args c).

(** A host for the examples: POSIX absolute paths, nothing to expand,
    every path a directory or none according to [dirs], and subprocesses
    that print [stdout]. *)
Definition sample_host (dirs : bool) (stdout : str) : Host := {|
  expand := fun p => p;
  base_path := "/cache";
  isAbsolute := fun p => Str.startsWith p "/";
  isDirectory := fun _ => dirs;
  safeStat := fun _ => false;
  readTextFile := fun _ => None;
  output := fun _ _ _ => Some stdout;
  cwd := "/"
|}.

(** [params()] of [Main] with another hub site and protocol. *)
Definition main_params (hub protocol : str) : Main.Params := {|
  Main.cloneDepth := 0;
  Main.commandPath := "git";
  Main.defaultBranch := "main";
  Main.defaultHubSite := hub;
  Main.defaultProtocol := protocol;
  Main.defaultRemote := "origin";
  Main.enableCredentialHelper := false;
  Main.enablePartialClone := false;
  Main.enableSSLVerify := true;
  Main.pullArgs := ["pull"; "--ff"; "--ff-only"]
|}.

Definition main_plugin (r : str) (p : option str) : Main.Plugin := {|
  Main.name := "";
  Main.repo := Some r;
  Main.path := p;
  Main.rev := None;
  Main.local := None;
  Main.protocolAttrs := None
|}.

Definition git_plugin (r : str) (p : option str) : Git.Plugin := {|
  Git.name := "";
  Git.repo := Some r;
  Git.path := p;
  Git.rev := None;
  Git.local := None;
  Git.__gitDefaultBranch := None;
  Git.__gitRemote := None
|}.

(** The arguments of the clone command of [Main.getSyncCommands]: the
    credential and TLS flags, then the clone proper. *)
Definition clone_args (plugin : Main.Plugin) (params : Main.Params) (p : str)
  : list str :=
  (if Main.enableCredentialHelper params then []
   else ["-c"; "credential.helper="; "-c"; "core.fsmonitor=false"])
  ++ (if Main.enableSSLVerify params then []
      else ["-c"; "http.sslVerify=false"])
  ++ ["clone"; "--recursive"]
  ++ (if Main.enablePartialClone params then ["--filter=blob:none"] else [])
  ++ (if (0 <? Main.cloneDepth params)%Z then
        ["--depth=" ++ Str.of_Z (Main.cloneDepth params)]
        ++ match Main.rev plugin with
           | Some v => if Str.truthy v then ["--branch"; v] else []
           | None => []
           end
      else [])
  ++ [Main.getUrl plugin params; p].

(** The commands of an update plan. *)
Definition set_head (cmd remote : str) : Command :=
  {| command := cmd; args := ["remote"; "set-head"; remote; "-a"] |}.

Definition submodule_update (cmd : str) : Command :=
  {| command := cmd;
     args := ["submodule"; "update"; "--init"; "--recursive"] |}.

(** The message [getUrl] of [git.ts] sends to the error sink. *)
Definition invalid_protocol_message (protocol : str) : str :=
  "Invalid git protocol: " ++ [quote] ++ protocol ++ [quote].

(** ** Auxiliary notions of the proofs *)

(** The longest run, where the state of the matcher stands after it. *)
Definition after_run (p : ascii -> bool) (b : bool) (cs : captures)
           (s : str) : mstate :=
  MState (match fst (Str.span p s) with [] => b | _ :: _ => false end)
         (snd (Str.span p s)) cs.

(** The tail [(?<user>[^\/]+)\/(?<name>.+)] of the three patterns. *)
Definition re_user_name : regex :=
  Cat (Grp "user" (Plus (Not "/")))
      (Cat (Atom (Chr "/")) (Cat (Grp "name" (Plus Dot)) Eps)).

(** What [getGitUrl] reads of a match of its third pattern. *)
Definition host_fields (cs : captures) : option str * str * str :=
  (group "host" cs, group_str "user" cs, group_str "name" cs).

Unset Implicit Arguments.

(** ** Vocabulary of the further properties *)

(** [s] without a trailing [.git]. *)
Definition strip_dot_git (s : str) : str :=
  if Str.endsWith s ".git" then firstn (length s - 4) s else s.

(** The directory, below [repos], that [detect] derives from a URL. *)
Definition directory_of (url : str) : str :=
  replace Main.re_colon (fun _ => "/")
    (replaceAll Main.re_scheme (fun _ => "")
       (replace Main.re_dot_git (fun _ => "") url)).

(** The URL [detect] shows for a URL to clone from. *)
Definition browse_of (url : str) : str :=
  replace Main.re_dot_git (fun _ => "")
    (replace Main.re_srht (fun _ => "https://git.sr.ht")
       (replace Main.re_github (fun _ => "https://github.com/") url)).

(** The local shortcut of [detect] does not answer for [r]. *)
Definition remote_candidate (h : Host) (plugin : Main.Plugin) (r : str)
  : Prop :=
  (isAbsolute h r || Str.startsWith r "~") = false
  \/ (Main.local plugin <> Some true /\ isDirectory h (expand h r) = false).

(** The record [detect] answers with for a plugin to be installed from
    [https://<location>]. *)
Definition remote_record (h : Host) (location : str) : PluginUpdate :=
  {| u_frozen := None;
     u_local := None;
     u_path := Some (base_path h ++ "/repos/" ++ location);
     u_url := Some ("https://" ++ location) |}.

(** A non-empty component without slash and colon. *)
Definition clean (s : str) : Prop := s <> "" /\ no_slash s /\ no_colon s.

(** Identifiers [detect] takes for raw files or archives. *)
Inductive raw_location : str -> Prop :=
| raw_file a b : raw_location (a ++ "//raw.githubusercontent.com/" ++ b)
| raw_gist a b : raw_location (a ++ "//gist.githubusercontent.com/" ++ b)
| raw_archive a name c :
    name <> "" -> no_slash name -> line_terminator c = false ->
    raw_location (a ++ "/archive/" ++ name ++ c :: "zip").

(** The line feed. *)
Definition newline : ascii := "010"%char.

(** The working directory of a subprocess of [plugin]. *)
Definition workdir_of (h : Host) (p : str) : str :=
  if isDirectory h p then p else cwd h.

(** The command of a revision lock. *)
Definition checkout (cmd rev : str) : Command :=
  {| command := cmd; args := ["checkout"; "--quiet"; "--guess"; rev; "--"] |}.

(** [[0-9a-f]] *)
Definition hex : atom := Cls false [("0"%char, "9"%char); ("a"%char, "f"%char)].

(** A packed reference with the blank after its leading run of
    hexadecimal digits removed; any other line as it is. *)
Definition unspaced (line : str) : str :=
  match Str.span (atom_ok hex) line with
  | (digits, " "%char :: tl) => digits ++ tl
  | _ => line
  end.


(** A file system for the examples: the directories [dirs] and the text
    files [files]; no subprocess can be run. *)
Definition checkout_host (dirs : list str) (files : list (str * str))
  : Host := {|
  expand := fun p => p;
  base_path := "/cache";
  isAbsolute := fun p => Str.startsWith p "/";
  isDirectory := fun p => existsb (Str.eqb p) dirs;
  safeStat := fun p => existsb (fun f => Str.eqb p (fst f)) files;
  readTextFile := fun p =>
    option_map snd (find (fun f => Str.eqb p (fst f)) files);
  output := fun _ _ _ => None;
  cwd := "/"
|}.

(** [git@host:name], read field by field. *)
Definition git_ssh_direct (s : str) : option (str * str) :=
  ' s1 <-? Str.strip_prefix "git@" s ;;
  ' (h, s2) <-? field (Not ":") s1 ;;
  ' s3 <-? sep ":" s2 ;;
  ' (n, _) <-? field Dot s3 ;;
  Some (h, n).

(** [protocol://host/name], read field by field. *)
Definition git_protocol_direct (s : str) : option (str * str * str) :=
  ' (p, s1) <-? field (Not ":") s ;;
  ' s2 <-? Str.strip_prefix "://" s1 ;;
  ' (h, s3) <-? field (Not "/") s2 ;;
  ' s4 <-? sep "/" s3 ;;
  ' (n, _) <-? field Dot s4 ;;
  Some (p, h, n).

(** Every command of [plan] runs the executable [cmd]. *)
Definition runs (cmd : str) (plan : list Command) : Prop :=
  Forall (fun c => command c = cmd) plan.

(** A computation that leaves the error log as it found it, whether it
    returns or rejects. *)
Definition quiet {A} (c : M A) : Prop :=
  forall h log, snd (c h log) = log.

(** Whether the number [z] is a safe integer. *)
Definition safe_integer (z : Z) : Prop := (- 2 ^ 53 < z < 2 ^ 53)%Z.

(** A plugin installed at [p] that carries the protocol attributes
    [attrs]. *)
Definition attrs_plugin (r p : str) (attrs : Main.Attrs) : Main.Plugin := {|
  Main.name := "";
  Main.repo := Some r;
  Main.path := Some p;
  Main.rev := None;
  Main.local := None;
  Main.protocolAttrs := Some attrs
|}.

(** A host for the examples on which every path is a directory, the tag
    listing prints [tags] and every other subprocess prints [head]. *)
Definition git_host (tags head : str) : Host := {|
  expand := fun p => p;
  base_path := "/cache";
  isAbsolute := fun p => Str.startsWith p "/";
  isDirectory := fun _ => true;
  safeStat := fun _ => false;
  readTextFile := fun _ => None;
  output := fun _ arguments _ =>
    Some (if hd "" arguments =?s "tag" then tags else head);
  cwd := "/"
|}.

(** A plugin installed at [p] for which the revision [v] is requested. *)
Definition main_plugin_at (r p v : str) : Main.Plugin := {|
  Main.name := "";
  Main.repo := Some r;
  Main.path := Some p;
  Main.rev := Some v;
  Main.local := None;
  Main.protocolAttrs := None
|}.

(** A plugin the caller has flagged local. *)
Definition main_local_plugin (r : str) : Main.Plugin := {|
  Main.name := "";
  Main.repo := Some r;
  Main.path := None;
  Main.rev := None;
  Main.local := Some true;
  Main.protocolAttrs := None
|}.

(* ================================================================== *)
(** * Strings: basic facts                                             *)
(* ================================================================== *)

Section StringFacts.

Lemma eqb_eq (a b : str) : (a =?s b) = true <-> a = b.
Proof.
  revert b; induction a as [|x a IH]; intros [|y b]; simpl;
    try (split; [discriminate | discriminate]); try tauto.
  rewrite andb_true_iff, Ascii.eqb_eq, IH.
  split; [intros [-> ->]; reflexivity | intros E; inversion E; auto].
Qed.

Lemma eqb_refl (a : str) : (a =?s a) = true.
Proof. apply eqb_eq; reflexivity. Qed.

Lemma eqb_neq (a b : str) : (a =?s b) = false <-> a <> b.
Proof.
  rewrite <- eqb_eq. destruct (a =?s b); split; congruence.
Qed.

Lemma strip_prefix_app (p s : str) : Str.strip_prefix p (p ++ s) = Some s.
Proof.
  induction p as [|x p IH]; simpl; [reflexivity|].
  rewrite Ascii.eqb_refl. exact IH.
Qed.

Lemma strip_prefix_inv (p s r : str) :
  Str.strip_prefix p s = Some r -> s = p ++ r.
Proof.
  revert s; induction p as [|x p IH]; simpl; intros s H.
  - congruence.
  - destruct s as [|y s]; [discriminate|].
    destruct (Ascii.eqb x y) eqn:E; [|discriminate].
    apply Ascii.eqb_eq in E; subst y. f_equal; auto.
Qed.

Lemma endsWith_app (x p : str) : Str.endsWith (x ++ p) p = true.
Proof.
  unfold Str.endsWith, Str.startsWith.
  rewrite rev_app_distr, strip_prefix_app. reflexivity.
Qed.

Lemma span_app (p : ascii -> bool) (s : str) :
  fst (Str.span p s) ++ snd (Str.span p s) = s.
Proof.
  induction s as [|c s IH]; simpl; [reflexivity|].
  destruct (p c); [|reflexivity].
  destruct (Str.span p s) as [h r]; simpl in *. congruence.
Qed.

Lemma span_all (p : ascii -> bool) (s : str) :
  Forall (fun c => p c = true) (fst (Str.span p s)).
Proof.
  induction s as [|c s IH]; simpl; [constructor|].
  destruct (p c) eqn:E; [|constructor].
  destruct (Str.span p s) as [h r]; simpl in *. constructor; assumption.
Qed.

(** A run of [p]-characters up to a character that is not one. *)
Lemma span_stop (p : ascii -> bool) (h r : str) (c : ascii) :
  Forall (fun x => p x = true) h -> p c = false ->
  Str.span p (h ++ c :: r) = (h, c :: r).
Proof.
  intros Hh Hc; induction Hh as [|x h Hx _ IH]; simpl.
  - rewrite Hc; reflexivity.
  - rewrite Hx, IH; reflexivity.
Qed.

(** A run of [p]-characters up to the end. *)
Lemma span_end (p : ascii -> bool) (h : str) :
  Forall (fun x => p x = true) h -> Str.span p h = (h, []).
Proof.
  intros Hh; induction Hh as [|x h Hx _ IH]; simpl; [reflexivity|].
  rewrite Hx, IH; reflexivity.
Qed.

Lemma firstn_length_app (h r : str) :
  firstn (length (h ++ r) - length r) (h ++ r) = h.
Proof.
  rewrite length_app, Nat.add_sub.
  rewrite firstn_app, Nat.sub_diag, firstn_all. simpl. apply app_nil_r.
Qed.

End StringFacts.

(* ================================================================== *)
(** * The matcher on character classes                                 *)
(* ================================================================== *)

Section MatcherFacts.

Lemma in_range_single (c x : ascii) : in_range c (x, x) = (x =? c)%char.
Proof.
  unfold in_range; simpl.
  destruct (Ascii.eqb_spec x c) as [->|N].
  - rewrite Nat.leb_refl; reflexivity.
  - apply andb_false_iff.
    destruct (Nat.leb_spec (nat_of_ascii x) (nat_of_ascii c)); [|auto].
    destruct (Nat.leb_spec (nat_of_ascii c) (nat_of_ascii x)); [|auto].
    exfalso; apply N.
    rewrite <- (ascii_nat_embedding x), <- (ascii_nat_embedding c).
    f_equal; lia.
Qed.

Lemma atom_ok_Not (x c : ascii) : atom_ok (Not x) c = negb (x =? c)%char.
Proof.
  unfold Not; simpl. rewrite in_range_single, orb_false_r. reflexivity.
Qed.

(** Characters of a run of [[^x]] are not [x]. *)
Lemma all_Not (x : ascii) (s : str) :
  Forall (fun c => atom_ok (Not x) c = true) s <-> ~ In x s.
Proof.
  rewrite Forall_forall. split.
  - intros H I. specialize (H _ I). rewrite atom_ok_Not, Ascii.eqb_refl in H.
    discriminate.
  - intros H c I. rewrite atom_ok_Not.
    destruct (Ascii.eqb_spec x c) as [->|]; [contradiction|reflexivity].
Qed.

Lemma all_Dot (s : str) :
  Forall (fun c => atom_ok Dot c = true) s <-> one_line s.
Proof.
  unfold one_line. rewrite !Forall_forall. simpl.
  split; intros H c I; specialize (H c I);
    destruct (line_terminator c); simpl in *; congruence.
Qed.

Lemma after_run_cons p b cs c s :
  p c = true -> after_run p b cs (c :: s) = after_run p false cs s.
Proof.
  intros H; unfold after_run; simpl. rewrite H.
  destruct (Str.span p s) as [h r]; simpl. destruct h; reflexivity.
Qed.

Lemma after_run_stop p b cs s :
  match s with c :: _ => p c = false | [] => True end ->
  after_run p b cs s = MState b s cs.
Proof.
  unfold after_run; destruct s as [|c s]; simpl; [reflexivity|].
  intros ->; reflexivity.
Qed.

(** A continuation that accepts no state standing before a character of
    the run makes the repetition commit to its longest run. *)
Lemma many_cut p b cs s (k : cont) :
  (forall b' c s', p c = true -> k (MState b' (c :: s') cs) = None) ->
  many p b cs s k = k (after_run p b cs s).
Proof.
  intros Hk; revert b; induction s as [|c s IH]; intros b; simpl.
  - reflexivity.
  - destruct (p c) eqn:E.
    + rewrite after_run_cons by assumption. rewrite IH.
      destruct (k (after_run p false cs s)) eqn:K; [reflexivity|].
      apply Hk; assumption.
    + rewrite after_run_stop by assumption. reflexivity.
Qed.

(** So does a continuation that accepts the state after the longest run. *)
Lemma many_top p b cs s (k : cont) :
  k (after_run p b cs s) <> None ->
  many p b cs s k = k (after_run p b cs s).
Proof.
  revert b; induction s as [|c s IH]; intros b; simpl.
  - reflexivity.
  - destruct (p c) eqn:E.
    + rewrite after_run_cons by assumption. intros K.
      rewrite IH by assumption.
      destruct (k (after_run p false cs s)); [reflexivity|contradiction].
    + rewrite after_run_stop by assumption. reflexivity.
Qed.

Lemma field_Some a s h r :
  field a s = Some (h, r) ->
  h <> [] /\ Forall (fun c => atom_ok a c = true) h /\ s = h ++ r.
Proof.
  unfold field. intros H.
  pose proof (span_all (atom_ok a) s) as A.
  pose proof (span_app (atom_ok a) s) as B.
  destruct (Str.span (atom_ok a) s) as [h' r']; simpl in *.
  destruct h'; [discriminate|]. inversion H; subst.
  split; [discriminate | split; [assumption | congruence]].
Qed.

Lemma field_stop a h r c :
  h <> [] -> Forall (fun x => atom_ok a x = true) h -> atom_ok a c = false ->
  field a (h ++ c :: r) = Some (h, c :: r).
Proof.
  intros N A C. unfold field. rewrite span_stop by assumption.
  destruct h; [contradiction|reflexivity].
Qed.

Lemma field_end a h :
  h <> [] -> Forall (fun x => atom_ok a x = true) h ->
  field a h = Some (h, []).
Proof.
  intros N A. unfold field. rewrite span_end by assumption.
  destruct h; [contradiction|reflexivity].
Qed.

(** [(?<n>a+)] followed by a pattern that cannot start inside the run. *)
Lemma m_field (a : atom) (n : str) (R : regex) (st : mstate) (k : cont) :
  (forall b c s' cs, atom_ok a c = true ->
                     m R (MState b (c :: s') cs) k = None) ->
  m (Cat (Grp n (Plus a)) R) st k =
  match field a (rest st) with
  | Some (h, r) => m R (MState false r ((n, h) :: caps st)) k
  | None => None
  end.
Proof.
  intros Hk. destruct st as [b s cs]. simpl. unfold field.
  destruct s as [|c s]; [reflexivity|]. simpl.
  destruct (atom_ok a c) eqn:E; [|reflexivity].
  rewrite many_cut.
  - unfold after_run; simpl.
    pose proof (span_app (atom_ok a) s) as B.
    destruct (Str.span (atom_ok a) s) as [h r]; simpl in *.
    replace (match h with [] => false | _ :: _ => false end) with false
      by (destruct h; reflexivity).
    unfold consumed. subst s.
    change (c :: h ++ r) with ((c :: h) ++ r).
    rewrite firstn_length_app. reflexivity.
  - intros b' c' s' E'. simpl. apply Hk; assumption.
Qed.

(** [(?<n>a+)] at the end of a pattern. *)
Lemma m_field_last (a : atom) (n : str) (st : mstate) :
  m (Cat (Grp n (Plus a)) Eps) st Some =
  match field a (rest st) with
  | Some (h, r) => Some (MState false r ((n, h) :: caps st))
  | None => None
  end.
Proof.
  destruct st as [b s cs]. simpl. unfold field.
  destruct s as [|c s]; [reflexivity|]. simpl.
  destruct (atom_ok a c) eqn:E; [|reflexivity].
  rewrite many_top by discriminate.
  unfold after_run; simpl.
  pose proof (span_app (atom_ok a) s) as B.
  destruct (Str.span (atom_ok a) s) as [h r]; simpl in *.
  replace (match h with [] => false | _ :: _ => false end) with false
    by (destruct h; reflexivity).
  unfold consumed. subst s.
  change (c :: h ++ r) with ((c :: h) ++ r).
  rewrite firstn_length_app. reflexivity.
Qed.

Lemma m_sep (c : ascii) (R : regex) (st : mstate) (k : cont) :
  m (Cat (Atom (Chr c)) R) st k =
  match sep c (rest st) with
  | Some r => m R (MState false r (caps st)) k
  | None => None
  end.
Proof.
  destruct st as [b s cs]; simpl. destruct s as [|x s]; [reflexivity|].
  simpl. destruct (c =? x)%char; reflexivity.
Qed.

(** A pattern anchored at the start matches at the start or not at all. *)
Lemma search_anchored (r : regex) (s : str) :
  search (Cat Bol r) false s = None.
Proof.
  induction s as [|c s IH]; simpl; [reflexivity|].
  rewrite IH; reflexivity.
Qed.

Lemma exec_anchored (r : regex) (s : str) :
  option_map groups (exec (Cat Bol r) s) =
  option_map caps (m r (MState true s []) Some).
Proof.
  unfold exec. destruct s as [|c s]; simpl.
  - destruct (m r (MState true [] []) Some); reflexivity.
  - destruct (m r (MState true (c :: s) []) Some); [reflexivity|].
    rewrite search_anchored; reflexivity.
Qed.

Lemma search_chr (c : ascii) (s : str) (b : bool) :
  In c s -> search (Atom (Chr c)) b s <> None.
Proof.
  revert b; induction s as [|x s IH]; intros b; [contradiction|].
  intros [->|I]; simpl.
  - rewrite Ascii.eqb_refl; discriminate.
  - destruct (c =? x)%char; [discriminate|].
    specialize (IH false I).
    destruct (search (Atom (Chr c)) false s); [discriminate|contradiction].
Qed.

Lemma test_chr (c : ascii) (s : str) :
  In c s -> test (Atom (Chr c)) s = true.
Proof.
  intros I. unfold test, exec.
  pose proof (search_chr c s true I) as H.
  destruct (search (Atom (Chr c)) true s); [reflexivity|contradiction].
Qed.

End MatcherFacts.

(* ================================================================== *)
(** * The patterns of [getGitUrl], field by field                      *)
(* ================================================================== *)

Section PatternFacts.

Lemma m_Lit (l : str) (R : regex) (st : mstate) (k : cont) :
  m (Cat (Lit l) R) st k =
  match Str.strip_prefix l (rest st) with
  | Some r =>
      m R (MState (match l with [] => bol st | _ :: _ => false end) r
                  (caps st)) k
  | None => None
  end.
Proof.
  revert st; induction l as [|x l IH]; intros [b s cs].
  - reflexivity.
  - change (m (Cat (Lit (x :: l)) R) (MState b s cs) k)
      with (match s with
            | c :: s' =>
                if (x =? c)%char
                then m (Cat (Lit l) R) (MState false s' cs) k
                else None
            | [] => None
            end).
    destruct s as [|c s]; [reflexivity|].
    cbn [Str.strip_prefix rest].
    destruct (x =? c)%char; [|reflexivity].
    rewrite IH. cbn [rest caps bol].
    destruct (Str.strip_prefix l s); [|reflexivity].
    destruct l; reflexivity.
Qed.

Lemma sep_rejects (x : ascii) (R : regex) b c s' cs (k : cont) :
  atom_ok (Not x) c = true ->
  m (Cat (Atom (Chr x)) R) (MState b (c :: s') cs) k = None.
Proof.
  rewrite atom_ok_Not. simpl.
  destruct (x =? c)%char; [discriminate|reflexivity].
Qed.

Lemma Lit_rejects (x : ascii) (l : str) (R : regex) b c s' cs (k : cont) :
  atom_ok (Not x) c = true ->
  m (Cat (Lit (x :: l)) R) (MState b (c :: s') cs) k = None.
Proof.
  rewrite atom_ok_Not, m_Lit. simpl.
  destruct (x =? c)%char; [discriminate|reflexivity].
Qed.

Lemma m_tail (st : mstate) :
  option_map caps (m re_user_name st Some) =
  option_map (fun '(u, n) => ("name", n) :: ("user", u) :: caps st)
             (user_name (rest st)).
Proof.
  unfold re_user_name, user_name.
  rewrite m_field by (intros; apply sep_rejects; assumption).
  destruct (field (Not "/") (rest st)) as [[u r]|]; [|reflexivity].
  rewrite m_sep. simpl rest.
  destruct (sep "/" r) as [r'|]; [|reflexivity].
  rewrite m_field_last. simpl rest.
  destruct (field Dot r') as [[n r'']|]; reflexivity.
Qed.

Lemma m_tail_cases (st : mstate) :
  (exists st' u n,
      m re_user_name st Some = Some st'
      /\ user_name (rest st) = Some (u, n)
      /\ caps st' = ("name", n) :: ("user", u) :: caps st)
  \/ (m re_user_name st Some = None /\ user_name (rest st) = None).
Proof.
  pose proof (m_tail st) as E.
  destruct (m re_user_name st Some) as [st'|];
    destruct (user_name (rest st)) as [[u n]|]; try discriminate.
  - left. exists st', u, n. cbn [option_map] in E. injection E as E. auto.
  - right. auto.
Qed.

(** The three patterns of [getGitUrl] capture what the field-by-field
    readings return, on every subject. *)
Lemma ssh_groups (s : str) :
  option_map groups (exec Main.re_ssh s) =
  option_map (fun '(h, u, n) => [("name", n); ("user", u); ("host", h)])
             (ssh_direct s).
Proof.
  unfold ssh_direct.
  change Main.re_ssh
    with (Cat Bol (Cat (Lit "git@")
            (Cat (Grp "host" (Plus (Not ":")))
               (Cat (Atom (Chr ":")) re_user_name)))).
  rewrite exec_anchored, m_Lit. simpl rest.
  destruct (Str.strip_prefix "git@" s) as [s1|]; [|reflexivity].
  rewrite m_field by (intros; apply sep_rejects; assumption). simpl rest.
  destruct (field (Not ":") s1) as [[h s2]|]; [|reflexivity].
  rewrite m_sep. simpl rest.
  destruct (sep ":" s2) as [s3|]; [|reflexivity].
  rewrite m_tail. simpl.
  destruct (user_name s3) as [[u n]|]; reflexivity.
Qed.

Lemma protocol_groups (s : str) :
  option_map groups (exec Main.re_protocol s) =
  option_map (fun '(p, h, u, n) =>
                [("name", n); ("user", u); ("host", h); ("protocol", p)])
             (protocol_direct s).
Proof.
  unfold protocol_direct.
  change Main.re_protocol
    with (Cat Bol (Cat (Grp "protocol" (Plus (Not ":")))
            (Cat (Lit "://")
               (Cat (Grp "host" (Plus (Not "/")))
                  (Cat (Atom (Chr "/")) re_user_name))))).
  rewrite exec_anchored.
  rewrite m_field by (intros; apply Lit_rejects; assumption). simpl rest.
  destruct (field (Not ":") s) as [[p s1]|]; [|reflexivity].
  rewrite m_Lit. simpl rest.
  destruct (Str.strip_prefix "://" s1) as [s2|]; [|reflexivity].
  rewrite m_field by (intros; apply sep_rejects; assumption). simpl rest.
  destruct (field (Not "/") s2) as [[h s3]|]; [|reflexivity].
  rewrite m_sep. simpl rest.
  destruct (sep "/" s3) as [s4|]; [|reflexivity].
  rewrite m_tail. simpl.
  destruct (user_name s4) as [[u n]|]; reflexivity.
Qed.

Lemma tail_fallback (s : str) :
  option_map host_fields
             (option_map caps (m re_user_name (MState true s []) Some)) =
  (' (u, n) <-? user_name s ;; Some (None, u, n)).
Proof.
  rewrite m_tail. simpl. destruct (user_name s) as [[u n]|]; reflexivity.
Qed.

Lemma host_groups (s : str) :
  option_map (fun x => host_fields (groups x)) (exec Main.re_host s) =
  host_direct s.
Proof.
  unfold host_direct.
  change Main.re_host
    with (Cat Bol
            (Cat (Opt (Grp "1" (Cat (Grp "host" (Plus (Not "/")))
                                    (Cat (Atom (Chr "/")) Eps))))
                 re_user_name)).
  assert (E : forall x, option_map (fun x => host_fields (groups x)) x
                        = option_map host_fields (option_map groups x))
    by (intros [?|]; reflexivity).
  rewrite E, exec_anchored. clear E.
  change (m (Cat (Opt (Grp "1" (Cat (Grp "host" (Plus (Not "/")))
                                    (Cat (Atom (Chr "/")) Eps)))) re_user_name)
            (MState true s []) Some)
    with (match m (Cat (Grp "host" (Plus (Not "/")))
                       (Cat (Atom (Chr "/")) Eps))
                  (MState true s [])
                  (fun st' =>
                     m re_user_name
                       (MState (bol st') (rest st')
                               (("1", consumed s (rest st')) :: caps st'))
                       Some) with
          | Some x => Some x
          | None => m re_user_name (MState true s []) Some
          end).
  rewrite m_field by (intros; apply sep_rejects; assumption).
  cbn [rest caps].
  destruct (field (Not "/") s) as [[h s1]|]; [|apply tail_fallback].
  rewrite m_sep. cbn [rest caps].
  destruct (sep "/" s1) as [s2|]; [|apply tail_fallback].
  cbn [m bol rest caps].
  match goal with
  | |- context [match m re_user_name ?st Some with _ => _ end] =>
      destruct (m_tail_cases st) as [(st' & u & n & E1 & E2 & E3)|[E1 E2]];
      rewrite E1; cbn [rest caps] in *; rewrite E2
  end.
  - cbn [option_map]. rewrite E3. reflexivity.
  - apply tail_fallback.
Qed.

End PatternFacts.

(* ================================================================== *)
(** * What [parse] and [build] guarantee                               *)
(* ================================================================== *)

Section ParseFacts.

Lemma exec_None_direct {A} (r : regex) (s : str) (f : A -> captures)
      (d : option A) :
  option_map groups (exec r s) = option_map f d ->
  exec r s = None -> d = None.
Proof.
  intros E N. rewrite N in E. destruct d; [discriminate|reflexivity].
Qed.

(** [parse] through the field-by-field readings. *)
Lemma parse_direct (r hub proto : str) :
  Main.parse r hub proto =
  match ssh_direct r with
  | Some (h, u, n) => Main.Build_Parsed "ssh" h u n
  | None =>
      match protocol_direct r with
      | Some (p, h, u, n) => Main.Build_Parsed p h u n
      | None =>
          match host_direct r with
          | Some (oh, u, n) =>
              Main.Build_Parsed proto (if truthy oh then oh ?? "" else hub)
                                u n
          | None => Main.Build_Parsed proto hub "" ""
          end
      end
  end.
Proof.
  unfold Main.parse.
  pose proof (ssh_groups r) as S.
  pose proof (protocol_groups r) as P.
  pose proof (host_groups r) as H.
  destruct (exec Main.re_ssh r) as [x|];
    destruct (ssh_direct r) as [[[h u] n]|]; try discriminate.
  - cbn [option_map] in S. injection S as S. rewrite S. reflexivity.
  - destruct (exec Main.re_protocol r) as [y|];
      destruct (protocol_direct r) as [[[[p h] u] n]|]; try discriminate.
    + cbn [option_map] in P. injection P as P. rewrite P. reflexivity.
    + destruct (exec Main.re_host r) as [z|];
        destruct (host_direct r) as [[[oh u] n]|]; try discriminate;
        [|reflexivity].
      cbn [option_map] in H. unfold host_fields in H.
      injection H as H1 H2 H3.
      unfold group_str at 1. rewrite H1, H2, H3. reflexivity.
Qed.

Lemma user_name_Some (s u n : str) :
  user_name s = Some (u, n) ->
  u <> "" /\ no_slash u /\ n <> "" /\ one_line n.
Proof.
  unfold user_name. intros H.
  destruct (field (Not "/") s) as [[u' s1]|] eqn:F; [|discriminate].
  destruct (sep "/" s1) as [s2|]; [|discriminate].
  destruct (field Dot s2) as [[n' s3]|] eqn:G; [|discriminate].
  injection H as -> ->.
  apply field_Some in F. apply field_Some in G.
  destruct F as (F1 & F2 & _), G as (G1 & G2 & _).
  apply all_Not in F2. apply all_Dot in G2. auto.
Qed.

(** The user and the name of a parse, whatever pattern produced them. *)
Lemma parse_user_name (r hub proto : str) :
  let p := Main.parse r hub proto in
  no_slash (Main.p_user p) /\ one_line (Main.p_name p).
Proof.
  rewrite parse_direct.
  destruct (ssh_direct r) as [[[h u] n]|] eqn:S.
  - unfold ssh_direct in S.
    destruct (Str.strip_prefix "git@" r); [|discriminate].
    destruct (field (Not ":") s) as [[h' s2]|]; [|discriminate].
    destruct (sep ":" s2); [|discriminate].
    destruct (user_name s0) as [[u' n']|] eqn:U; [|discriminate].
    injection S as -> -> ->. apply user_name_Some in U. simpl; tauto.
  - destruct (protocol_direct r) as [[[[p h] u] n]|] eqn:P.
    + unfold protocol_direct in P.
      destruct (field (Not ":") r) as [[p' s1]|]; [|discriminate].
      destruct (Str.strip_prefix "://" s1); [|discriminate].
      destruct (field (Not "/") s) as [[h' s3]|]; [|discriminate].
      destruct (sep "/" s3); [|discriminate].
      destruct (user_name s0) as [[u' n']|] eqn:U; [|discriminate].
      injection P as -> -> -> ->. apply user_name_Some in U. simpl; tauto.
    + destruct (host_direct r) as [[[oh u] n]|] eqn:H.
      * unfold host_direct in H.
        destruct (field (Not "/") r) as [[h' s1]|].
        -- destruct (sep "/" s1).
           ++ destruct (user_name s) as [[u' n']|] eqn:U.
              ** injection H as ? ? ?; subst. apply user_name_Some in U.
                 simpl; tauto.
              ** destruct (user_name r) as [[u' n']|] eqn:U'; [|discriminate].
                 injection H as ? ? ?; subst. apply user_name_Some in U'.
                 simpl; tauto.
           ++ destruct (user_name r) as [[u' n']|] eqn:U'; [|discriminate].
              injection H as ? ? ?; subst. apply user_name_Some in U'.
              simpl; tauto.
        -- destruct (user_name r) as [[u' n']|] eqn:U'; [|discriminate].
           injection H as ? ? ?; subst. apply user_name_Some in U'.
           simpl; tauto.
      * simpl. split; [intros []|constructor].
Qed.

Lemma build_nonempty (p : Main.Parsed) :
  Main.build p <> "" ->
  Main.p_user p <> "" /\ Main.p_name p <> ""
  /\ (Main.p_protocol p = "https" \/ Main.p_protocol p = "ssh")
  /\ Main.build p = suffix_policy (Main.p_host p) (Main.url_of p).
Proof.
  unfold Main.build, suffix_policy.
  destruct (Main.p_user p =?s "") eqn:U; [intros []; reflexivity|].
  destruct (Main.p_name p =?s "") eqn:N; [intros []; reflexivity|].
  cbn [orb].
  destruct (Main.p_protocol p =?s "https") eqn:P1;
    destruct (Main.p_protocol p =?s "ssh") eqn:P2; cbn [negb andb];
    try (intros []; reflexivity); intros _;
    apply eqb_neq in U; apply eqb_neq in N;
    try apply eqb_eq in P1; try apply eqb_eq in P2; auto.
Qed.

Lemma getGitUrl_nonempty (plugin : Main.Plugin) (hub proto : str) :
  Main.getGitUrl plugin hub proto <> "" ->
  exists r,
    Main.repo plugin = Some r
    /\ Main.getGitUrl plugin hub proto = Main.build (Main.parse r hub proto).
Proof.
  unfold Main.getGitUrl.
  destruct (Main.repo plugin) as [r|]; [|intros []; reflexivity].
  destruct (negb (Str.truthy r) || negb (test Main.re_slash r));
    [intros []; reflexivity|].
  intros _. exists r. auto.
Qed.

End ParseFacts.

(* ================================================================== *)
(** * Reading a built URL back                                         *)
(* ================================================================== *)

Section UrlFacts.

Lemma user_name_built (u n : str) :
  u <> "" -> no_slash u -> n <> "" -> one_line n ->
  user_name (u ++ "/" ++ n) = Some (u, n).
Proof.
  intros U1 U2 N1 N2. unfold user_name.
  change (u ++ "/" ++ n) with (u ++ "/"%char :: n).
  rewrite field_stop; [|assumption|apply all_Not; assumption|reflexivity].
  cbn [sep]. rewrite Ascii.eqb_refl.
  rewrite field_end; [reflexivity|assumption|apply all_Dot; assumption].
Qed.

Lemma ssh_direct_built (h u n : str) :
  h <> "" -> no_colon h ->
  u <> "" -> no_slash u -> n <> "" -> one_line n ->
  ssh_direct ("git@" ++ h ++ ":" ++ u ++ "/" ++ n) = Some (h, u, n).
Proof.
  intros H1 H2 U1 U2 N1 N2. unfold ssh_direct.
  rewrite strip_prefix_app.
  change (h ++ ":" ++ u ++ "/" ++ n) with (h ++ ":"%char :: u ++ "/" ++ n).
  rewrite field_stop; [|assumption|apply all_Not; assumption|reflexivity].
  cbn [sep]. rewrite Ascii.eqb_refl.
  rewrite user_name_built by assumption. reflexivity.
Qed.

Lemma protocol_direct_built (h u n : str) :
  h <> "" -> no_slash h ->
  u <> "" -> no_slash u -> n <> "" -> one_line n ->
  protocol_direct ("https://" ++ h ++ "/" ++ u ++ "/" ++ n)
  = Some ("https", h, u, n).
Proof.
  intros H1 H2 U1 U2 N1 N2. unfold protocol_direct.
  change ("https://" ++ h ++ "/" ++ u ++ "/" ++ n)
    with ("https" ++ ":"%char :: "//" ++ h ++ "/" ++ u ++ "/" ++ n).
  rewrite field_stop;
    [|discriminate|apply all_Not; intros I; simpl in I;
                   repeat (destruct I as [I|I]; [discriminate|]); exact I
     |reflexivity].
  change (":"%char :: "//" ++ h ++ "/" ++ u ++ "/" ++ n)
    with ("://" ++ h ++ "/" ++ u ++ "/" ++ n).
  rewrite strip_prefix_app.
  change (h ++ "/" ++ u ++ "/" ++ n) with (h ++ "/"%char :: u ++ "/" ++ n).
  rewrite field_stop; [|assumption|apply all_Not; assumption|reflexivity].
  cbn [sep]. rewrite Ascii.eqb_refl.
  rewrite user_name_built by assumption. reflexivity.
Qed.

Lemma build_valid (p : Main.Parsed) :
  Main.p_user p <> "" -> Main.p_name p <> "" ->
  Main.p_protocol p = "https" \/ Main.p_protocol p = "ssh" ->
  Main.build p = suffix_policy (Main.p_host p) (Main.url_of p).
Proof.
  intros U N P. unfold Main.build.
  apply eqb_neq in U, N. rewrite U, N. cbn [orb].
  destruct P as [P|P]; rewrite P; reflexivity.
Qed.

Lemma suffix_policy_idem (host url : str) :
  suffix_policy host (suffix_policy host url) = suffix_policy host url.
Proof.
  unfold suffix_policy at 2.
  destruct ((host =?s "git.sr.ht") || Str.endsWith url ".git") eqn:E.
  - unfold suffix_policy. rewrite E. reflexivity.
  - unfold suffix_policy. rewrite E, endsWith_app, orb_true_r. reflexivity.
Qed.

(** The policy only ever touches the end of the name. *)
Lemma suffix_policy_name (host pre n : str) :
  n <> "" -> one_line n ->
  exists n',
    suffix_policy host (pre ++ n) = pre ++ n' /\ n' <> "" /\ one_line n'.
Proof.
  intros N1 N2. unfold suffix_policy.
  destruct ((host =?s "git.sr.ht") || Str.endsWith (pre ++ n) ".git").
  - exists n. auto.
  - exists (n ++ ".git"). rewrite app_assoc. repeat split.
    + destruct n; [contradiction|discriminate].
    + apply Forall_app. split; [assumption|].
      repeat constructor.
Qed.

Lemma In_slash_built (a b c : str) : In "/"%char (a ++ "/" ++ b ++ c).
Proof. apply in_or_app. right. left. reflexivity. Qed.

End UrlFacts.

Lemma host_direct_shorthand (r : str) (oh : option str) (user name : str) :
  shorthand r oh user name -> host_direct r = Some (oh, user, name).
Proof.
  intros [u n U1 U2 N1 N2 N3 | h u n H1 H2 U1 U2 N1 N3]; unfold host_direct.
  - change (u ++ "/" ++ n) with (u ++ "/"%char :: n).
    rewrite field_stop; [|assumption|apply all_Not; assumption|reflexivity].
    cbn [sep]. rewrite Ascii.eqb_refl.
    assert (E : user_name n = None).
    { unfold user_name. rewrite field_end;
        [reflexivity|assumption|apply all_Not; assumption]. }
    rewrite E.
    change (u ++ "/"%char :: n) with (u ++ "/" ++ n).
    rewrite user_name_built by assumption. reflexivity.
  - change (h ++ "/" ++ u ++ "/" ++ n) with (h ++ "/"%char :: u ++ "/" ++ n).
    rewrite field_stop; [|assumption|apply all_Not; assumption|reflexivity].
    cbn [sep]. rewrite Ascii.eqb_refl.
    rewrite user_name_built by assumption. reflexivity.
Qed.

Lemma shorthand_parts (r : str) (oh : option str) (user name : str) :
  shorthand r oh user name ->
  user <> "" /\ name <> "" /\ In "/"%char r /\ r <> ""
  /\ match oh with Some h => h <> "" | None => True end.
Proof.
  intros [u n U1 U2 N1 N2 N3 | h u n H1 H2 U1 U2 N1 N3].
  - repeat split; try assumption.
    + apply in_or_app. right. left. reflexivity.
    + destruct u; [contradiction|discriminate].
  - repeat split; try assumption.
    + apply in_or_app. right. left. reflexivity.
    + destruct h; [contradiction|discriminate].
Qed.

Lemma truthy_nonempty (s : str) : s <> "" -> Str.truthy s = true.
Proof. destruct s; [contradiction|reflexivity]. Qed.

Lemma getGitUrl_build (plugin : Main.Plugin) (hub proto r : str) :
  Main.repo plugin = Some r -> r <> "" -> In "/"%char r ->
  Main.getGitUrl plugin hub proto = Main.build (Main.parse r hub proto).
Proof.
  intros R N I. unfold Main.getGitUrl. rewrite R.
  rewrite truthy_nonempty by assumption.
  unfold Main.re_slash. rewrite test_chr by assumption. reflexivity.
Qed.

Lemma url_of_https (h u n : str) :
  Main.url_of (Main.Build_Parsed "https" h u n)
  = ("https://" ++ h ++ "/" ++ u ++ "/") ++ n.
Proof.
  unfold Main.url_of. cbn [Main.p_protocol Main.p_host Main.p_user Main.p_name].
  change ("https" =?s "ssh") with false. cbn iota.
  rewrite <- !app_assoc. reflexivity.
Qed.

Lemma url_of_ssh (h u n : str) :
  Main.url_of (Main.Build_Parsed "ssh" h u n)
  = ("git@" ++ h ++ ":" ++ u ++ "/") ++ n.
Proof.
  unfold Main.url_of. cbn [Main.p_protocol Main.p_host Main.p_user Main.p_name].
  change ("ssh" =?s "ssh") with true. cbn iota.
  rewrite <- !app_assoc. reflexivity.
Qed.

(* ================================================================== *)
(** * The guards of the planner                                        *)
(* ================================================================== *)

Section PlannerFacts.

Lemma applicable (plugin : Main.Plugin) (r p : str) :
  Main.repo plugin = Some r -> r <> "" ->
  Main.path plugin = Some p -> p <> "" ->
  Main.inapplicable plugin = false.
Proof.
  intros R NR P NP. unfold Main.inapplicable. rewrite R, P.
  cbn [truthy]. rewrite !truthy_nonempty by assumption. reflexivity.
Qed.

Lemma not_applicable (plugin : Main.Plugin) :
  Main.repo plugin = None \/ Main.repo plugin = Some ""
  \/ Main.path plugin = None \/ Main.path plugin = Some "" ->
  Main.inapplicable plugin = true.
Proof.
  unfold Main.inapplicable.
  intros [R|[R|[P|P]]]; try rewrite R; try rewrite P;
    cbn [truthy Str.truthy negb orb]; auto using orb_true_r.
Qed.

Lemma git_applicable (plugin : Git.Plugin) (r p : str) :
  Git.repo plugin = Some r -> r <> "" ->
  Git.path plugin = Some p -> p <> "" ->
  Git.inapplicable plugin = false.
Proof.
  intros R NR P NP. unfold Git.inapplicable. rewrite R, P.
  cbn [truthy]. rewrite !truthy_nonempty by assumption. reflexivity.
Qed.

(** [!depth && depth <= 0] holds of zero only. *)
Lemma depth_zero (d : Z) : ((d =? 0) && (d <=? 0))%Z = (d =? 0)%Z.
Proof. destruct (Z.eqb_spec d 0) as [->|]; reflexivity. Qed.

(** [depth && depth > 0] is [depth > 0]. *)
Lemma depth_positive (d : Z) : (negb (d =? 0) && (0 <? d))%Z = (0 <? d)%Z.
Proof. destruct (Z.eqb_spec d 0) as [->|]; reflexivity. Qed.

Lemma rev_requested (r : str) :
  Str.truthy r && (0 <? length r) = Str.truthy r.
Proof. destruct r; reflexivity. Qed.

Lemma is_depth_flag_fixed (a : str) (l : list str) :
  In a l -> forallb (fun x => negb (is_depth_flag x)) l = true ->
  is_depth_flag a = false.
Proof.
  intros I F. rewrite forallb_forall in F. specialize (F a I).
  destruct (is_depth_flag a); [discriminate|reflexivity].
Qed.

Lemma initArgs_no_depth (params : Main.Params) :
  forallb (fun x => negb (is_depth_flag x)) (Main.initArgs params) = true.
Proof.
  unfold Main.initArgs, Main.credentialHelper, Main.sslVerify.
  destruct (Main.enableCredentialHelper params),
    (Main.enableSSLVerify params); reflexivity.
Qed.

End PlannerFacts.

Lemma test_tilde (r : str) : test Main.re_tilde r = Str.startsWith r "~".
Proof.
  change Main.re_tilde with (Cat Bol (Cat (Atom (Chr "~")) Eps)).
  unfold test, exec, Str.startsWith.
  destruct r as [|c r]; [reflexivity|].
  cbn -[Ascii.eqb search]. cbn [search].
  cbn -[Ascii.eqb search].
  destruct (Ascii.eqb "~" c); [reflexivity|].
  rewrite search_anchored. reflexivity.
Qed.

Lemma not_flagged (o : option bool) : o <> Some true -> Main.is_true o = false.
Proof. destruct o as [[|]|]; [contradiction|reflexivity|reflexivity]. Qed.

(* ================================================================== *)
(** * The assertions of [Deno.test("getGitUrl", ...)]                  *)
(* ================================================================== *)

(** The eight assertions of the test that closes [git/main.ts], run on
    the embedding. *)

Example getGitUrl_test_shorthand :
  Main.getGitUrl (main_plugin "Shougo/dpp.vim" None) "github.com" "https"
  = "https://github.com/Shougo/dpp.vim.git".
Proof. reflexivity. Qed.

Example getGitUrl_test_host :
  Main.getGitUrl (main_plugin "gitlab.com/user/repo" None) "github.com" "https"
  = "https://gitlab.com/user/repo.git".
Proof. reflexivity. Qed.

Example getGitUrl_test_scheme :
  Main.getGitUrl (main_plugin "https://gitlab.com/user/repo" None)
                 "github.com" "https"
  = "https://gitlab.com/user/repo.git".
Proof. reflexivity. Qed.

Example getGitUrl_test_invalid_protocol :
  Main.getGitUrl (main_plugin "foo://gitlab.com/user/repo" None)
                 "github.com" "https"
  = "".
Proof. reflexivity. Qed.

Example getGitUrl_test_suffix_kept :
  Main.getGitUrl (main_plugin "https://github.com/Shougo/dpp.vim.git" None)
                 "github.com" "https"
  = "https://github.com/Shougo/dpp.vim.git".
Proof. reflexivity. Qed.

Example getGitUrl_test_ssh :
  Main.getGitUrl (main_plugin "Shougo/dpp.vim" None) "github.com" "ssh"
  = "git@github.com:Shougo/dpp.vim.git".
Proof. reflexivity. Qed.

Example getGitUrl_test_srht :
  Main.getGitUrl (main_plugin "~whynothugo/lsp_lines.nvim" None)
                 "git.sr.ht" "https"
  = "https://git.sr.ht/~whynothugo/lsp_lines.nvim".
Proof. reflexivity. Qed.

Example getGitUrl_test_srht_ssh :
  Main.getGitUrl (main_plugin "~whynothugo/lsp_lines.nvim" None)
                 "git.sr.ht" "ssh"
  = "git@git.sr.ht:~whynothugo/lsp_lines.nvim".
Proof. reflexivity. Qed.

(** [detect] on a remote identifier, under either default protocol. *)
Example detect_remote_https :
  Main.detect (main_plugin "Shougo/dpp.vim" None)
              (main_params "github.com" "https") (sample_host false "") []
  = (Returned (Some {| u_frozen := None;
                       u_local := None;
                       u_path := Some "/cache/repos/github.com/Shougo/dpp.vim";
                       u_url := Some "https://github.com/Shougo/dpp.vim" |}),
     []).
Proof. reflexivity. Qed.

Example detect_remote_ssh :
  Main.detect (main_plugin "Shougo/dpp.vim" None)
              (main_params "github.com" "ssh") (sample_host false "") []
  = (Returned (Some {| u_frozen := None;
                       u_local := None;
                       u_path := Some "/cache/repos/github.com/Shougo/dpp.vim";
                       u_url := Some "https://github.com/Shougo/dpp.vim" |}),
     []).
Proof. reflexivity. Qed.

(** [getUrl] of [git.ts] on an identifier that matches neither of its
    patterns: the identifier as it is under the default hub site, and no
    suffix. *)
Lemma git_getUrl_plain (plugin : Git.Plugin) (params : Git.Params)
      (h : Host) (log : list str) (r : str) :
  Git.repo plugin = Some r -> In "/"%char r ->
  exec Git.re_ssh r = None -> exec Git.re_protocol r = None ->
  Git.defaultProtocol params = "https" ->
  Git.getUrl plugin params h log
  = (Returned ("https://" ++ Git.defaultHubSite params ++ "/" ++ r), log).
Proof.
  intros R I E1 E2 P. unfold Git.getUrl. rewrite R.
  assert (NR : r <> "") by (destruct r; [contradiction|discriminate]).
  rewrite (truthy_nonempty r NR).
  unfold Main.re_slash. rewrite (test_chr _ _ I). cbn [negb orb].
  unfold Git.parse. rewrite E1, E2.
  cbn [Git.p_protocol Git.p_host Git.p_name]. rewrite P. reflexivity.
Qed.

(* ================================================================== *)
(** * Properties of the protocol                                       *)
(* ================================================================== *)

Ltac absent :=
  let H := fresh in
  intros H; cbn in H; repeat (destruct H as [H|H]; [discriminate H|]); exact H.

(** ** C1 *)

(** C1, as amended.  In [git/main.ts], an identifier of the bare shorthand
    form that matches neither the SSH nor the explicit-scheme pattern
    resolves, under default protocol [https], to
    [https://<host>/<user>/<name>] and, under default protocol [ssh], to
    [git@<host>:<user>/<name>], where [<host>] is the host the identifier
    names ([host/user/name]) and [defaultHubSite] when it names none
    ([user/name]); [.git] is appended unless that host is [git.sr.ht] or
    the URL already ends in [.git]. *)
Theorem shorthand_url (plugin : Main.Plugin) (params : Main.Params)
        (r : str) (oh : option str) (user name : str) :
  Main.repo plugin = Some r ->
  shorthand r oh user name ->
  exec Main.re_ssh r = None ->
  exec Main.re_protocol r = None ->
  let host := oh ?? Main.defaultHubSite params in
  (Main.defaultProtocol params = "https" ->
   Main.getUrl plugin params
   = suffix_policy host ("https://" ++ host ++ "/" ++ user ++ "/" ++ name))
  /\ (Main.defaultProtocol params = "ssh" ->
      Main.getUrl plugin params
      = suffix_policy host ("git@" ++ host ++ ":" ++ user ++ "/" ++ name)).
Proof.
  intros R S E1 E2 host. unfold Main.getUrl.
  destruct (shorthand_parts _ _ _ _ S) as (U & N & I & NE & OH).
  pose proof (host_direct_shorthand _ _ _ _ S) as HD.
  apply (exec_None_direct _ _ _ _ (ssh_groups r)) in E1.
  apply (exec_None_direct _ _ _ _ (protocol_groups r)) in E2.
  assert (P : forall proto,
             Main.parse r (Main.defaultHubSite params) proto
             = Main.Build_Parsed proto host user name).
  { intros proto. rewrite parse_direct, E1, E2, HD. subst host.
    destruct oh as [h|]; [|reflexivity].
    cbn [truthy nullish]. rewrite truthy_nonempty by assumption. reflexivity. }
  split; intros ->.
  - rewrite (getGitUrl_build plugin _ "https" r R NE I), P.
    rewrite build_valid by (cbn; auto). reflexivity.
  - rewrite (getGitUrl_build plugin _ "ssh" r R NE I), P.
    rewrite build_valid by (cbn; auto). reflexivity.
Qed.

(** C1 does not hold as stated: [gitlab.com/user/repo] is of the form
    [host/user/name] and resolves to its own host, not to [defaultHubSite];
    and [getUrl] of [git.ts] has no suffix policy at all. *)
Lemma shorthand_url_counterexample :
  shorthand "gitlab.com/user/repo" (Some "gitlab.com") "user" "repo"
  /\ exec Main.re_ssh "gitlab.com/user/repo" = None
  /\ exec Main.re_protocol "gitlab.com/user/repo" = None
  /\ Main.getUrl (main_plugin "gitlab.com/user/repo" None)
                 (main_params "github.com" "https")
     = "https://gitlab.com/user/repo.git"
  /\ "https://gitlab.com/user/repo.git" <> "https://github.com/user/repo.git"
  /\ "https://gitlab.com/user/repo.git"
     <> "https://github.com/gitlab.com/user/repo.git"
  /\ Git.getUrl (git_plugin "Shougo/dpp.vim" None) Git.params
                (sample_host false "") []
     = (Returned "https://github.com/Shougo/dpp.vim", []).
Proof.
  split; [|repeat split; try reflexivity; discriminate].
  apply (@shorthand_host_user_name "gitlab.com" "user" "repo");
    try discriminate; try absent.
  repeat constructor.
Qed.

Lemma shorthand_url_witness :
  Main.getUrl (main_plugin "Shougo/dpp.vim" None)
              (main_params "github.com" "https")
  = "https://github.com/Shougo/dpp.vim.git"
  /\ Main.getUrl (main_plugin "Shougo/dpp.vim" None)
                 (main_params "github.com" "ssh")
     = "git@github.com:Shougo/dpp.vim.git".
Proof.
  assert (S : shorthand "Shougo/dpp.vim" None "Shougo" "dpp.vim").
  { apply (@shorthand_user_name "Shougo" "dpp.vim");
      try discriminate; try absent.
    repeat constructor. }
  split.
  - apply (proj1 (shorthand_url (main_plugin "Shougo/dpp.vim" None)
                                (main_params "github.com" "https")
                                "Shougo/dpp.vim" None "Shougo" "dpp.vim"
                                eq_refl S eq_refl eq_refl)).
    reflexivity.
  - apply (proj2 (shorthand_url (main_plugin "Shougo/dpp.vim" None)
                                (main_params "github.com" "ssh")
                                "Shougo/dpp.vim" None "Shougo" "dpp.vim"
                                eq_refl S eq_refl eq_refl)).
    reflexivity.
Defined.

(** ** C2 *)

(** C2, as amended.  For a plugin with non-empty repo and path: when the
    path is not a directory and [cloneDepth] is a safe integer, the plan
    is exactly one clone command, behind the credential and TLS flags,
    whose arguments carry [--depth=<N>], with [<N>] the decimal digits of
    [cloneDepth], only for a positive [cloneDepth] and [--branch <rev>]
    only when, besides, a non-empty revision was asked for; when the path
    is a directory, any [--depth] argument of the plan comes verbatim from
    the configured [pullArgs] or is the remote name ([gitRemote] of the
    plugin, or else [defaultRemote]): the planner adds none itself. *)
Theorem sync_clone_and_depth (plugin : Main.Plugin) (params : Main.Params)
        (h : Host) (log : list str) (r p : str) :
  Main.repo plugin = Some r -> r <> "" ->
  Main.path plugin = Some p -> p <> "" ->
  (isDirectory h p = false ->
   safe_integer (Main.cloneDepth params) ->
   Main.getSyncCommands plugin params h log
   = (Returned [{| command := Main.commandPath params;
                   args := clone_args plugin params p |}], log))
  /\ (isDirectory h p = true ->
      exists plan,
        Main.getSyncCommands plugin params h log = (Returned plan, log)
        /\ forall c a,
            In c plan -> In a (args c) -> is_depth_flag a = true ->
            In a (Main.pullArgs params)
            \/ a = match Main.protocolAttrs plugin with
                   | Some attrs =>
                       Main.gitRemote attrs ?? Main.defaultRemote params
                   | None => Main.defaultRemote params
                   end).
Proof.
  intros R NR P NP.
  unfold Main.getSyncCommands. rewrite (applicable plugin r p R NR P NP).
  rewrite P. cbn [nullish]. unfold bind, ask, ret.
  split; intros D; rewrite D.
  - intros _. unfold clone_args. rewrite depth_positive.
    unfold Main.initArgs, Main.credentialHelper, Main.sslVerify.
    do 3 f_equal.
    destruct (Main.enableCredentialHelper params);
      destruct (Main.enableSSLVerify params);
      destruct (Main.enablePartialClone params);
      destruct (0 <? Main.cloneDepth params)%Z;
      try (destruct (Main.rev plugin) as [v|];
           [rewrite rev_requested; destruct (Str.truthy v)|]);
      rewrite <- ?app_assoc; reflexivity.
  - rewrite depth_zero. eexists. split; [reflexivity|].
    intros c a Ic Ia F.
    assert (X : forall l, In a l ->
                forallb (fun x => negb (is_depth_flag x)) l = true -> False).
    { intros l I G. rewrite (is_depth_flag_fixed a l I G) in F. discriminate. }
    destruct (Main.cloneDepth params =? 0)%Z; cbn [app] in Ic.
    + destruct Ic as [<-|[<-|[<-|[<-|[]]]]]; cbn [args] in Ia.
      * exfalso. apply (X _ Ia). rewrite forallb_app, initArgs_no_depth.
        reflexivity.
      * destruct Ia as [<-|[<-|[<-|[<-|[]]]]]; try discriminate F.
        right; reflexivity.
      * left; assumption.
      * exfalso. apply (X _ Ia). reflexivity.
    + destruct Ic as [<-|[<-|[<-|[]]]]; cbn [args] in Ia.
      * exfalso. apply (X _ Ia). rewrite forallb_app, initArgs_no_depth.
        reflexivity.
      * left; assumption.
      * exfalso. apply (X _ Ia). reflexivity.
Qed.

(** C2 does not hold as stated: [pullArgs] is passed on verbatim, so an
    update plan carries the [--depth] flag a configuration puts there. *)
Lemma sync_clone_and_depth_counterexample :
  exists plan,
    Main.getSyncCommands
      (main_plugin "Shougo/dpp.vim" (Some "/cache/repos/dpp.vim"))
      {| Main.cloneDepth := 1;
         Main.commandPath := "git";
         Main.defaultBranch := "main";
         Main.defaultHubSite := "github.com";
         Main.defaultProtocol := "https";
         Main.defaultRemote := "origin";
         Main.enableCredentialHelper := false;
         Main.enablePartialClone := false;
         Main.enableSSLVerify := true;
         Main.pullArgs := ["pull"; "--ff"; "--ff-only"; "--depth=1"] |}
      (sample_host true "") []
    = (Returned plan, [])
    /\ existsb has_depth_flag plan = true.
Proof.
  exists [{| command := "git";
             args := ["-c"; "credential.helper="; "-c"; "core.fsmonitor=false";
                      "fetch"] |};
          {| command := "git";
             args := ["pull"; "--ff"; "--ff-only"; "--depth=1"] |};
          submodule_update "git"].
  split; reflexivity.
Qed.

Lemma sync_clone_and_depth_witness :
  Main.getSyncCommands
    (main_plugin_at "Shougo/dpp.vim" "/p" "v1.0")
    {| Main.cloneDepth := 1;
       Main.commandPath := "git";
       Main.defaultBranch := "main";
       Main.defaultHubSite := "github.com";
       Main.defaultProtocol := "https";
       Main.defaultRemote := "origin";
       Main.enableCredentialHelper := false;
       Main.enablePartialClone := true;
       Main.enableSSLVerify := false;
       Main.pullArgs := ["pull"; "--ff"; "--ff-only"] |}
    (sample_host false "") []
  = (Returned [{| command := "git";
                  args := ["-c"; "credential.helper="; "-c";
                           "core.fsmonitor=false"; "-c";
                           "http.sslVerify=false"; "clone"; "--recursive";
                           "--filter=blob:none"; "--depth=1"; "--branch";
                           "v1.0"; "https://github.com/Shougo/dpp.vim.git";
                           "/p"] |}],
     []).
Proof.
  apply (proj1 (sync_clone_and_depth
                  (main_plugin_at "Shougo/dpp.vim" "/p" "v1.0")
                  {| Main.cloneDepth := 1;
                     Main.commandPath := "git";
                     Main.defaultBranch := "main";
                     Main.defaultHubSite := "github.com";
                     Main.defaultProtocol := "https";
                     Main.defaultRemote := "origin";
                     Main.enableCredentialHelper := false;
                     Main.enablePartialClone := true;
                     Main.enableSSLVerify := false;
                     Main.pullArgs := ["pull"; "--ff"; "--ff-only"] |}
                  (sample_host false "") [] "Shougo/dpp.vim" "/p"
                  eq_refl ltac:(discriminate) eq_refl ltac:(discriminate))).
  - reflexivity.
  - split; reflexivity.
Defined.

(** ** C3 *)

(** C3.  For a plugin with non-empty repo and path whose path is a
    directory, the plan is, in this order: the fetch command behind the
    credential and TLS flags; [remote set-head <remote> -a] for the remote
    of the plugin or the default one, present exactly when [cloneDepth] is
    zero; the configured [pullArgs] verbatim; the recursive submodule
    update.  In [git/main.ts] the flags are the two credential settings
    unless the credential helper is enabled, then the TLS setting unless
    verification is enabled, and the remote is [gitRemote] of the plugin's
    protocol attributes or else [defaultRemote]; in [git.ts] the flags are
    the fixed credential setting and the remote is [__gitRemote] of the
    plugin or else [defaultRemote]. *)
Theorem update_plan_order (h : Host) (log : list str) :
  (forall (plugin : Main.Plugin) (params : Main.Params) (r p : str),
      Main.repo plugin = Some r -> r <> "" ->
      Main.path plugin = Some p -> p <> "" ->
      isDirectory h p = true ->
      Main.getSyncCommands plugin params h log
      = (Returned
           ([{| command := Main.commandPath params;
                args :=
                  (if Main.enableCredentialHelper params then []
                   else ["-c"; "credential.helper=";
                         "-c"; "core.fsmonitor=false"])
                  ++ (if Main.enableSSLVerify params then []
                      else ["-c"; "http.sslVerify=false"])
                  ++ ["fetch"] |}]
            ++ (if (Main.cloneDepth params =? 0)%Z
                then [set_head (Main.commandPath params)
                               match Main.protocolAttrs plugin with
                               | Some attrs =>
                                   Main.gitRemote attrs
                                   ?? Main.defaultRemote params
                               | None => Main.defaultRemote params
                               end]
                else [])
            ++ [{| command := Main.commandPath params;
                   args := Main.pullArgs params |};
                submodule_update (Main.commandPath params)]), log))
  /\ (forall (plugin : Git.Plugin) (params : Git.Params) (r p : str),
         Git.repo plugin = Some r -> r <> "" ->
         Git.path plugin = Some p -> p <> "" ->
         isDirectory h p = true ->
         Git.getSyncCommands plugin params h log
         = (Returned
              ([{| command := Git.commandPath params;
                   args := ["-c"; "credential.helper="; "fetch"] |}]
               ++ (if (Git.cloneDepth params =? 0)%Z
                   then [set_head (Git.commandPath params)
                                  (Git.__gitRemote plugin
                                   ?? Git.defaultRemote params)]
                   else [])
               ++ [{| command := Git.commandPath params;
                      args := Git.pullArgs params |};
                   submodule_update (Git.commandPath params)]), log)).
Proof.
  split; intros plugin params r p R NR P NP D.
  - unfold Main.getSyncCommands. rewrite (applicable plugin r p R NR P NP).
    rewrite P. cbn [nullish]. unfold bind, ask, ret. rewrite D, depth_zero.
    unfold Main.initArgs, Main.credentialHelper, Main.sslVerify, Main.remote.
    destruct (Main.enableCredentialHelper params);
      destruct (Main.enableSSLVerify params);
      destruct (Main.cloneDepth params =? 0)%Z; reflexivity.
  - unfold Git.getSyncCommands. rewrite (git_applicable plugin r p R NR P NP).
    rewrite P. cbn [nullish]. unfold bind, ask, ret. rewrite D, depth_zero.
    destruct (Git.cloneDepth params =? 0)%Z; reflexivity.
Qed.

Lemma update_plan_order_witness :
  Main.getSyncCommands
    (attrs_plugin "Shougo/dpp.vim" "/p"
                  {| Main.gitDefaultBranch := None;
                     Main.gitRemote := Some "upstream" |})
    {| Main.cloneDepth := 0;
       Main.commandPath := "git";
       Main.defaultBranch := "main";
       Main.defaultHubSite := "github.com";
       Main.defaultProtocol := "https";
       Main.defaultRemote := "origin";
       Main.enableCredentialHelper := false;
       Main.enablePartialClone := false;
       Main.enableSSLVerify := false;
       Main.pullArgs := ["pull"; "--ff"; "--ff-only"] |}
    (sample_host true "") []
  = (Returned [{| command := "git";
                  args := ["-c"; "credential.helper="; "-c";
                           "core.fsmonitor=false"; "-c";
                           "http.sslVerify=false"; "fetch"] |};
               {| command := "git";
                  args := ["remote"; "set-head"; "upstream"; "-a"] |};
               {| command := "git"; args := ["pull"; "--ff"; "--ff-only"] |};
               {| command := "git";
                  args := ["submodule"; "update"; "--init"; "--recursive"] |}],
     []).
Proof.
  apply (proj1 (update_plan_order (sample_host true "") [])
               (attrs_plugin "Shougo/dpp.vim" "/p"
                             {| Main.gitDefaultBranch := None;
                                Main.gitRemote := Some "upstream" |})
               {| Main.cloneDepth := 0;
                  Main.commandPath := "git";
                  Main.defaultBranch := "main";
                  Main.defaultHubSite := "github.com";
                  Main.defaultProtocol := "https";
                  Main.defaultRemote := "origin";
                  Main.enableCredentialHelper := false;
                  Main.enablePartialClone := false;
                  Main.enableSSLVerify := false;
                  Main.pullArgs := ["pull"; "--ff"; "--ff-only"] |}
               "Shougo/dpp.vim" "/p"
               eq_refl ltac:(discriminate) eq_refl ltac:(discriminate)
               eq_refl).
Defined.

(** ** C4 *)

(** C4.  For a plugin with non-empty repo, path, old and new revision, the
    plan of [getLogCommands] is one [log] command; its range is
    [oldRev..newRev] when what the merge-base subprocess printed is
    [oldRev] exactly, and [oldRev^..newRev] otherwise. *)
Theorem log_range_selection (plugin : Main.Plugin) (params : Main.Params)
        (newRev oldRev : str) (h : Host) (log : list str) (r p stdout : str) :
  Main.repo plugin = Some r -> r <> "" ->
  Main.path plugin = Some p -> p <> "" ->
  newRev <> "" -> oldRev <> "" ->
  output h (Main.commandPath params) ["merge-base"; oldRev; newRev]
         (if isDirectory h p then p else cwd h) = Some stdout ->
  exists range,
    Main.getLogCommands plugin params newRev oldRev h log
    = (Returned [{| command := Main.commandPath params;
                    args := ["log"; range; "--graph"; "--no-show-signature";
                             "--pretty=format:" ++ [quote] ++ "%h [%cr] %s"
                             ++ [quote]] |}], log)
    /\ (stdout = oldRev -> range = oldRev ++ ".." ++ newRev)
    /\ (stdout <> oldRev -> range = oldRev ++ "^.." ++ newRev).
Proof.
  intros R NR P NP NN NO O.
  unfold Main.getLogCommands. rewrite (applicable plugin r p R NR P NP).
  assert (L1 : (length newRev =? 0) = false)
    by (destruct newRev; [contradiction|reflexivity]).
  assert (L2 : (length oldRev =? 0) = false)
    by (destruct oldRev; [contradiction|reflexivity]).
  rewrite L1, L2. cbn [orb].
  unfold Main.run, Main.workdir, bind, ask, ret, await.
  rewrite P. cbn [nullish].
  destruct (isDirectory h p); rewrite O;
    (eexists; split; [reflexivity|]);
    (split; intros E;
     [apply eqb_eq in E | apply eqb_neq in E]; rewrite E; reflexivity).
Qed.

Lemma log_range_selection_witness :
  exists range,
    Main.getLogCommands (main_plugin "Shougo/dpp.vim" (Some "/p")) Main.params
                        "def" "abc" (sample_host true "abc") []
    = (Returned [{| command := "git";
                    args := ["log"; range; "--graph"; "--no-show-signature";
                             "--pretty=format:" ++ [quote] ++ "%h [%cr] %s"
                             ++ [quote]] |}], [])
    /\ ("abc" = "abc" -> range = "abc..def")
    /\ ("abc" <> "abc" -> range = "abc^..def").
Proof.
  apply (log_range_selection
           (main_plugin "Shougo/dpp.vim" (Some "/p")) Main.params
           "def" "abc" (sample_host true "abc") [] "Shougo/dpp.vim" "/p" "abc"
           eq_refl ltac:(discriminate) eq_refl ltac:(discriminate)
           ltac:(discriminate) ltac:(discriminate) eq_refl).
Defined.

(** ** C5 *)

(** C5, as amended.  An identifier whose resolved protocol is neither
    exactly [https] nor exactly [ssh] resolves to the empty string in both
    variants, and never to a rejection.  [getUrl] of [git.ts] reports the
    protocol to [dpp#util#_error] besides (for an identifier with a slash,
    the only ones whose protocol it resolves); [getGitUrl] of
    [git/main.ts] is a pure function and reports nothing. *)
Theorem invalid_protocol_empty_url :
  (forall (plugin : Main.Plugin) (params : Main.Params) (r protocol : str),
      Main.repo plugin = Some r ->
      Main.p_protocol (Main.parse r (Main.defaultHubSite params)
                                  (Main.defaultProtocol params)) = protocol ->
      protocol <> "https" ->
      protocol <> "ssh" ->
      Main.getUrl plugin params = "")
  /\ (forall (plugin : Git.Plugin) (params : Git.Params) (h : Host)
             (log : list str) (r protocol : str),
         Git.repo plugin = Some r ->
         In "/"%char r ->
         Git.p_protocol (Git.parse r (Git.defaultHubSite params)
                                   (Git.defaultProtocol params)) = protocol ->
         protocol <> "https" ->
         protocol <> "ssh" ->
         Git.getUrl plugin params h log
         = (Returned "", log ++ [invalid_protocol_message protocol])).
Proof.
  split.
  - intros plugin params r protocol R E P1 P2.
    unfold Main.getUrl, Main.getGitUrl. rewrite R.
    destruct (negb (Str.truthy r) || negb (test Main.re_slash r));
      [reflexivity|].
    unfold Main.build. rewrite E.
    apply eqb_neq in P1, P2. rewrite P1, P2.
    destruct ((Main.p_user _ =?s "") || (Main.p_name _ =?s ""));
      reflexivity.
  - intros plugin params h log r protocol R I E P1 P2.
    unfold Git.getUrl. rewrite R.
    assert (NR : r <> "") by (destruct r; [contradiction|discriminate]).
    rewrite (truthy_nonempty r NR).
    unfold Main.re_slash. rewrite (test_chr _ _ I). cbn [negb orb].
    rewrite E. apply eqb_neq in P1, P2. rewrite P1, P2. reflexivity.
Qed.

(** C5 does not hold as stated: on [foo://gitlab.com/user/repo] the
    current variant answers with the empty string and sends nothing to the
    error sink, neither from [detect] nor from [getSyncCommands]. *)
Lemma invalid_protocol_empty_url_counterexample :
  Main.p_protocol (Main.parse "foo://gitlab.com/user/repo" "github.com"
                              "https") = "foo"
  /\ Main.getUrl (main_plugin "foo://gitlab.com/user/repo" None) Main.params
     = ""
  /\ Main.detect (main_plugin "foo://gitlab.com/user/repo" None) Main.params
                 (sample_host false "") []
     = (Returned None, [])
  /\ snd (Main.getSyncCommands
            (main_plugin "foo://gitlab.com/user/repo" (Some "/p")) Main.params
            (sample_host false "") [])
     = [].
Proof. repeat split; reflexivity. Qed.

Lemma invalid_protocol_empty_url_witness :
  Main.getUrl (main_plugin "foo://gitlab.com/user/repo" None) Main.params = ""
  /\ Git.getUrl (git_plugin "foo://gitlab.com/user/repo" None) Git.params
                (sample_host false "") []
     = (Returned "", ["Invalid git protocol: " ++ [quote] ++ "foo" ++ [quote]]).
Proof.
  split.
  - apply (proj1 invalid_protocol_empty_url
                 (main_plugin "foo://gitlab.com/user/repo" None) Main.params
                 "foo://gitlab.com/user/repo" "foo" eq_refl eq_refl);
      discriminate.
  - apply (proj2 invalid_protocol_empty_url
                 (git_plugin "foo://gitlab.com/user/repo" None) Git.params
                 (sample_host false "") [] "foo://gitlab.com/user/repo" "foo"
                 eq_refl);
      [cbn; tauto | reflexivity | discriminate | discriminate].
Defined.

(** ** C6 *)

(** C6, as amended.  For a plugin whose repo does not match the raw or
    archive pattern, is an absolute path or begins with [~], is not
    flagged local, and expands to a directory, [detect] answers with a
    record that marks the plugin local and carries the expanded path.
    [git.ts] marks it frozen as well; [git/main.ts] sets no frozen
    flag. *)
Theorem detect_local_directory (h : Host) (log : list str) :
  (forall (plugin : Main.Plugin) (params : Main.Params) (r : str),
      Main.repo plugin = Some r -> r <> "" ->
      test Main.re_raw r = false ->
      isAbsolute h r = true \/ Str.startsWith r "~" = true ->
      Main.local plugin <> Some true ->
      isDirectory h (expand h r) = true ->
      Main.detect plugin params h log
      = (Returned (Some {| u_frozen := None;
                           u_local := Some true;
                           u_path := Some (expand h r);
                           u_url := None |}), log))
  /\ (forall (plugin : Git.Plugin) (params : Git.Params) (r : str),
         Git.repo plugin = Some r -> r <> "" ->
         test Main.re_raw r = false ->
         isAbsolute h r = true \/ Str.startsWith r "~" = true ->
         Git.local plugin <> Some true ->
         isDirectory h (expand h r) = true ->
         Git.detect plugin params h log
         = (Returned (Some {| u_frozen := Some true;
                              u_local := Some true;
                              u_path := Some (expand h r);
                              u_url := None |}), log)).
Proof.
  split; intros plugin params r R NR Raw A L D.
  - unfold Main.detect. rewrite R, (truthy_nonempty r NR), Raw.
    cbn [negb]. unfold bind, ask, ret. rewrite test_tilde.
    assert (E : isAbsolute h r || Str.startsWith r "~" = true)
      by (destruct A as [-> | ->]; auto using orb_true_r).
    rewrite E, (not_flagged _ L), D. reflexivity.
  - unfold Git.detect. rewrite R, (truthy_nonempty r NR), Raw.
    cbn [negb]. unfold bind, ask, ret. rewrite test_tilde.
    assert (E : isAbsolute h r || Str.startsWith r "~" = true)
      by (destruct A as [-> | ->]; auto using orb_true_r).
    rewrite E, (not_flagged _ L), D. reflexivity.
Qed.

(** C6 does not hold as stated: the current variant answers an absolute
    directory with a record that has no frozen flag, and in both variants
    an absolute directory whose path matches the archive pattern is taken
    for a raw repository and gets no record. *)
Lemma detect_local_directory_counterexample :
  Main.detect (main_plugin "/home/me/plugin" None) Main.params
              (sample_host true "") []
  = (Returned (Some {| u_frozen := None;
                       u_local := Some true;
                       u_path := Some "/home/me/plugin";
                       u_url := None |}), [])
  /\ Main.detect (main_plugin "/home/me/archive/plugin.zip" None) Main.params
                 (sample_host true "") []
     = (Returned None, [])
  /\ Git.detect (git_plugin "/home/me/archive/plugin.zip" None) Git.params
                (sample_host true "") []
     = (Returned None, []).
Proof. repeat split; reflexivity. Qed.

Lemma detect_local_directory_witness :
  Main.detect (main_plugin "~/plugin" None) Main.params
              (sample_host true "") []
  = (Returned (Some {| u_frozen := None;
                       u_local := Some true;
                       u_path := Some "~/plugin";
                       u_url := None |}), [])
  /\ Git.detect (git_plugin "/home/me/plugin" None) Git.params
                (sample_host true "") []
     = (Returned (Some {| u_frozen := Some true;
                          u_local := Some true;
                          u_path := Some "/home/me/plugin";
                          u_url := None |}), []).
Proof.
  split.
  - apply (proj1 (detect_local_directory (sample_host true "") [])
                 (main_plugin "~/plugin" None) Main.params "~/plugin"
                 eq_refl ltac:(discriminate) eq_refl (or_intror eq_refl)
                 ltac:(discriminate) eq_refl).
  - apply (proj2 (detect_local_directory (sample_host true "") [])
                 (git_plugin "/home/me/plugin" None) Git.params
                 "/home/me/plugin"
                 eq_refl ltac:(discriminate) eq_refl (or_introl eq_refl)
                 ltac:(discriminate) eq_refl).
Defined.

(** ** C7 *)

(** C7, as amended.  Whenever [getGitUrl] answers with a non-empty URL,
    the parsed user is non-empty and has no slash, the parsed name is
    non-empty and has no line terminator (it may well contain slashes),
    and the resolved protocol is exactly [https] or [ssh]. *)
Theorem valid_match_components (plugin : Main.Plugin)
        (params : Main.Params) (r : str) :
  Main.repo plugin = Some r ->
  Main.getUrl plugin params <> "" ->
  let p := Main.parse r (Main.defaultHubSite params)
                      (Main.defaultProtocol params) in
  Main.p_user p <> "" /\ no_slash (Main.p_user p)
  /\ Main.p_name p <> "" /\ one_line (Main.p_name p)
  /\ (Main.p_protocol p = "https" \/ Main.p_protocol p = "ssh").
Proof.
  intros R NE p. unfold Main.getUrl in NE.
  destruct (getGitUrl_nonempty plugin _ _ NE) as (r' & R' & E).
  rewrite R in R'. injection R' as <-.
  rewrite E in NE. apply build_nonempty in NE.
  destruct NE as (U & N & P & _).
  destruct (parse_user_name r (Main.defaultHubSite params)
                            (Main.defaultProtocol params)) as [S L].
  repeat split; assumption.
Qed.

(** C7 does not hold as stated: the name is whatever follows the user,
    slashes included. *)
Lemma valid_match_components_counterexample :
  Main.getUrl (main_plugin "https://gitlab.com/group/subgroup/project" None)
              Main.params
  = "https://gitlab.com/group/subgroup/project.git"
  /\ Main.p_name (Main.parse "https://gitlab.com/group/subgroup/project"
                             "github.com" "https")
     = "subgroup/project"
  /\ In "/"%char "subgroup/project".
Proof. repeat split; try reflexivity. cbn; tauto. Qed.

Lemma valid_match_components_witness :
  let p := Main.parse "Shougo/dpp.vim" "github.com" "https" in
  Main.p_user p <> "" /\ no_slash (Main.p_user p)
  /\ Main.p_name p <> "" /\ one_line (Main.p_name p)
  /\ (Main.p_protocol p = "https" \/ Main.p_protocol p = "ssh").
Proof.
  apply (valid_match_components (main_plugin "Shougo/dpp.vim" None)
                                Main.params "Shougo/dpp.vim" eq_refl).
  discriminate.
Defined.

(** ** C8 *)

(** C8, as amended.  URL building is idempotent whenever the resolved
    host is non-empty and free of the separator that follows it in the
    URL it is put in ([:] under [ssh], [/] under [https]): resolving the
    URL [u] an identifier resolved to gives [u] again.  In particular
    [.git] is never appended twice. *)
Theorem url_building_idempotent (plugin plugin' : Main.Plugin)
        (params : Main.Params) (r u : str) :
  Main.repo plugin = Some r ->
  Main.getUrl plugin params = u ->
  u <> "" ->
  Main.repo plugin' = Some u ->
  let p := Main.parse r (Main.defaultHubSite params)
                      (Main.defaultProtocol params) in
  Main.p_host p <> "" ->
  (Main.p_protocol p = "ssh" -> no_colon (Main.p_host p)) ->
  (Main.p_protocol p = "https" -> no_slash (Main.p_host p)) ->
  Main.getUrl plugin' params = u.
Proof.
  unfold Main.getUrl.
  set (hub := Main.defaultHubSite params).
  set (proto := Main.defaultProtocol params).
  cbv zeta. intros R E NE R' H0 Hssh Hhttps.
  rewrite <- E in NE.
  destruct (getGitUrl_nonempty plugin hub proto NE) as (r' & R2 & B).
  rewrite R in R2. injection R2 as <-.
  rewrite B in NE. apply build_nonempty in NE.
  destruct NE as (U & N & P & BV).
  destruct (parse_user_name r hub proto) as [S L].
  rewrite B, BV in E. clear B BV.
  destruct (Main.parse r hub proto) as [pr h us n].
  cbn [Main.p_protocol Main.p_host Main.p_user Main.p_name] in *.
  destruct P as [-> | ->].
  - (* https *)
    specialize (Hhttps eq_refl).
    rewrite url_of_https in E.
    destruct (suffix_policy_name h ("https://" ++ h ++ "/" ++ us ++ "/") n N L)
      as (n' & E' & N' & L').
    assert (Eu : u = "https://" ++ h ++ "/" ++ us ++ "/" ++ n').
    { rewrite <- E, E'. rewrite <- !app_assoc. reflexivity. }
    rewrite (getGitUrl_build plugin' hub proto u R').
    + rewrite parse_direct.
      assert (X : ssh_direct u = None) by (rewrite Eu; reflexivity).
      rewrite X. rewrite Eu at 1.
      rewrite protocol_direct_built by assumption.
      rewrite build_valid by (cbn; auto).
      cbn [Main.p_host].
      rewrite url_of_https.
      rewrite <- E', suffix_policy_idem. exact E.
    + rewrite Eu. discriminate.
    + rewrite Eu. change ("https://" ++ h ++ "/" ++ us ++ "/" ++ n')
        with ("https:/" ++ "/" ++ h ++ "/" ++ us ++ "/" ++ n').
      apply In_slash_built.
  - (* ssh *)
    specialize (Hssh eq_refl).
    rewrite url_of_ssh in E.
    destruct (suffix_policy_name h ("git@" ++ h ++ ":" ++ us ++ "/") n N L)
      as (n' & E' & N' & L').
    assert (Eu : u = "git@" ++ h ++ ":" ++ us ++ "/" ++ n').
    { rewrite <- E, E'. rewrite <- !app_assoc. reflexivity. }
    rewrite (getGitUrl_build plugin' hub proto u R').
    + rewrite parse_direct. rewrite Eu at 1.
      rewrite ssh_direct_built by assumption.
      rewrite build_valid by (cbn; auto).
      cbn [Main.p_host].
      rewrite url_of_ssh.
      rewrite <- E', suffix_policy_idem. exact E.
    + rewrite Eu. discriminate.
    + rewrite Eu. rewrite !app_assoc. rewrite <- (app_assoc _ "/" n').
      apply in_or_app. right. left. reflexivity.
Qed.

(** C8 does not hold as stated: the URL of [ssh://:22/user/name] does not
    read back under the SSH pattern and resolves to something else. *)
Lemma url_building_idempotent_counterexample :
  Main.getUrl (main_plugin "ssh://:22/user/name" None) Main.params
  = "git@:22:user/name.git"
  /\ Main.getUrl (main_plugin "git@:22:user/name.git" None) Main.params
     = "https://github.com/git@:22:user/name.git"
  /\ "https://github.com/git@:22:user/name.git" <> "git@:22:user/name.git".
Proof. repeat split; try reflexivity. discriminate. Qed.

Lemma url_building_idempotent_witness :
  Main.getUrl (main_plugin "Shougo/dpp.vim" None) Main.params
  = "https://github.com/Shougo/dpp.vim.git"
  /\ Main.getUrl (main_plugin "https://github.com/Shougo/dpp.vim.git" None)
                 Main.params
     = "https://github.com/Shougo/dpp.vim.git".
Proof.
  split; [reflexivity|].
  apply (url_building_idempotent
           (main_plugin "Shougo/dpp.vim" None)
           (main_plugin "https://github.com/Shougo/dpp.vim.git" None)
           Main.params "Shougo/dpp.vim"
           "https://github.com/Shougo/dpp.vim.git"
           eq_refl eq_refl ltac:(discriminate) eq_refl ltac:(discriminate)).
  - discriminate.
  - intros _. absent.
Defined.

(** ** C9 *)

(** C9.  For a plugin whose repo or path is missing or empty, each of
    [getSyncCommands], [getRollbackCommands], [getDiffCommands],
    [getLogCommands], [getChangesCountCommands] and
    [getRevisionLockCommands] returns the empty plan, without rejecting
    and without touching the host, and [getRevision] returns the empty
    string. *)
Theorem inapplicable_operations (plugin : Main.Plugin) (params : Main.Params)
        (rev newRev oldRev : str) (h : Host) (log : list str) :
  Main.repo plugin = None \/ Main.repo plugin = Some ""
  \/ Main.path plugin = None \/ Main.path plugin = Some "" ->
  Main.getSyncCommands plugin params h log = (Returned [], log)
  /\ Main.getRollbackCommands plugin params rev = []
  /\ Main.getDiffCommands plugin params newRev oldRev = []
  /\ Main.getLogCommands plugin params newRev oldRev h log = (Returned [], log)
  /\ Main.getChangesCountCommands plugin params newRev oldRev = []
  /\ Main.getRevisionLockCommands plugin params h log = (Returned [], log)
  /\ Main.getRevision plugin h log = (Returned "", log).
Proof.
  intros H. apply not_applicable in H.
  unfold Main.getSyncCommands, Main.getRollbackCommands, Main.getDiffCommands,
    Main.getLogCommands, Main.getChangesCountCommands,
    Main.getRevisionLockCommands, Main.getRevision.
  rewrite H. cbn [orb]. repeat split; reflexivity.
Qed.

Lemma inapplicable_operations_witness :
  Main.getSyncCommands (main_plugin "Shougo/dpp.vim" None) Main.params
                       (sample_host true "") []
  = (Returned [], [])
  /\ Main.getRollbackCommands (main_plugin "Shougo/dpp.vim" None) Main.params
                              "abc" = []
  /\ Main.getDiffCommands (main_plugin "Shougo/dpp.vim" None) Main.params
                          "def" "abc" = []
  /\ Main.getLogCommands (main_plugin "Shougo/dpp.vim" None) Main.params
                         "def" "abc" (sample_host true "") []
     = (Returned [], [])
  /\ Main.getChangesCountCommands (main_plugin "Shougo/dpp.vim" None)
                                  Main.params "def" "abc" = []
  /\ Main.getRevisionLockCommands (main_plugin "Shougo/dpp.vim" None)
                                  Main.params (sample_host true "") []
     = (Returned [], [])
  /\ Main.getRevision (main_plugin "Shougo/dpp.vim" None)
                      (sample_host true "") []
     = (Returned "", []).
Proof.
  apply (inapplicable_operations (main_plugin "Shougo/dpp.vim" None)
                                 Main.params "abc" "def" "abc"
                                 (sample_host true "") []).
  right; right; left; reflexivity.
Defined.

(** ** C10 *)

(** C10.  For a plugin with non-empty repo and path,
    [getChangesCountCommands] returns exactly one command, with the
    arguments [rev-list --count <oldRev>..<newRev>], whatever the two
    revisions are, the empty string included; [getLogCommands], for one,
    returns the empty plan when either is empty. *)
Theorem changes_count_any_revisions (plugin : Main.Plugin)
        (params : Main.Params) (newRev oldRev : str) (r p : str) :
  Main.repo plugin = Some r -> r <> "" ->
  Main.path plugin = Some p -> p <> "" ->
  Main.getChangesCountCommands plugin params newRev oldRev
  = [{| command := Main.commandPath params;
        args := ["rev-list"; "--count"; oldRev ++ ".." ++ newRev] |}]
  /\ (forall (h : Host) (log : list str),
         oldRev = "" \/ newRev = "" ->
         Main.getLogCommands plugin params newRev oldRev h log
         = (Returned [], log)).
Proof.
  intros R NR P NP. split.
  - unfold Main.getChangesCountCommands.
    rewrite (applicable plugin r p R NR P NP). reflexivity.
  - intros h log E. unfold Main.getLogCommands.
    rewrite (applicable plugin r p R NR P NP).
    destruct E as [-> | ->]; cbn [length Nat.eqb orb];
      rewrite ?orb_true_r; reflexivity.
Qed.

Lemma changes_count_any_revisions_witness :
  Main.getChangesCountCommands (main_plugin "Shougo/dpp.vim" (Some "/p"))
                               Main.params "def" ""
  = [{| command := "git"; args := ["rev-list"; "--count"; "..def"] |}]
  /\ (forall (h : Host) (log : list str),
         ("" : str) = "" \/ "def" = "" ->
         Main.getLogCommands (main_plugin "Shougo/dpp.vim" (Some "/p"))
                             Main.params "def" "" h log
         = (Returned [], log)).
Proof.
  apply (changes_count_any_revisions
           (main_plugin "Shougo/dpp.vim" (Some "/p")) Main.params "def" ""
           "Shougo/dpp.vim" "/p"
           eq_refl ltac:(discriminate) eq_refl ltac:(discriminate)).
Defined.

(* ================================================================== *)
(** * Further properties of the protocol                               *)
(* ================================================================== *)

Lemma protocol_direct_ssh_scheme (h u n : str) :
  h <> "" -> no_slash h ->
  u <> "" -> no_slash u -> n <> "" -> one_line n ->
  protocol_direct ("ssh://" ++ h ++ "/" ++ u ++ "/" ++ n)
  = Some ("ssh", h, u, n).
Proof.
  intros H1 H2 U1 U2 N1 N2. unfold protocol_direct.
  change ("ssh://" ++ h ++ "/" ++ u ++ "/" ++ n)
    with ("ssh" ++ ":"%char :: "//" ++ h ++ "/" ++ u ++ "/" ++ n).
  rewrite field_stop;
    [|discriminate|apply all_Not; intros I; simpl in I;
                   repeat (destruct I as [I|I]; [discriminate|]); exact I
     |reflexivity].
  change (":"%char :: "//" ++ h ++ "/" ++ u ++ "/" ++ n)
    with ("://" ++ h ++ "/" ++ u ++ "/" ++ n).
  rewrite strip_prefix_app.
  change (h ++ "/" ++ u ++ "/" ++ n) with (h ++ "/"%char :: u ++ "/" ++ n).
  rewrite field_stop; [|assumption|apply all_Not; assumption|reflexivity].
  cbn [sep]. rewrite Ascii.eqb_refl.
  rewrite user_name_built by assumption. reflexivity.
Qed.

Lemma search_chr_inv (c : ascii) (s : str) (b : bool) :
  search (Atom (Chr c)) b s <> None -> In c s.
Proof.
  revert b; induction s as [|x s IH]; intros b.
  - intros H. exfalso. apply H. reflexivity.
  - cbn -[Ascii.eqb]. destruct (Ascii.eqb_spec c x) as [->|N].
    + intros _. left; reflexivity.
    + intros H. right. apply (IH false).
      destruct (search (Atom (Chr c)) false s); [discriminate|].
      exfalso. apply H. reflexivity.
Qed.

Lemma test_chr_inv (c : ascii) (s : str) :
  test (Atom (Chr c)) s = true -> In c s.
Proof.
  unfold test, exec. intros H. apply (search_chr_inv c s true).
  destruct (search (Atom (Chr c)) true s); [discriminate|discriminate].
Qed.

Lemma suffix_policy_cases (host url : str) :
  (suffix_policy host url = url
   /\ (host = "git.sr.ht" \/ Str.endsWith url ".git" = true))
  \/ suffix_policy host url = url ++ ".git".
Proof.
  unfold suffix_policy.
  destruct (host =?s "git.sr.ht") eqn:E; [apply eqb_eq in E; auto|].
  destruct (Str.endsWith url ".git") eqn:F; cbn [orb]; auto.
Qed.

Lemma startsWith_app (p s t : str) :
  Str.startsWith s p = true -> Str.startsWith (s ++ t) p = true.
Proof.
  unfold Str.startsWith.
  destruct (Str.strip_prefix p s) as [r|] eqn:E; [|discriminate].
  apply strip_prefix_inv in E. subst s. rewrite <- app_assoc.
  rewrite strip_prefix_app. reflexivity.
Qed.

(** ** X1 *)

(** X1.  An identifier of the form [git@host:user/name] (host non-empty
    without colon, user non-empty without slash, name non-empty on one
    line) resolves to itself under the suffix policy, whatever the
    configured hub site and protocol are: [.git] is appended unless the
    host is [git.sr.ht] or the identifier already ends in [.git]. *)
Theorem ssh_identifier_url (plugin : Main.Plugin) (params : Main.Params)
        (host user name : str) :
  Main.repo plugin = Some ("git@" ++ host ++ ":" ++ user ++ "/" ++ name) ->
  host <> "" -> no_colon host ->
  user <> "" -> no_slash user ->
  name <> "" -> one_line name ->
  Main.getUrl plugin params
  = suffix_policy host ("git@" ++ host ++ ":" ++ user ++ "/" ++ name).
Proof.
  intros R H1 H2 U1 U2 N1 N2. unfold Main.getUrl.
  rewrite (getGitUrl_build plugin _ _ _ R).
  - rewrite parse_direct, ssh_direct_built by assumption.
    rewrite build_valid by (cbn; auto). reflexivity.
  - discriminate.
  - rewrite !app_assoc. rewrite <- (app_assoc _ "/" name).
    apply in_or_app. right. left. reflexivity.
Qed.

Lemma ssh_identifier_url_witness :
  Main.getUrl (main_plugin "git@gitlab.com:user/repo" None) Main.params
  = "git@gitlab.com:user/repo.git".
Proof.
  etransitivity.
  - apply (ssh_identifier_url (main_plugin "git@gitlab.com:user/repo" None)
                              Main.params "gitlab.com" "user" "repo" eq_refl);
      try discriminate; try absent.
    repeat constructor.
  - reflexivity.
Defined.

(** ** X2 *)

(** X2.  An identifier with an explicit scheme overrides the configured hub
    site and protocol: [https://host/user/name] resolves to itself and
    [ssh://host/user/name] to [git@host:user/name], both under the suffix
    policy. *)
Theorem explicit_scheme_url (plugin : Main.Plugin) (params : Main.Params)
        (host user name : str) :
  host <> "" -> no_slash host ->
  user <> "" -> no_slash user ->
  name <> "" -> one_line name ->
  (Main.repo plugin = Some ("https://" ++ host ++ "/" ++ user ++ "/" ++ name) ->
   Main.getUrl plugin params
   = suffix_policy host ("https://" ++ host ++ "/" ++ user ++ "/" ++ name))
  /\ (Main.repo plugin
      = Some ("ssh://" ++ host ++ "/" ++ user ++ "/" ++ name) ->
      Main.getUrl plugin params
      = suffix_policy host ("git@" ++ host ++ ":" ++ user ++ "/" ++ name)).
Proof.
  intros H1 H2 U1 U2 N1 N2. unfold Main.getUrl. split; intros R.
  - rewrite (getGitUrl_build plugin _ _ _ R).
    + rewrite parse_direct.
      change (ssh_direct ("https://" ++ host ++ "/" ++ user ++ "/" ++ name))
        with (@None (str * str * str)).
      rewrite protocol_direct_built by assumption.
      rewrite build_valid by (cbn; auto). reflexivity.
    + discriminate.
    + apply (In_slash_built "https:" "/" (host ++ "/" ++ user ++ "/" ++ name)).
  - rewrite (getGitUrl_build plugin _ _ _ R).
    + rewrite parse_direct.
      change (ssh_direct ("ssh://" ++ host ++ "/" ++ user ++ "/" ++ name))
        with (@None (str * str * str)).
      rewrite protocol_direct_ssh_scheme by assumption.
      rewrite build_valid by (cbn; auto). reflexivity.
    + discriminate.
    + apply (In_slash_built "ssh:" "/" (host ++ "/" ++ user ++ "/" ++ name)).
Qed.

Lemma explicit_scheme_url_witness :
  Main.getUrl (main_plugin "ssh://git.sr.ht/~user/repo" None) Main.params
  = "git@git.sr.ht:~user/repo".
Proof.
  etransitivity.
  - apply (proj2 (explicit_scheme_url
                    (main_plugin "ssh://git.sr.ht/~user/repo" None)
                    Main.params "git.sr.ht" "~user" "repo"
                    ltac:(discriminate) ltac:(absent)
                    ltac:(discriminate) ltac:(absent)
                    ltac:(discriminate) ltac:(repeat constructor))).
    reflexivity.
  - reflexivity.
Defined.

(** ** X3 *)

(** X3.  Every non-empty URL that [getUrl] returns comes from an identifier
    that contains a slash, starts with [https://] or with [git@], and ends
    in [.git] unless the resolved host is [git.sr.ht]. *)
Theorem url_shape (plugin : Main.Plugin) (params : Main.Params) (u : str) :
  Main.getUrl plugin params = u -> u <> "" ->
  exists r,
    Main.repo plugin = Some r /\ In "/"%char r
    /\ (Str.startsWith u "https://" = true \/ Str.startsWith u "git@" = true)
    /\ (Str.endsWith u ".git" = true
        \/ Main.p_host (Main.parse r (Main.defaultHubSite params)
                                   (Main.defaultProtocol params))
           = "git.sr.ht").
Proof.
  unfold Main.getUrl, Main.getGitUrl. intros E NE.
  destruct (Main.repo plugin) as [r|]; [|congruence].
  exists r. split; [reflexivity|].
  destruct (Str.truthy r); cbn [negb orb] in E; [|congruence].
  destruct (test Main.re_slash r) eqn:T; cbn [negb] in E; [|congruence].
  split; [apply test_chr_inv; exact T|].
  rewrite <- E in NE. apply build_nonempty in NE.
  destruct NE as (_ & _ & P & B). rewrite B in E. clear B.
  set (p := Main.parse r _ _) in *.
  assert (S : Str.startsWith (Main.url_of p) "https://" = true
              \/ Str.startsWith (Main.url_of p) "git@" = true).
  { unfold Main.url_of. destruct P as [P|P]; rewrite P; [left|right];
      reflexivity. }
  destruct (suffix_policy_cases (Main.p_host p) (Main.url_of p))
    as [[E1 C]|E1]; rewrite E1 in E; subst u.
  - split; [exact S|]. destruct C; auto.
  - split.
    + destruct S as [S|S]; [left|right]; apply startsWith_app; exact S.
    + left. apply endsWith_app.
Qed.

Lemma url_shape_witness :
  exists r,
    Main.repo (main_plugin "Shougo/dpp.vim" None) = Some r
    /\ In "/"%char r
    /\ (Str.startsWith "https://github.com/Shougo/dpp.vim.git" "https://"
        = true
        \/ Str.startsWith "https://github.com/Shougo/dpp.vim.git" "git@"
           = true)
    /\ (Str.endsWith "https://github.com/Shougo/dpp.vim.git" ".git" = true
        \/ Main.p_host (Main.parse r (Main.defaultHubSite Main.params)
                                   (Main.defaultProtocol Main.params))
           = "git.sr.ht").
Proof.
  apply (url_shape (main_plugin "Shougo/dpp.vim" None) Main.params
                   "https://github.com/Shougo/dpp.vim.git").
  - reflexivity.
  - discriminate.
Defined.

Lemma parse_leading_slash (t hub proto : str) :
  Main.build (Main.parse ("/" ++ t) hub proto) = "".
Proof.
  rewrite parse_direct.
  change (ssh_direct ("/" ++ t)) with (@None (str * str * str)).
  assert (H : host_direct ("/" ++ t) = None) by reflexivity.
  rewrite H.
  destruct (protocol_direct ("/" ++ t)) as [[[[p h] u] n]|] eqn:P;
    [|reflexivity].
  unfold protocol_direct in P.
  destruct (field (Not ":") ("/" ++ t)) as [[p' s1]|] eqn:F; [|discriminate].
  destruct (Str.strip_prefix "://" s1); [|discriminate].
  destruct (field (Not "/") s) as [[h' s3]|]; [|discriminate].
  destruct (sep "/" s3); [|discriminate].
  destruct (user_name s0) as [[u' n']|]; [|discriminate].
  injection P as -> -> -> ->.
  apply field_Some in F. destruct F as (F1 & _ & F3).
  destruct p as [|c p]; [contradiction|].
  injection F3 as <- _.
  unfold Main.build. cbn [Main.p_user Main.p_name Main.p_protocol].
  destruct ((u =?s "") || (n =?s "")); reflexivity.
Qed.

Section SearchFacts.

(** A repetition can always stop where it stands. *)
Lemma many_accepts p b cs s (k : cont) :
  k (MState b s cs) <> None -> many p b cs s k <> None.
Proof.
  destruct s as [|c s]; simpl; [auto|].
  destruct (p c); [|auto].
  destruct (many p false cs s k); [discriminate|auto].
Qed.

(** A repetition reaches any point inside a run of its characters. *)
Lemma many_reaches p b cs x y (k : cont) :
  Forall (fun c => p c = true) x ->
  k (MState (match x with [] => b | _ :: _ => false end) y cs) <> None ->
  many p b cs (x ++ y) k <> None.
Proof.
  intros F; revert b; induction F as [|c x Hc _ IH]; intros b K.
  - apply many_accepts. exact K.
  - simpl. rewrite Hc.
    assert (N : many p false cs (x ++ y) k <> None).
    { apply IH. destruct x; exact K. }
    destruct (many p false cs (x ++ y) k); [discriminate|contradiction].
Qed.

(** A pattern that matches at some point of the subject, whatever the
    anchoring there, is found by the search. *)
Lemma search_reaches (r : regex) (a s : str) (b : bool) :
  (forall b', m r (MState b' s []) Some <> None) ->
  search r b (a ++ s) <> None.
Proof.
  intros H; revert b; induction a as [|c a IH]; intros b.
  - simpl. destruct s as [|c s]; simpl;
      specialize (H b);
      match goal with
      | |- context [m r ?st Some] => destruct (m r st Some)
      end; try discriminate; contradiction.
  - simpl. destruct (m r (MState b (c :: a ++ s) []) Some); [discriminate|].
    specialize (IH false).
    destruct (search r false (a ++ s)); [discriminate|contradiction].
Qed.

Lemma test_reaches (r : regex) (a s : str) :
  (forall b', m r (MState b' s []) Some <> None) ->
  test r (a ++ s) = true.
Proof.
  intros H. unfold test, exec.
  pose proof (search_reaches r a s true H) as N.
  destruct (search r true (a ++ s)); [reflexivity|contradiction].
Qed.

End SearchFacts.

Lemma m_Alt (r1 r2 : regex) (st : mstate) (k : cont) :
  m (Alt r1 r2) st k
  = match m r1 st k with Some x => Some x | None => m r2 st k end.
Proof. reflexivity. Qed.

Lemma test_raw_host (a b : str) :
  test Main.re_raw (a ++ "//raw.githubusercontent.com/" ++ b) = true
  /\ test Main.re_raw (a ++ "//gist.githubusercontent.com/" ++ b) = true.
Proof.
  split; apply test_reaches; intros b'; cbn; discriminate.
Qed.

Lemma test_raw_archive (a name : str) (c : ascii) :
  name <> "" -> no_slash name -> line_terminator c = false ->
  test Main.re_raw (a ++ "/archive/" ++ name ++ c :: "zip") = true.
Proof.
  intros N S C. apply test_reaches. intros b'.
  change Main.re_raw
    with (Alt (seq [Lit "//"; Grp "1" (Alt (Lit "raw") (Lit "gist"));
                    Lit ".githubusercontent.com/"])
              (Cat (Lit "/archive/")
                   (Cat (Plus (Not "/"))
                        (Cat (Atom Dot) (Cat (Lit "zip") (Cat Eol Eps)))))).
  rewrite m_Alt.
  assert (E : m (seq [Lit "//"; Grp "1" (Alt (Lit "raw") (Lit "gist"));
                      Lit ".githubusercontent.com/"])
                (MState b' ("/archive/" ++ name ++ c :: "zip") []) Some = None)
    by reflexivity.
  rewrite E. clear E.
  rewrite m_Lit. cbn [rest]. rewrite strip_prefix_app. cbn [caps m rest].
  destruct name as [|n0 name]; [contradiction|].
  assert (A : Forall (fun x => atom_ok (Not "/") x = true) (n0 :: name))
    by (apply all_Not; exact S).
  inversion A as [|? ? A0 A1]; subst.
  cbn [app]. rewrite A0.
  apply many_reaches; [exact A1|].
  cbn -[line_terminator]. rewrite C. cbn. discriminate.
Qed.

Section ReplaceFacts.

Lemma endsWith_inv (s p : str) :
  Str.endsWith s p = true -> exists x, s = x ++ p.
Proof.
  unfold Str.endsWith, Str.startsWith.
  destruct (Str.strip_prefix (rev p) (rev s)) as [r|] eqn:E; [|discriminate].
  intros _. apply strip_prefix_inv in E. exists (rev r).
  rewrite <- (rev_involutive s), E, rev_app_distr, rev_involutive.
  reflexivity.
Qed.

Lemma firstn_dot_git (x : str) :
  firstn (length (x ++ ".git") - 4) (x ++ ".git") = x.
Proof. exact (firstn_length_app x ".git"). Qed.

Lemma strip_dot_git_app (x : str) : strip_dot_git (x ++ ".git") = x.
Proof.
  unfold strip_dot_git. rewrite endsWith_app. apply firstn_dot_git.
Qed.

(** [/\.git$/] at a given point of the subject. *)
Lemma m_dot_git (b : bool) (s : str) :
  m Main.re_dot_git (MState b s []) Some
  = if s =?s ".git" then Some (MState false [] []) else None.
Proof.
  change Main.re_dot_git with (Cat (Lit ".git") (Cat Eol Eps)).
  rewrite m_Lit. cbn [rest caps].
  destruct (Str.strip_prefix ".git" s) as [r|] eqn:E.
  - apply strip_prefix_inv in E. subst s.
    destruct r as [|c r]; [reflexivity|].
    cbn [m rest].
    replace (".git" ++ c :: r =?s ".git") with false; [reflexivity|].
    symmetry. apply eqb_neq. discriminate.
  - destruct (s =?s ".git") eqn:F; [|reflexivity].
    apply eqb_eq in F. subst s. discriminate.
Qed.

Lemma search_dot_git_app (b : bool) (x : str) :
  search Main.re_dot_git b (x ++ ".git") = Some (Result x ".git" [] []).
Proof.
  revert b; induction x as [|c x IH]; intros b.
  - destruct b; reflexivity.
  - cbn [app search]. rewrite m_dot_git.
    assert (F : (c :: x ++ ".git" =?s ".git") = false).
    { apply eqb_neq. intros E. apply (f_equal (@length ascii)) in E.
      cbn [length] in E. rewrite length_app in E. cbn [length] in E. lia. }
    rewrite F, IH. reflexivity.
Qed.

Lemma search_dot_git_inv (b : bool) (s : str) :
  search Main.re_dot_git b s <> None -> Str.endsWith s ".git" = true.
Proof.
  revert b; induction s as [|c s IH]; intros b.
  - cbn [search]. rewrite m_dot_git. cbn. intros H. exfalso. apply H.
    reflexivity.
  - cbn [search]. rewrite m_dot_git.
    destruct (c :: s =?s ".git") eqn:F.
    + apply eqb_eq in F. rewrite F. reflexivity.
    + intros H.
      assert (N : search Main.re_dot_git false s <> None).
      { destruct (search Main.re_dot_git false s); [discriminate|].
        exfalso. apply H. reflexivity. }
      apply IH in N. apply endsWith_inv in N. destruct N as [x ->].
      apply (endsWith_app (c :: x) ".git").
Qed.

(** [s.replace(/\.git$/, "")] drops a final [.git] and nothing else. *)
Lemma replace_dot_git (s : str) :
  replace Main.re_dot_git (fun _ => "") s = strip_dot_git s.
Proof.
  unfold replace, exec.
  destruct (Str.endsWith s ".git") eqn:E.
  - destruct (endsWith_inv _ _ E) as [x ->].
    rewrite search_dot_git_app, strip_dot_git_app. cbn. apply app_nil_r.
  - unfold strip_dot_git. rewrite E.
    destruct (search Main.re_dot_git true s) eqn:S; [|reflexivity].
    assert (N : search Main.re_dot_git true s <> None) by congruence.
    apply search_dot_git_inv in N. congruence.
Qed.

(** Whether a URL ends in [.git] is decided by its last component. *)
Lemma endsWith_component (p name : str) :
  Str.endsWith (p ++ "/" ++ name) ".git" = Str.endsWith name ".git".
Proof.
  unfold Str.endsWith, Str.startsWith.
  rewrite rev_app_distr.
  change ("/" ++ name) with (["/"%char] ++ name).
  rewrite rev_app_distr. cbn [rev app]. rewrite <- app_assoc.
  destruct (rev name) as [|a [|b [|c [|d l]]]]; cbn -[Ascii.eqb];
    repeat (match goal with
            | |- context [Ascii.eqb ?x ?y] =>
                is_var y; destruct (Ascii.eqb x y)
            | |- context [Ascii.eqb ?x ?y] =>
                let v := eval vm_compute in (Ascii.eqb x y) in
                change (Ascii.eqb x y) with v
            end; cbn -[Ascii.eqb]);
    reflexivity.
Qed.

Lemma strip_dot_git_component (p name : str) :
  strip_dot_git (p ++ "/" ++ name) = p ++ "/" ++ strip_dot_git name.
Proof.
  unfold strip_dot_git. rewrite endsWith_component.
  destruct (Str.endsWith name ".git") eqn:E; [|reflexivity].
  destruct (endsWith_inv _ _ E) as [x ->].
  replace (p ++ "/" ++ x ++ ".git") with ((p ++ "/" ++ x) ++ ".git")
    by (rewrite <- !app_assoc; reflexivity).
  rewrite !firstn_dot_git. reflexivity.
Qed.

Lemma strip_suffix_policy (host url : str) :
  strip_dot_git (suffix_policy host url) = strip_dot_git url.
Proof.
  unfold suffix_policy.
  destruct ((host =?s "git.sr.ht") || Str.endsWith url ".git") eqn:C;
    [reflexivity|].
  rewrite strip_dot_git_app. unfold strip_dot_git.
  apply orb_false_iff in C. destruct C as [_ ->]. reflexivity.
Qed.

(** A global replacement leaves alone a subject in which the pattern
    matches nowhere. *)
Lemma replace_from_none (r : regex) (f : captures -> str) (s : str) :
  (forall t1 t2, s = t1 ++ t2 -> m r (MState false t2 []) Some = None) ->
  replace_from r f false 0 s = s.
Proof.
  induction s as [|c s IH]; intros H.
  - cbn [replace_from]. rewrite (H [] [] eq_refl). reflexivity.
  - cbn [replace_from]. rewrite (H [] (c :: s) eq_refl). f_equal.
    apply IH. intros t1 t2 E. apply (H (c :: t1) t2). rewrite E. reflexivity.
Qed.

Lemma skip_replace_from (r : regex) (f : captures -> str) (x s : str) :
  replace_from r f false (length x) (x ++ s) = replace_from r f false 0 s.
Proof.
  induction x as [|c x IH]; [reflexivity|]. cbn [length app replace_from].
  exact IH.
Qed.

(** [/https:\/+|^git@/] inside a subject. *)
Lemma m_scheme_inside (t : str) :
  (forall t', t <> "https:/" ++ t') ->
  m Main.re_scheme (MState false t []) Some = None.
Proof.
  intros H.
  change Main.re_scheme
    with (Alt (Cat (Lit "https:") (Cat (Plus (Chr "/")) Eps))
              (seq [Bol; Lit "git@"])).
  rewrite m_Alt, m_Lit. cbn [rest caps].
  destruct (Str.strip_prefix "https:" t) as [r|] eqn:E; [|reflexivity].
  apply strip_prefix_inv in E. subst t.
  destruct r as [|c r]; [reflexivity|].
  cbn -[Ascii.eqb]. destruct (Ascii.eqb_spec "/" c) as [<-|]; [|reflexivity].
  exfalso. apply (H r). reflexivity.
Qed.

Lemma no_colon_no_scheme (s : str) :
  no_colon s ->
  forall t1 t2, s = t1 ++ t2 ->
                m Main.re_scheme (MState false t2 []) Some = None.
Proof.
  intros N t1 t2 E. apply m_scheme_inside. intros t' ->. apply N.
  rewrite E. apply in_or_app. right. cbn. tauto.
Qed.

(** The colon of [a:b], when neither side has one. *)
Lemma colon_split (a b x y : str) :
  no_colon a -> no_colon b ->
  a ++ ":"%char :: b = x ++ ":"%char :: y -> a = x /\ b = y.
Proof.
  intros A B. revert x; induction a as [|c a IH]; intros [|d x] E;
    cbn [app] in E.
  - injection E as E. auto.
  - injection E as <- E. exfalso. apply B. rewrite E.
    apply in_or_app. right. left. reflexivity.
  - injection E as -> E. exfalso. apply A. left. reflexivity.
  - injection E as <- E.
    destruct (IH (fun I => A (or_intror I)) x E) as [-> ->]. auto.
Qed.

Lemma login_no_scheme (host tl : str) :
  no_colon host -> no_colon tl ->
  match tl with "/"%char :: _ => False | _ => True end ->
  forall t1 t2, host ++ ":" ++ tl = t1 ++ t2 ->
                m Main.re_scheme (MState false t2 []) Some = None.
Proof.
  intros H R S t1 t2 E. apply m_scheme_inside. intros t' ->.
  change (host ++ ":" ++ tl) with (host ++ ":"%char :: tl) in E.
  change (t1 ++ "https:/" ++ t')
    with (t1 ++ "https" ++ ":"%char :: "/" ++ t') in E.
  rewrite app_assoc in E.
  apply colon_split in E; [|assumption|assumption].
  destruct E as [_ ->]. exact S.
Qed.

Lemma length_sub_app (x s : str) : length (x ++ s) - length s = length x.
Proof. rewrite length_app. lia. Qed.

(** The directory of an [https] URL. *)
Lemma scheme_https (body : str) :
  no_colon body ->
  match body with "/"%char :: _ => False | [] => False | _ => True end ->
  replaceAll Main.re_scheme (fun _ => "") ("https://" ++ body) = body.
Proof.
  intros N S. unfold replaceAll.
  assert (M : m Main.re_scheme (MState true ("https://" ++ body) []) Some
              = Some (MState false body [])).
  { change Main.re_scheme
      with (Alt (Cat (Lit "https:") (Cat (Plus (Chr "/")) Eps))
                (seq [Bol; Lit "git@"])).
    rewrite m_Alt, m_Lit. cbn [rest caps].
    change ("https://" ++ body) with ("https:" ++ "//" ++ body).
    rewrite strip_prefix_app.
    destruct body as [|c body]; [contradiction|].
    cbn -[Ascii.eqb].
    destruct (Ascii.eqb_spec "/" c) as [<-|]; [contradiction|].
    reflexivity. }
  change ("https://" ++ body) with ("h"%char :: "ttps://" ++ body) at 1.
  cbn [replace_from].
  change ("h"%char :: "ttps://" ++ body) with ("https://" ++ body).
  rewrite M. cbn [caps rest app].
  match goal with
  | |- context [?a - length body] =>
      replace (a - length body) with 8 by (cbn [length]; lia)
  end.
  etransitivity;
    [apply (skip_replace_from Main.re_scheme (fun _ => "") "ttps://" body)|].
  apply replace_from_none. apply no_colon_no_scheme. exact N.
Qed.

(** The directory of an SSH URL, before its colon is replaced. *)
Lemma scheme_ssh (host tl : str) :
  no_colon host -> no_colon tl ->
  match tl with "/"%char :: _ => False | _ => True end ->
  replaceAll Main.re_scheme (fun _ => "") ("git@" ++ host ++ ":" ++ tl)
  = host ++ ":" ++ tl.
Proof.
  intros H R S. unfold replaceAll.
  assert (M : m Main.re_scheme
                (MState true ("git@" ++ host ++ ":" ++ tl) []) Some
              = Some (MState false (host ++ ":" ++ tl) []))
    by reflexivity.
  change ("git@" ++ host ++ ":" ++ tl)
    with ("g"%char :: "it@" ++ host ++ ":" ++ tl) at 1.
  cbn [replace_from].
  change ("g"%char :: "it@" ++ host ++ ":" ++ tl)
    with ("git@" ++ host ++ ":" ++ tl).
  rewrite M. cbn [caps rest app].
  match goal with
  | |- context [?a - length ?t] =>
      replace (a - length t) with 4 by (cbn [length]; lia)
  end.
  etransitivity;
    [apply (skip_replace_from Main.re_scheme (fun _ => "") "it@"
                              (host ++ ":" ++ tl))|].
  apply replace_from_none. apply login_no_scheme; assumption.
Qed.

Lemma search_chr_none (c : ascii) (s : str) (b : bool) :
  ~ In c s -> search (Atom (Chr c)) b s = None.
Proof.
  intros N. destruct (search (Atom (Chr c)) b s) eqn:E; [|reflexivity].
  exfalso. apply N. apply (search_chr_inv c s b). congruence.
Qed.

Lemma search_chr_first (c : ascii) (a y : str) (b : bool) :
  ~ In c a ->
  search (Atom (Chr c)) b (a ++ c :: y) = Some (Result a [c] y []).
Proof.
  revert b; induction a as [|x a IH]; intros b N.
  - cbn -[Ascii.eqb consumed]. rewrite Ascii.eqb_refl.
    cbn -[consumed]. unfold consumed. cbn [length].
    replace (S (length y) - length y) with 1 by lia. reflexivity.
  - cbn -[Ascii.eqb consumed]. destruct (Ascii.eqb_spec c x) as [->|D].
    + exfalso. apply N. left. reflexivity.
    + rewrite IH by (intros I; apply N; right; exact I). reflexivity.
Qed.

(** [s.replace(/:/, "/")] *)
Lemma replace_colon_none (s : str) :
  no_colon s -> replace Main.re_colon (fun _ => "/") s = s.
Proof.
  intros N. unfold replace, exec, Main.re_colon.
  rewrite search_chr_none by exact N. reflexivity.
Qed.

Lemma replace_colon_first (a y : str) :
  no_colon a ->
  replace Main.re_colon (fun _ => "/") (a ++ ":" ++ y) = a ++ "/" ++ y.
Proof.
  intros N. unfold replace, exec, Main.re_colon.
  change (a ++ ":" ++ y) with (a ++ ":"%char :: y).
  rewrite search_chr_first by exact N. reflexivity.
Qed.

(** A replacement anchored at the start. *)
Lemma replace_anchored_none (r : regex) (f : captures -> str) (s : str) :
  m r (MState true s []) Some = None -> replace (Cat Bol r) f s = s.
Proof.
  intros H. unfold replace, exec.
  destruct s as [|c s]; cbn [search m bol]; rewrite H; [reflexivity|].
  rewrite search_anchored. reflexivity.
Qed.

Lemma replace_anchored_some (r : regex) (f : captures -> str) (s : str)
      (st : mstate) :
  m r (MState true s []) Some = Some st ->
  replace (Cat Bol r) f s = f (caps st) ++ rest st.
Proof.
  intros H. unfold replace, exec.
  destruct s as [|c s]; cbn [search m bol]; rewrite H; reflexivity.
Qed.

End ReplaceFacts.

Section DetectFacts.

Lemma detect_remote (plugin : Main.Plugin) (params : Main.Params)
      (h : Host) (log : list str) (r : str) :
  Main.repo plugin = Some r -> r <> "" ->
  test Main.re_raw r = false ->
  remote_candidate h plugin r ->
  Main.detect plugin params h log
  = (Returned
       (if length (Main.getUrl plugin params) =? 0 then None
        else Some {| u_frozen := None;
                     u_local := None;
                     u_path := Some (base_path h ++ "/repos/"
                                     ++ directory_of
                                          (Main.getUrl plugin params));
                     u_url := Some (browse_of (Main.getUrl plugin params)) |}),
     log).
Proof.
  intros R NR Raw C. unfold Main.detect.
  rewrite R, (truthy_nonempty r NR), Raw. cbn [negb].
  unfold bind, ask, ret. rewrite test_tilde.
  assert (E : (if isAbsolute h r || Str.startsWith r "~"
               then if Main.is_true (Main.local plugin)
                    then (Returned (Some (@None PluginUpdate)), log)
                    else if isDirectory h (expand h r)
                         then (Returned
                                 (Some (Some {| u_frozen := None;
                                                u_local := Some true;
                                                u_path := Some (expand h r);
                                                u_url := None |})), log)
                         else (Returned None, log)
               else (Returned None, log))
              = (Returned None, log)).
  { destruct C as [-> | [L D]]; [reflexivity|].
    rewrite (not_flagged _ L), D.
    destruct (isAbsolute h r || Str.startsWith r "~"); reflexivity. }
  destruct (isAbsolute h r || Str.startsWith r "~").
  - destruct (Main.is_true (Main.local plugin)); [discriminate E|].
    destruct (isDirectory h (expand h r)); [discriminate E|].
    destruct (length (Main.getUrl plugin params) =? 0); reflexivity.
  - destruct (length (Main.getUrl plugin params) =? 0); reflexivity.
Qed.

Lemma strip_dot_git_In (c : ascii) (s : str) :
  ~ In c s -> ~ In c (strip_dot_git s).
Proof.
  unfold strip_dot_git. destruct (Str.endsWith s ".git"); [|auto].
  intros N I. apply N. rewrite <- (firstn_skipn (length s - 4) s).
  apply in_or_app. left. exact I.
Qed.

Lemma no_colon_app (a b : str) :
  no_colon a -> no_colon b -> no_colon (a ++ b).
Proof.
  intros A B I. apply in_app_or in I. destruct I; [apply A|apply B]; assumption.
Qed.

Lemma no_colon_slash : no_colon "/".
Proof. intros [E|[]]. discriminate E. Qed.

Lemma location_no_colon (host user name : str) :
  no_colon host -> no_colon user -> no_colon name ->
  no_colon (host ++ "/" ++ user ++ "/" ++ strip_dot_git name).
Proof.
  intros H U N.
  repeat first [apply no_colon_app | apply no_colon_slash | assumption].
  apply strip_dot_git_In. exact N.
Qed.

Lemma head_not_slash (s t : str) :
  s <> "" -> no_slash s ->
  match s ++ t with "/"%char :: _ => False | [] => False | _ => True end.
Proof.
  destruct s as [|c s]; [contradiction|]. intros _ N. cbn [app].
  destruct (Ascii.eqb_spec c "/") as [->|D].
  - apply N. left. reflexivity.
  - destruct c as [[|] [|] [|] [|] [|] [|] [|] [|]]; try exact I.
    exfalso. apply D. reflexivity.
Qed.

Lemma head_not_slash' (s t : str) :
  s <> "" -> no_slash s ->
  match s ++ t with "/"%char :: _ => False | _ => True end.
Proof.
  intros A B. pose proof (head_not_slash s t A B) as H.
  destruct (s ++ t) as [|c l]; [exact I|].
  destruct c as [[|] [|] [|] [|] [|] [|] [|] [|]]; exact H.
Qed.

(** What the suffix policy makes of a URL, read at its last component. *)
Lemma stripped (host p name : str) :
  strip_dot_git (suffix_policy host (p ++ "/" ++ name))
  = p ++ "/" ++ strip_dot_git name.
Proof. rewrite strip_suffix_policy. apply strip_dot_git_component. Qed.

Lemma directory_https (host user name : str) :
  clean host -> user <> "" -> no_colon user -> no_colon name ->
  directory_of (suffix_policy host
                  ("https://" ++ host ++ "/" ++ user ++ "/" ++ name))
  = host ++ "/" ++ user ++ "/" ++ strip_dot_git name.
Proof.
  intros (H1 & H2 & H3) U1 U3 N3. unfold directory_of.
  rewrite replace_dot_git.
  replace ("https://" ++ host ++ "/" ++ user ++ "/" ++ name)
    with (("https://" ++ host ++ "/" ++ user) ++ "/" ++ name)
    by (rewrite <- !app_assoc; reflexivity).
  rewrite stripped.
  replace (("https://" ++ host ++ "/" ++ user) ++ "/" ++ strip_dot_git name)
    with ("https://" ++ host ++ "/" ++ user ++ "/" ++ strip_dot_git name)
    by (rewrite <- !app_assoc; reflexivity).
  rewrite scheme_https.
  - apply replace_colon_none. apply location_no_colon; assumption.
  - apply location_no_colon; assumption.
  - apply head_not_slash; assumption.
Qed.

Lemma directory_ssh (host user name : str) :
  no_colon host -> user <> "" -> no_slash user -> no_colon user ->
  no_colon name ->
  directory_of (suffix_policy host
                  ("git@" ++ host ++ ":" ++ user ++ "/" ++ name))
  = host ++ "/" ++ user ++ "/" ++ strip_dot_git name.
Proof.
  intros H3 U1 U2 U3 N3. unfold directory_of.
  rewrite replace_dot_git.
  replace ("git@" ++ host ++ ":" ++ user ++ "/" ++ name)
    with (("git@" ++ host ++ ":" ++ user) ++ "/" ++ name)
    by (rewrite <- !app_assoc; reflexivity).
  rewrite stripped.
  replace (("git@" ++ host ++ ":" ++ user) ++ "/" ++ strip_dot_git name)
    with ("git@" ++ host ++ ":" ++ user ++ "/" ++ strip_dot_git name)
    by (rewrite <- !app_assoc; reflexivity).
  rewrite scheme_ssh.
  - apply replace_colon_first. exact H3.
  - exact H3.
  - repeat first [apply no_colon_app | apply no_colon_slash | assumption].
    apply strip_dot_git_In. exact N3.
  - apply head_not_slash'; assumption.
Qed.

Lemma suffix_policy_prefix (host p q : str) :
  exists q', suffix_policy host (p ++ q) = p ++ q'.
Proof.
  unfold suffix_policy.
  destruct ((host =?s "git.sr.ht") || Str.endsWith (p ++ q) ".git").
  - exists q. reflexivity.
  - exists (q ++ ".git"). rewrite app_assoc. reflexivity.
Qed.

Lemma browse_https (host user name : str) :
  browse_of (suffix_policy host
               ("https://" ++ host ++ "/" ++ user ++ "/" ++ name))
  = "https://" ++ host ++ "/" ++ user ++ "/" ++ strip_dot_git name.
Proof.
  unfold browse_of.
  destruct (suffix_policy_prefix host "https://"
              (host ++ "/" ++ user ++ "/" ++ name)) as [q E].
  change ("https://" ++ host ++ "/" ++ user ++ "/" ++ name)
    with ("https://" ++ (host ++ "/" ++ user ++ "/" ++ name)).
  rewrite E.
  change Main.re_github
    with (Cat Bol (seq [Lit "git@github"; Atom Dot; Lit "com:"])).
  rewrite replace_anchored_none by reflexivity.
  change Main.re_srht
    with (Cat Bol (seq [Lit "git@git"; Atom Dot; Lit "sr"; Atom Dot;
                        Lit "ht:"])).
  rewrite replace_anchored_none by reflexivity.
  rewrite <- E, replace_dot_git.
  replace ("https://" ++ host ++ "/" ++ user ++ "/" ++ name)
    with (("https://" ++ host ++ "/" ++ user) ++ "/" ++ name)
    by (rewrite <- !app_assoc; reflexivity).
  rewrite stripped. rewrite <- !app_assoc. reflexivity.
Qed.

Lemma suffix_policy_component (host p name : str) :
  exists name',
    suffix_policy host (p ++ "/" ++ name) = p ++ "/" ++ name'
    /\ strip_dot_git name' = strip_dot_git name.
Proof.
  unfold suffix_policy.
  destruct ((host =?s "git.sr.ht") || Str.endsWith (p ++ "/" ++ name) ".git")
    eqn:C.
  - exists name. auto.
  - exists (name ++ ".git"). split.
    + rewrite <- !app_assoc. reflexivity.
    + rewrite strip_dot_git_app. apply orb_false_iff in C.
      destruct C as [_ C]. rewrite endsWith_component in C.
      unfold strip_dot_git. rewrite C. reflexivity.
Qed.

Lemma browse_ssh_github (user name : str) :
  browse_of (suffix_policy "github.com"
               ("git@github.com:" ++ user ++ "/" ++ name))
  = "https://github.com/" ++ user ++ "/" ++ strip_dot_git name.
Proof.
  unfold browse_of.
  destruct (suffix_policy_component "github.com" ("git@github.com:" ++ user)
                                    name) as (name' & E & S).
  replace ("git@github.com:" ++ user ++ "/" ++ name)
    with (("git@github.com:" ++ user) ++ "/" ++ name)
    by (rewrite <- !app_assoc; reflexivity).
  rewrite E.
  replace (("git@github.com:" ++ user) ++ "/" ++ name')
    with ("git@github.com:" ++ user ++ "/" ++ name')
    by (rewrite <- !app_assoc; reflexivity).
  change Main.re_github
    with (Cat Bol (seq [Lit "git@github"; Atom Dot; Lit "com:"])).
  rewrite (replace_anchored_some _ _ _
             (MState false (user ++ "/" ++ name') [])) by reflexivity.
  cbn [caps rest].
  change Main.re_srht
    with (Cat Bol (seq [Lit "git@git"; Atom Dot; Lit "sr"; Atom Dot;
                        Lit "ht:"])).
  rewrite replace_anchored_none by reflexivity.
  rewrite replace_dot_git.
  replace ("https://github.com/" ++ user ++ "/" ++ name')
    with (("https://github.com/" ++ user) ++ "/" ++ name')
    by (rewrite <- !app_assoc; reflexivity).
  rewrite strip_dot_git_component, S. rewrite <- !app_assoc. reflexivity.
Qed.

End DetectFacts.

Section DetectTheorems.

Lemma raw_location_test (r : str) :
  raw_location r -> test Main.re_raw r = true /\ r <> "".
Proof.
  intros [a b|a b|a name c N S C]; split.
  - apply (proj1 (test_raw_host a b)).
  - intros E; destruct a; discriminate E.
  - apply (proj2 (test_raw_host a b)).
  - intros E; destruct a; discriminate E.
  - apply test_raw_archive; assumption.
  - intros E; destruct a; discriminate E.
Qed.

Lemma getGitUrl_parsed (plugin : Main.Plugin) (hub proto r : str)
      (p : Main.Parsed) :
  Main.repo plugin = Some r -> r <> "" -> In "/"%char r ->
  Main.parse r hub proto = p ->
  Main.p_user p <> "" -> Main.p_name p <> "" ->
  Main.p_protocol p = "https" \/ Main.p_protocol p = "ssh" ->
  Main.getGitUrl plugin hub proto
  = suffix_policy (Main.p_host p) (Main.url_of p).
Proof.
  intros R NR I E U N P.
  rewrite (getGitUrl_build plugin hub proto r R NR I), E.
  apply build_valid; assumption.
Qed.

Lemma parse_shorthand (r hub proto : str) (oh : option str)
      (user name : str) :
  shorthand r oh user name ->
  exec Main.re_ssh r = None -> exec Main.re_protocol r = None ->
  Main.parse r hub proto = Main.Build_Parsed proto (oh ?? hub) user name.
Proof.
  intros S E1 E2.
  destruct (shorthand_parts _ _ _ _ S) as (U & N & I & NE & OH).
  pose proof (host_direct_shorthand _ _ _ _ S) as HD.
  apply (exec_None_direct _ _ _ _ (ssh_groups r)) in E1.
  apply (exec_None_direct _ _ _ _ (protocol_groups r)) in E2.
  rewrite parse_direct, E1, E2, HD.
  destruct oh as [h|]; [|reflexivity].
  cbn [truthy nullish]. rewrite truthy_nonempty by assumption. reflexivity.
Qed.

Lemma nonempty_url (host p q : str) :
  p <> "" -> (length (suffix_policy host (p ++ q)) =? 0) = false.
Proof.
  intros N. destruct (suffix_policy_prefix host p q) as [q' ->].
  destruct p; [contradiction|reflexivity].
Qed.

End DetectTheorems.

(** ** X4 *)

(** X4.  [detect] of both variants does not answer for a raw location: an
    identifier that contains [//raw.githubusercontent.com/] or
    [//gist.githubusercontent.com/], or that ends in [/archive/<name>]
    followed by one character other than a line terminator and by [zip],
    where [<name>] is non-empty and without slash.  The answer does not
    depend on the host, and nothing is reported. *)
Theorem detect_raw (h : Host) (log : list str) (r : str) :
  raw_location r ->
  (forall (plugin : Main.Plugin) (params : Main.Params),
      Main.repo plugin = Some r ->
      Main.detect plugin params h log = (Returned None, log))
  /\ (forall (plugin : Git.Plugin) (params : Git.Params),
         Git.repo plugin = Some r ->
         Git.detect plugin params h log = (Returned None, log)).
Proof.
  intros L. destruct (raw_location_test r L) as [T N].
  split; intros plugin params R.
  - unfold Main.detect. rewrite R, (truthy_nonempty r N), T. reflexivity.
  - unfold Git.detect. rewrite R, (truthy_nonempty r N), T. reflexivity.
Qed.

Lemma detect_raw_witness :
  Main.detect
    (main_plugin "https://github.com/Shougo/dpp.vim/archive/main.zip" None)
    Main.params (sample_host false "") []
  = (Returned None, []).
Proof.
  apply (proj1 (detect_raw (sample_host false "") [] _
                  (raw_archive "https://github.com/Shougo/dpp.vim" "main"
                               "."%char ltac:(discriminate) ltac:(absent)
                               eq_refl))).
  reflexivity.
Defined.

(** ** X5 *)

(** X5.  An identifier that begins with a slash resolves to no URL, so
    [detect] answers for it either with nothing or with the local record
    of its expansion, the latter only when the expansion is a directory
    and the plugin is not already flagged local; it never answers with a
    remote record. *)
Theorem detect_leading_slash (plugin : Main.Plugin) (params : Main.Params)
        (h : Host) (log : list str) (t : str) :
  Main.repo plugin = Some ("/" ++ t) ->
  Main.getUrl plugin params = ""
  /\ exists answer,
      Main.detect plugin params h log = (Returned answer, log)
      /\ (answer = None
          \/ (answer = Some {| u_frozen := None;
                               u_local := Some true;
                               u_path := Some (expand h ("/" ++ t));
                               u_url := None |}
              /\ isDirectory h (expand h ("/" ++ t)) = true
              /\ Main.local plugin <> Some true)).
Proof.
  intros R.
  assert (U : Main.getUrl plugin params = "").
  { unfold Main.getUrl, Main.getGitUrl. rewrite R.
    destruct (negb (Str.truthy ("/" ++ t))
              || negb (test Main.re_slash ("/" ++ t))); [reflexivity|].
    apply parse_leading_slash. }
  split; [exact U|].
  unfold Main.detect. rewrite R. cbn [Str.truthy app negb].
  change ("/"%char :: t) with ("/" ++ t).
  destruct (test Main.re_raw ("/" ++ t)); [eexists; split; [reflexivity|auto]|].
  unfold bind, ask, ret. rewrite U. cbn [length Nat.eqb].
  destruct (isAbsolute h ("/" ++ t) || test Main.re_tilde ("/" ++ t));
    [|eexists; split; [reflexivity|auto]].
  destruct (Main.local plugin) as [[|]|] eqn:L; cbn [Main.is_true nullish];
    [eexists; split; [reflexivity|auto]| |];
    (destruct (isDirectory h (expand h ("/" ++ t))) eqn:D;
     [|eexists; split; [reflexivity|auto]]);
    (eexists; split; [reflexivity|]; right; repeat split; discriminate).
Qed.

Lemma detect_leading_slash_witness :
  Main.getUrl (main_plugin "/home/me/plugin" None) Main.params = ""
  /\ exists answer,
      Main.detect (main_plugin "/home/me/plugin" None) Main.params
                  (sample_host false "") []
      = (Returned answer, [])
      /\ (answer = None
          \/ (answer = Some {| u_frozen := None;
                               u_local := Some true;
                               u_path := Some "/home/me/plugin";
                               u_url := None |}
              /\ isDirectory (sample_host false "") "/home/me/plugin" = true
              /\ Main.local (main_plugin "/home/me/plugin" None)
                 <> Some true)).
Proof.
  apply (detect_leading_slash (main_plugin "/home/me/plugin" None)
                              Main.params (sample_host false "") []
                              "home/me/plugin" eq_refl).
Defined.

(** ** X6 *)

(** X6.  For [https://host/user/name] (host and user non-empty without
    slash and colon, name non-empty on one line without colon) that is
    neither a raw location nor an absolute path, [detect] answers with
    the directory [<base>/repos/host/user/name] and the browse URL
    [https://host/user/name], a trailing [.git] of the name dropped in
    both. *)
Theorem detect_https_identifier (plugin : Main.Plugin) (params : Main.Params)
        (h : Host) (log : list str) (host user name : str) :
  Main.repo plugin = Some ("https://" ++ host ++ "/" ++ user ++ "/" ++ name) ->
  clean host -> clean user ->
  name <> "" -> one_line name -> no_colon name ->
  test Main.re_raw ("https://" ++ host ++ "/" ++ user ++ "/" ++ name) = false ->
  isAbsolute h ("https://" ++ host ++ "/" ++ user ++ "/" ++ name) = false ->
  Main.detect plugin params h log
  = (Returned
       (Some (remote_record h (host ++ "/" ++ user ++ "/"
                               ++ strip_dot_git name))), log).
Proof.
  intros R (H1 & H2 & H3) (U1 & U2 & U3) N1 N2 N3 Raw A.
  rewrite (detect_remote plugin params h log _ R);
    [|discriminate|exact Raw|left; rewrite A; reflexivity].
  assert (E : Main.getUrl plugin params
              = suffix_policy host
                  ("https://" ++ host ++ "/" ++ user ++ "/" ++ name)).
  { unfold Main.getUrl.
    apply (getGitUrl_parsed plugin _ _ _
             (Main.Build_Parsed "https" host user name) R);
      [discriminate
      |apply (In_slash_built "https:" "/"
                             (host ++ "/" ++ user ++ "/" ++ name))
      | |exact U1|exact N1|left; reflexivity].
    rewrite parse_direct.
    change (ssh_direct ("https://" ++ host ++ "/" ++ user ++ "/" ++ name))
      with (@None (str * str * str)).
    rewrite protocol_direct_built by assumption. reflexivity. }
  rewrite E.
  rewrite (nonempty_url host "https://") by discriminate.
  rewrite directory_https, browse_https by (unfold clean; auto).
  reflexivity.
Qed.

Lemma detect_https_identifier_witness :
  Main.detect (main_plugin "https://gitlab.com/user/repo.git" None)
              Main.params (sample_host false "") []
  = (Returned (Some {| u_frozen := None;
                       u_local := None;
                       u_path := Some "/cache/repos/gitlab.com/user/repo";
                       u_url := Some "https://gitlab.com/user/repo" |}), []).
Proof.
  etransitivity.
  - apply (detect_https_identifier
             (main_plugin "https://gitlab.com/user/repo.git" None)
             Main.params (sample_host false "") []
             "gitlab.com" "user" "repo.git" eq_refl);
      try reflexivity; try discriminate; try absent;
      try (repeat split; try discriminate; absent).
    repeat constructor.
  - reflexivity.
Defined.

(** ** X7 *)

(** X7.  For [git@host:user/name] that is neither a raw location nor an
    absolute path, [detect] answers with the directory
    [<base>/repos/host/user/name], a trailing [.git] of the name dropped:
    the colon of the SSH form becomes a path separator.  On [github.com]
    the browse URL is [https://github.com/user/name]. *)
Theorem detect_ssh_identifier (plugin : Main.Plugin) (params : Main.Params)
        (h : Host) (log : list str) (host user name : str) :
  Main.repo plugin = Some ("git@" ++ host ++ ":" ++ user ++ "/" ++ name) ->
  host <> "" -> no_colon host -> clean user ->
  name <> "" -> one_line name -> no_colon name ->
  test Main.re_raw ("git@" ++ host ++ ":" ++ user ++ "/" ++ name) = false ->
  isAbsolute h ("git@" ++ host ++ ":" ++ user ++ "/" ++ name) = false ->
  exists url,
    Main.detect plugin params h log
    = (Returned
         (Some {| u_frozen := None;
                  u_local := None;
                  u_path := Some (base_path h ++ "/repos/" ++ host ++ "/"
                                  ++ user ++ "/" ++ strip_dot_git name);
                  u_url := Some url |}), log)
    /\ (host = "github.com" ->
        url = "https://github.com/" ++ user ++ "/" ++ strip_dot_git name).
Proof.
  intros R H1 H3 (U1 & U2 & U3) N1 N2 N3 Raw A.
  rewrite (detect_remote plugin params h log _ R);
    [|discriminate|exact Raw|left; rewrite A; reflexivity].
  assert (E : Main.getUrl plugin params
              = suffix_policy host
                  ("git@" ++ host ++ ":" ++ user ++ "/" ++ name)).
  { unfold Main.getUrl.
    apply (getGitUrl_parsed plugin _ _ _
             (Main.Build_Parsed "ssh" host user name) R);
      [discriminate| | |exact U1|exact N1|right; reflexivity].
    - rewrite !app_assoc. rewrite <- (app_assoc _ "/" name).
      apply in_or_app. right. left. reflexivity.
    - rewrite parse_direct, ssh_direct_built by assumption. reflexivity. }
  rewrite E.
  rewrite (nonempty_url host "git@") by discriminate.
  rewrite directory_ssh by assumption.
  eexists. split; [reflexivity|].
  intros ->. apply browse_ssh_github.
Qed.

Lemma detect_ssh_identifier_witness :
  exists url,
    Main.detect (main_plugin "git@github.com:Shougo/dpp.vim.git" None)
                Main.params (sample_host false "") []
    = (Returned
         (Some {| u_frozen := None;
                  u_local := None;
                  u_path := Some "/cache/repos/github.com/Shougo/dpp.vim";
                  u_url := Some url |}), [])
    /\ url = "https://github.com/Shougo/dpp.vim".
Proof.
  destruct (detect_ssh_identifier
              (main_plugin "git@github.com:Shougo/dpp.vim.git" None)
              Main.params (sample_host false "") []
              "github.com" "Shougo" "dpp.vim.git" eq_refl
              ltac:(discriminate) ltac:(absent)
              ltac:(repeat split; try discriminate; absent)
              ltac:(discriminate) ltac:(repeat constructor) ltac:(absent)
              eq_refl eq_refl) as (url & D & U).
  exists url. split; [exact D | exact (U eq_refl)].
Defined.

(** ** X8 *)

(** X8.  For a bare shorthand [user/name] or [host/user/name] that matches
    neither the SSH nor the explicit-scheme pattern, is not a raw location
    and is not answered by the local shortcut, with the user and the name
    free of colons and the host (the one the identifier names, or else
    [defaultHubSite]) non-empty and free of slashes and colons, [detect]
    installs under [<base>/repos/<host>/user/name], a trailing [.git] of
    the name dropped: the directory is the same under the default
    protocols [https] and [ssh]. *)
Theorem detect_shorthand_path (plugin : Main.Plugin) (params : Main.Params)
        (h : Host) (log : list str) (r : str) (oh : option str)
        (user name : str) :
  Main.repo plugin = Some r ->
  shorthand r oh user name ->
  exec Main.re_ssh r = None ->
  exec Main.re_protocol r = None ->
  clean (oh ?? Main.defaultHubSite params) ->
  no_colon user -> no_colon name ->
  Main.defaultProtocol params = "https"
  \/ Main.defaultProtocol params = "ssh" ->
  test Main.re_raw r = false ->
  remote_candidate h plugin r ->
  exists url,
    Main.detect plugin params h log
    = (Returned
         (Some {| u_frozen := None;
                  u_local := None;
                  u_path := Some (base_path h ++ "/repos/"
                                  ++ (oh ?? Main.defaultHubSite params) ++ "/"
                                  ++ user ++ "/" ++ strip_dot_git name);
                  u_url := Some url |}), log).
Proof.
  intros R S E1 E2 (H1 & H2 & H3) U3 N3 P Raw C.
  destruct (shorthand_parts _ _ _ _ S) as (U1 & N1 & I & NE & _).
  assert (U2 : no_slash user) by (destruct S; assumption).
  rewrite (detect_remote plugin params h log r R NE Raw C).
  set (host := oh ?? Main.defaultHubSite params) in *.
  assert (E : Main.getUrl plugin params
              = suffix_policy host
                  (Main.url_of (Main.Build_Parsed
                                  (Main.defaultProtocol params)
                                  host user name))).
  { unfold Main.getUrl.
    apply (getGitUrl_parsed plugin _ _ r
             (Main.Build_Parsed (Main.defaultProtocol params)
                                host user name) R NE I);
      [|exact U1|exact N1|exact P].
    apply parse_shorthand; assumption. }
  rewrite E. destruct P as [P|P]; rewrite P.
  - rewrite url_of_https.
    replace (("https://" ++ host ++ "/" ++ user ++ "/") ++ name)
      with ("https://" ++ host ++ "/" ++ user ++ "/" ++ name)
      by (rewrite <- !app_assoc; reflexivity).
    rewrite (nonempty_url host "https://") by discriminate.
    rewrite directory_https by (unfold clean; auto).
    eexists. reflexivity.
  - rewrite url_of_ssh.
    replace (("git@" ++ host ++ ":" ++ user ++ "/") ++ name)
      with ("git@" ++ host ++ ":" ++ user ++ "/" ++ name)
      by (rewrite <- !app_assoc; reflexivity).
    rewrite (nonempty_url host "git@") by discriminate.
    rewrite directory_ssh by assumption.
    eexists. reflexivity.
Qed.

Lemma detect_shorthand_path_witness :
  exists url,
    Main.detect (main_plugin "Shougo/dpp.vim" None)
                (main_params "github.com" "ssh") (sample_host false "") []
    = (Returned
         (Some {| u_frozen := None;
                  u_local := None;
                  u_path := Some "/cache/repos/github.com/Shougo/dpp.vim";
                  u_url := Some url |}), []).
Proof.
  apply (detect_shorthand_path
           (main_plugin "Shougo/dpp.vim" None)
           (main_params "github.com" "ssh") (sample_host false "") []
           "Shougo/dpp.vim" None "Shougo" "dpp.vim" eq_refl).
  - apply (@shorthand_user_name "Shougo" "dpp.vim");
      try discriminate; try absent.
    repeat constructor.
  - reflexivity.
  - reflexivity.
  - repeat split; try discriminate; absent.
  - absent.
  - absent.
  - right. reflexivity.
  - reflexivity.
  - left. reflexivity.
Defined.

(** ** X9 *)

(** X9.  For a plugin the caller has flagged local whose identifier is an
    absolute path or begins with [~], [detect] of both variants answers
    with nothing: the directory is not probed and no URL is resolved. *)
Theorem detect_already_local (h : Host) (log : list str) (r : str) :
  r <> "" ->
  isAbsolute h r = true \/ Str.startsWith r "~" = true ->
  (forall (plugin : Main.Plugin) (params : Main.Params),
      Main.repo plugin = Some r -> Main.local plugin = Some true ->
      Main.detect plugin params h log = (Returned None, log))
  /\ (forall (plugin : Git.Plugin) (params : Git.Params),
         Git.repo plugin = Some r -> Git.local plugin = Some true ->
         Git.detect plugin params h log = (Returned None, log)).
Proof.
  intros NR A.
  assert (E : isAbsolute h r || Str.startsWith r "~" = true)
    by (destruct A as [-> | ->]; auto using orb_true_r).
  split; intros plugin params R L.
  - unfold Main.detect. rewrite R, (truthy_nonempty r NR). cbn [negb].
    destruct (test Main.re_raw r); [reflexivity|].
    unfold bind, ask, ret. rewrite test_tilde, E, L. reflexivity.
  - unfold Git.detect. rewrite R, (truthy_nonempty r NR). cbn [negb].
    destruct (test Main.re_raw r); [reflexivity|].
    unfold bind, ask, ret. rewrite test_tilde, E, L. reflexivity.
Qed.

Lemma detect_already_local_witness :
  Main.detect (main_local_plugin "/home/me/plugin") Main.params
              (sample_host true "") []
  = (Returned None, []).
Proof.
  apply (proj1 (detect_already_local (sample_host true "") []
                  "/home/me/plugin" ltac:(discriminate)
                  (or_introl eq_refl))
               (main_local_plugin "/home/me/plugin") Main.params
               eq_refl eq_refl).
Defined.

Section LineFacts.

Lemma split_hd_plain (sep : ascii) (x : str) :
  ~ In sep x -> Str.split sep x = [x].
Proof.
  induction x as [|c x IH]; intros N; [reflexivity|].
  cbn [Str.split]. destruct (Ascii.eqb_spec c sep) as [->|D].
  - exfalso. apply N. left. reflexivity.
  - rewrite IH by (intros I; apply N; right; exact I). reflexivity.
Qed.

Lemma split_hd (sep : ascii) (x y : str) :
  ~ In sep x -> hd "" (Str.split sep (x ++ sep :: y)) = x.
Proof.
  induction x as [|c x IH]; intros N.
  - cbn [app Str.split]. rewrite Ascii.eqb_refl. reflexivity.
  - cbn [app Str.split]. destruct (Ascii.eqb_spec c sep) as [->|D].
    + exfalso. apply N. left. reflexivity.
    + specialize (IH (fun I => N (or_intror I))).
      destruct (Str.split sep (x ++ sep :: y)); cbn [hd] in *;
        rewrite IH; reflexivity.
Qed.

(** The first line of what a subprocess printed, or of a file. *)
Lemma first_line_of (x : str) :
  ~ In newline x ->
  first_line x = x /\ forall y, first_line (x ++ newline :: y) = x.
Proof.
  intros N. unfold first_line. split.
  - fold newline. rewrite split_hd_plain by exact N. reflexivity.
  - intros y. apply split_hd. exact N.
Qed.

Lemma m_Lit_alone (l : str) (st : mstate) (k : cont) :
  m (Lit l) st k =
  match Str.strip_prefix l (rest st) with
  | Some r =>
      k (MState (match l with [] => bol st | _ :: _ => false end) r (caps st))
  | None => None
  end.
Proof.
  revert st; induction l as [|x l IH]; intros [b s cs].
  - reflexivity.
  - change (m (Lit (x :: l)) (MState b s cs) k)
      with (match s with
            | c :: s' =>
                if (x =? c)%char
                then m (Lit l) (MState false s' cs) k
                else None
            | [] => None
            end).
    destruct s as [|c s]; [reflexivity|].
    cbn [Str.strip_prefix rest].
    destruct (x =? c)%char; [|reflexivity].
    rewrite IH. cbn [rest caps bol].
    destruct (Str.strip_prefix l s); [|reflexivity].
    destruct l; reflexivity.
Qed.

(** A literal pattern is found exactly where the literal occurs. *)
Lemma search_Lit (l s : str) (b : bool) :
  match search (Lit l) b s with Some _ => true | None => false end
  = Str.includes s l.
Proof.
  revert b. induction s as [|c s IH]; intros b.
  - cbn [search Str.includes]. rewrite m_Lit_alone. cbn [rest].
    unfold Str.startsWith.
    destruct (Str.strip_prefix l []); reflexivity.
  - cbn [search Str.includes]. rewrite m_Lit_alone. cbn [rest].
    unfold Str.startsWith.
    destruct (Str.strip_prefix l (c :: s)); [reflexivity|].
    cbn [orb]. rewrite <- (IH false).
    destruct (search (Lit l) false s); reflexivity.
Qed.

(** A literal pattern is found exactly where the literal occurs. *)
Lemma test_Lit (l s : str) : test (Lit l) s = Str.includes s l.
Proof.
  rewrite <- (search_Lit l s true). unfold test, exec.
  destruct (search (Lit l) true s); reflexivity.
Qed.

Lemma test_star (v : str) : test Main.re_star v = false <-> ~ In "*"%char v.
Proof.
  unfold Main.re_star. split.
  - intros T I. rewrite (test_chr _ _ I) in T. discriminate.
  - intros N. destruct (test (Atom (Chr "*")) v) eqn:T; [|reflexivity].
    apply test_chr_inv in T. contradiction.
Qed.

(** A subprocess runs in the plugin's directory when that exists, and in
    the current directory otherwise; a failure to run it is a rejection. *)
Lemma run_output (plugin : Main.Plugin) (params : Main.Params)
      (arguments : list str) (p : str) (h : Host) (log : list str) :
  Main.path plugin = Some p ->
  Main.run plugin params arguments h log
  = match output h (Main.commandPath params) arguments (workdir_of h p) with
    | Some o => (Returned o, log)
    | None => (Thrown, log)
    end.
Proof.
  intros P. unfold Main.run, Main.workdir, bind, ask, ret, await, workdir_of.
  rewrite P. cbn [nullish].
  destruct (isDirectory h p); reflexivity.
Qed.

End LineFacts.

(** ** X10 *)

(** X10.  For an applicable plugin with a requested revision that is
    non-empty and contains no [*], [getRevisionLockCommands] returns
    exactly the checkout of that revision, on every host: no subprocess
    is run. *)
Theorem revision_lock_explicit (plugin : Main.Plugin) (params : Main.Params)
        (h : Host) (log : list str) (r p v : str) :
  Main.repo plugin = Some r -> r <> "" ->
  Main.path plugin = Some p -> p <> "" ->
  Main.rev plugin = Some v -> v <> "" -> ~ In "*"%char v ->
  Main.getRevisionLockCommands plugin params h log
  = (Returned [checkout (Main.commandPath params) v], log).
Proof.
  intros R NR P NP V NV S.
  unfold Main.getRevisionLockCommands.
  rewrite (applicable plugin r p R NR P NP), V. cbn [nullish].
  rewrite (truthy_nonempty v NV), (proj2 (test_star v) S). cbn [andb].
  unfold bind, ret.
  destruct v as [|c v]; [contradiction|]. reflexivity.
Qed.

Lemma revision_lock_explicit_witness :
  Main.getRevisionLockCommands (main_plugin_at "Shougo/dpp.vim" "/p" "v1.0")
                               Main.params (sample_host true "") []
  = (Returned [{| command := "git";
                  args := ["checkout"; "--quiet"; "--guess"; "v1.0"; "--"] |}],
     []).
Proof.
  apply (revision_lock_explicit
           (main_plugin_at "Shougo/dpp.vim" "/p" "v1.0") Main.params
           (sample_host true "") [] "Shougo/dpp.vim" "/p" "v1.0"
           eq_refl ltac:(discriminate) eq_refl ltac:(discriminate)
           eq_refl ltac:(discriminate) ltac:(absent)).
Defined.

(** ** X11 *)

(** X11.  For an applicable plugin without requested revision,
    [getRevisionLockCommands] checks out the first line that
    [symbolic-ref --short HEAD] prints in the plugin's directory (the
    current directory when that does not exist), and, when that line
    contains [fatal: ], the default branch: [gitDefaultBranch] of the
    plugin's protocol attributes, or else [defaultBranch]. *)
Theorem revision_lock_current_branch (plugin : Main.Plugin)
        (params : Main.Params) (h : Host) (log : list str)
        (r p out : str) :
  Main.repo plugin = Some r -> r <> "" ->
  Main.path plugin = Some p -> p <> "" ->
  Main.rev plugin = None \/ Main.rev plugin = Some "" ->
  output h (Main.commandPath params) ["symbolic-ref"; "--short"; "HEAD"]
         (workdir_of h p) = Some out ->
  Main.getRevisionLockCommands plugin params h log
  = (Returned
       [checkout (Main.commandPath params)
                 (if Str.includes (first_line out) "fatal: "
                  then match Main.protocolAttrs plugin with
                       | Some attrs =>
                           Main.gitDefaultBranch attrs
                           ?? Main.defaultBranch params
                       | None => Main.defaultBranch params
                       end
                  else first_line out)], log).
Proof.
  intros R NR P NP V O.
  unfold Main.getRevisionLockCommands.
  rewrite (applicable plugin r p R NR P NP).
  assert (E : Main.rev plugin ?? "" = "")
    by (destruct V as [-> | ->]; reflexivity).
  rewrite E. cbn [Str.truthy andb length Nat.eqb].
  unfold bind at 1 2. unfold ret at 1. cbn [length Nat.eqb].
  unfold bind. rewrite (run_output plugin params _ p h log P), O.
  unfold Main.re_fatal; rewrite test_Lit. unfold Main.branch.
  destruct (Str.includes (first_line out) "fatal: "); reflexivity.
Qed.

Lemma revision_lock_current_branch_witness :
  Main.getRevisionLockCommands (main_plugin "Shougo/dpp.vim" (Some "/p"))
                               Main.params
                               (sample_host true ("develop" ++ [newline])) []
  = (Returned [{| command := "git";
                  args := ["checkout"; "--quiet"; "--guess"; "develop";
                           "--"] |}],
     [])
  /\ Main.getRevisionLockCommands
       (attrs_plugin "Shougo/dpp.vim" "/p"
                     {| Main.gitDefaultBranch := Some "trunk";
                        Main.gitRemote := None |})
       Main.params
       (sample_host true "fatal: ref HEAD is not a symbolic ref") []
     = (Returned [{| command := "git";
                     args := ["checkout"; "--quiet"; "--guess"; "trunk";
                              "--"] |}],
        [])
  /\ Main.getRevisionLockCommands
       (main_plugin "Shougo/dpp.vim" (Some "/p")) Main.params
       (sample_host true "fatal: ref HEAD is not a symbolic ref") []
     = (Returned [{| command := "git";
                     args := ["checkout"; "--quiet"; "--guess"; "main";
                              "--"] |}],
        []).
Proof.
  split; [|split].
  - etransitivity.
    + apply (revision_lock_current_branch
               (main_plugin "Shougo/dpp.vim" (Some "/p")) Main.params
               (sample_host true ("develop" ++ [newline])) []
               "Shougo/dpp.vim" "/p" ("develop" ++ [newline])
               eq_refl ltac:(discriminate) eq_refl ltac:(discriminate)
               (or_introl eq_refl) eq_refl).
    + reflexivity.
  - etransitivity.
    + apply (revision_lock_current_branch
               (attrs_plugin "Shougo/dpp.vim" "/p"
                             {| Main.gitDefaultBranch := Some "trunk";
                                Main.gitRemote := None |})
               Main.params
               (sample_host true "fatal: ref HEAD is not a symbolic ref") []
               "Shougo/dpp.vim" "/p" "fatal: ref HEAD is not a symbolic ref"
               eq_refl ltac:(discriminate) eq_refl ltac:(discriminate)
               (or_introl eq_refl) eq_refl).
    + reflexivity.
  - etransitivity.
    + apply (revision_lock_current_branch
               (main_plugin "Shougo/dpp.vim" (Some "/p")) Main.params
               (sample_host true "fatal: ref HEAD is not a symbolic ref") []
               "Shougo/dpp.vim" "/p" "fatal: ref HEAD is not a symbolic ref"
               eq_refl ltac:(discriminate) eq_refl ltac:(discriminate)
               (or_introl eq_refl) eq_refl).
    + reflexivity.
Defined.

(** ** X12 *)

(** X12.  For an applicable plugin whose requested revision contains [*],
    [getRevisionLockCommands] checks out the first line of the tags that
    match it, listed by descending version; when that line is empty it
    falls back to the current branch as for a plugin without requested
    revision: the first line that [symbolic-ref --short HEAD] prints, and,
    when that line contains [fatal: ], [gitDefaultBranch] of the plugin's
    protocol attributes, or else [defaultBranch]. *)
Theorem revision_lock_wildcard (plugin : Main.Plugin) (params : Main.Params)
        (h : Host) (log : list str) (r p v tags : str) :
  Main.repo plugin = Some r -> r <> "" ->
  Main.path plugin = Some p -> p <> "" ->
  Main.rev plugin = Some v -> In "*"%char v ->
  output h (Main.commandPath params)
         ["tag"; v; "--list"; "--sort"; "-version:refname"]
         (workdir_of h p) = Some tags ->
  (first_line tags <> "" ->
   Main.getRevisionLockCommands plugin params h log
   = (Returned [checkout (Main.commandPath params) (first_line tags)], log))
  /\ (first_line tags = "" ->
      forall out,
        output h (Main.commandPath params)
               ["symbolic-ref"; "--short"; "HEAD"] (workdir_of h p)
        = Some out ->
        Main.getRevisionLockCommands plugin params h log
        = (Returned
             [checkout (Main.commandPath params)
                       (if Str.includes (first_line out) "fatal: "
                        then match Main.protocolAttrs plugin with
                             | Some attrs =>
                                 Main.gitDefaultBranch attrs
                                 ?? Main.defaultBranch params
                             | None => Main.defaultBranch params
                             end
                        else first_line out)], log)).
Proof.
  intros R NR P NP V S O.
  assert (NV : v <> "") by (destruct v; [contradiction|discriminate]).
  unfold Main.getRevisionLockCommands.
  rewrite (applicable plugin r p R NR P NP), V. cbn [nullish].
  unfold Main.re_star.
  rewrite (truthy_nonempty v NV), (test_chr _ _ S). cbn [andb].
  unfold bind. rewrite (run_output plugin params _ p h log P), O.
  unfold ret at 1 2.
  split.
  - intros T.
    destruct (first_line tags) as [|c t]; [contradiction|]. reflexivity.
  - intros T out O'. rewrite T. unfold ret at 1.
    cbn [length Nat.eqb]. cbv beta iota.
    rewrite (run_output plugin params _ p h log P), O'.
    unfold Main.re_fatal; rewrite test_Lit. unfold Main.branch.
    destruct (Str.includes (first_line out) "fatal: "); reflexivity.
Qed.

Lemma revision_lock_wildcard_witness :
  Main.getRevisionLockCommands
    (main_plugin_at "Shougo/dpp.vim" "/p" "v*") Main.params
    (git_host ("v1.2.0" ++ newline :: "v1.1.0" ++ [newline])
              ("develop" ++ [newline])) []
  = (Returned [{| command := "git";
                  args := ["checkout"; "--quiet"; "--guess"; "v1.2.0";
                           "--"] |}],
     [])
  /\ Main.getRevisionLockCommands
       {| Main.name := "";
          Main.repo := Some "Shougo/dpp.vim";
          Main.path := Some "/p";
          Main.rev := Some "v*";
          Main.local := None;
          Main.protocolAttrs :=
            Some {| Main.gitDefaultBranch := Some "trunk";
                    Main.gitRemote := None |} |}
       Main.params
       (git_host "" "fatal: ref HEAD is not a symbolic ref") []
     = (Returned [{| command := "git";
                     args := ["checkout"; "--quiet"; "--guess"; "trunk";
                              "--"] |}],
        []).
Proof.
  split.
  - etransitivity.
    + apply (proj1 (revision_lock_wildcard
                      (main_plugin_at "Shougo/dpp.vim" "/p" "v*") Main.params
                      (git_host
                         ("v1.2.0" ++ newline :: "v1.1.0" ++ [newline])
                         ("develop" ++ [newline])) []
                      "Shougo/dpp.vim" "/p" "v*"
                      ("v1.2.0" ++ newline :: "v1.1.0" ++ [newline])
                      eq_refl ltac:(discriminate) eq_refl ltac:(discriminate)
                      eq_refl ltac:(cbn; tauto) eq_refl)).
      discriminate.
    + reflexivity.
  - etransitivity.
    + apply (proj2 (revision_lock_wildcard
                      {| Main.name := "";
                         Main.repo := Some "Shougo/dpp.vim";
                         Main.path := Some "/p";
                         Main.rev := Some "v*";
                         Main.local := None;
                         Main.protocolAttrs :=
                           Some {| Main.gitDefaultBranch := Some "trunk";
                                   Main.gitRemote := None |} |}
                      Main.params
                      (git_host "" "fatal: ref HEAD is not a symbolic ref")
                      [] "Shougo/dpp.vim" "/p" "v*" ""
                      eq_refl ltac:(discriminate) eq_refl ltac:(discriminate)
                      eq_refl ltac:(cbn; tauto) eq_refl)
                   eq_refl "fatal: ref HEAD is not a symbolic ref" eq_refl).
    + reflexivity.
Defined.

(** ** X13 *)

(** X13.  When the git command cannot be run, the operations that need its
    output reject instead of returning a plan: [getLogCommands] for
    non-empty revisions, [getRevisionLockCommands] unless an explicit
    revision without [*] is requested.  Nothing is reported. *)
Theorem subprocess_failure_rejects (plugin : Main.Plugin)
        (params : Main.Params) (h : Host) (log : list str) (r p : str) :
  Main.repo plugin = Some r -> r <> "" ->
  Main.path plugin = Some p -> p <> "" ->
  (forall arguments,
      output h (Main.commandPath params) arguments (workdir_of h p) = None) ->
  (forall newRev oldRev,
      newRev <> "" -> oldRev <> "" ->
      Main.getLogCommands plugin params newRev oldRev h log = (Thrown, log))
  /\ ((Main.rev plugin = None \/ Main.rev plugin = Some ""
       \/ exists v, Main.rev plugin = Some v /\ In "*"%char v) ->
      Main.getRevisionLockCommands plugin params h log = (Thrown, log)).
Proof.
  intros R NR P NP O. split.
  - intros newRev oldRev NN NO. unfold Main.getLogCommands.
    rewrite (applicable plugin r p R NR P NP).
    destruct newRev; [contradiction|]. destruct oldRev; [contradiction|].
    cbn [length Nat.eqb orb].
    unfold bind. rewrite (run_output plugin params _ p h log P), O.
    reflexivity.
  - intros V. unfold Main.getRevisionLockCommands.
    rewrite (applicable plugin r p R NR P NP).
    destruct V as [V|[V|(v & V & S)]]; rewrite V; cbn [nullish].
    + cbn [Str.truthy andb length Nat.eqb].
      unfold bind at 1 2. unfold ret at 1. cbn [length Nat.eqb].
      unfold bind. rewrite (run_output plugin params _ p h log P), O.
      reflexivity.
    + cbn [Str.truthy andb length Nat.eqb].
      unfold bind at 1 2. unfold ret at 1. cbn [length Nat.eqb].
      unfold bind. rewrite (run_output plugin params _ p h log P), O.
      reflexivity.
    + assert (NV : v <> "") by (destruct v; [contradiction|discriminate]).
      unfold Main.re_star.
      rewrite (truthy_nonempty v NV), (test_chr _ _ S). cbn [andb].
      unfold bind. rewrite (run_output plugin params _ p h log P), O.
      reflexivity.
Qed.

Lemma subprocess_failure_rejects_witness :
  Main.getLogCommands (main_plugin "Shougo/dpp.vim" (Some "/p")) Main.params
                      "def" "abc" (checkout_host ["/p"] []) []
  = (Thrown, []).
Proof.
  apply (proj1 (subprocess_failure_rejects
                  (main_plugin "Shougo/dpp.vim" (Some "/p")) Main.params
                  (checkout_host ["/p"] []) [] "Shougo/dpp.vim" "/p"
                  eq_refl ltac:(discriminate) eq_refl ltac:(discriminate)
                  (fun _ => eq_refl)));
    discriminate.
Defined.

Section RevisionFacts.


Lemma unspaced_entry (digits tl : str) :
  Forall (fun c => atom_ok hex c = true) digits ->
  unspaced (digits ++ " " ++ tl) = digits ++ tl.
Proof.
  intros H. unfold unspaced.
  change (digits ++ " " ++ tl) with (digits ++ " "%char :: tl).
  rewrite span_stop by (exact H || reflexivity). reflexivity.
Qed.

(** The directory probe of [getRevision]. *)
Lemma getGitDir_cases (p : str) (h : Host) (log : list str) :
  Main.getGitDir p h log
  = (Returned (if isDirectory h (p ++ "/.git") then p ++ "/.git" else ""),
     log).
Proof. reflexivity. Qed.

Lemma git_dir_nonempty (p : str) : (length (p ++ "/.git") =? 0) = false.
Proof.
  rewrite length_app. cbn [length]. apply Nat.eqb_neq. lia.
Qed.

Lemma head_path (p : str) : (p ++ "/.git") ++ "/HEAD" = p ++ "/.git/HEAD".
Proof. rewrite <- app_assoc. reflexivity. Qed.

End RevisionFacts.

(** The steps of [getRevision] up to the read of [HEAD], in a checkout
    whose [.git] is a directory. *)
Ltac read_head plugin r p R NR P NP D :=
  unfold Main.getRevision;
  rewrite (applicable plugin r p R NR P NP), P; cbn [nullish];
  unfold bind at 1; rewrite getGitDir_cases, D, git_dir_nonempty;
  unfold bind at 1; unfold await at 1; rewrite head_path.


(** ** X14 *)

(** X14.  For an applicable plugin, [getRevision] returns the empty string
    when [<path>/.git] is not a directory, and rejects when it is one but
    its [HEAD] cannot be read. *)
Theorem revision_needs_git_directory (plugin : Main.Plugin) (h : Host)
        (log : list str) (r p : str) :
  Main.repo plugin = Some r -> r <> "" ->
  Main.path plugin = Some p -> p <> "" ->
  (isDirectory h (p ++ "/.git") = false ->
   Main.getRevision plugin h log = (Returned "", log))
  /\ (isDirectory h (p ++ "/.git") = true ->
      readTextFile h (p ++ "/.git/HEAD") = None ->
      Main.getRevision plugin h log = (Thrown, log)).
Proof.
  intros R NR P NP. split.
  - intros D. unfold Main.getRevision.
    rewrite (applicable plugin r p R NR P NP), P. cbn [nullish].
    unfold bind at 1. rewrite getGitDir_cases, D. reflexivity.
  - intros D F. read_head plugin r p R NR P NP D.
    rewrite F. reflexivity.
Qed.

Lemma revision_needs_git_directory_witness :
  Main.getRevision (main_plugin "Shougo/dpp.vim" (Some "/p"))
                   (checkout_host ["/p"] []) []
  = (Returned "", []).
Proof.
  apply (proj1 (revision_needs_git_directory
                  (main_plugin "Shougo/dpp.vim" (Some "/p"))
                  (checkout_host ["/p"] []) [] "Shougo/dpp.vim" "/p"
                  eq_refl ltac:(discriminate) eq_refl ltac:(discriminate))).
  reflexivity.
Defined.

(** ** X15 *)



(** ** X16 *)



Section GitFacts.

Lemma git_ssh_groups (s : str) :
  option_map groups (exec Git.re_ssh s) =
  option_map (fun '(h, n) => [("name", n); ("host", h)]) (git_ssh_direct s).
Proof.
  unfold git_ssh_direct.
  change Git.re_ssh
    with (Cat Bol (Cat (Lit "git@")
            (Cat (Grp "host" (Plus (Not ":")))
               (Cat (Atom (Chr ":")) (Cat (Grp "name" (Plus Dot)) Eps))))).
  rewrite exec_anchored, m_Lit. simpl rest.
  destruct (Str.strip_prefix "git@" s) as [s1|]; [|reflexivity].
  rewrite m_field by (intros; apply sep_rejects; assumption). simpl rest.
  destruct (field (Not ":") s1) as [[h s2]|]; [|reflexivity].
  rewrite m_sep. simpl rest.
  destruct (sep ":" s2) as [s3|]; [|reflexivity].
  rewrite m_field_last. simpl rest.
  destruct (field Dot s3) as [[n s4]|]; reflexivity.
Qed.

Lemma git_protocol_groups (s : str) :
  option_map groups (exec Git.re_protocol s) =
  option_map (fun '(p, h, n) => [("name", n); ("host", h); ("protocol", p)])
             (git_protocol_direct s).
Proof.
  unfold git_protocol_direct.
  change Git.re_protocol
    with (Cat Bol (Cat (Grp "protocol" (Plus (Not ":")))
            (Cat (Lit "://")
               (Cat (Grp "host" (Plus (Not "/")))
                  (Cat (Atom (Chr "/"))
                     (Cat (Grp "name" (Plus Dot)) Eps)))))).
  rewrite exec_anchored.
  rewrite m_field by (intros; apply Lit_rejects; assumption). simpl rest.
  destruct (field (Not ":") s) as [[p s1]|]; [|reflexivity].
  rewrite m_Lit. simpl rest.
  destruct (Str.strip_prefix "://" s1) as [s2|]; [|reflexivity].
  rewrite m_field by (intros; apply sep_rejects; assumption). simpl rest.
  destruct (field (Not "/") s2) as [[h s3]|]; [|reflexivity].
  rewrite m_sep. simpl rest.
  destruct (sep "/" s3) as [s4|]; [|reflexivity].
  rewrite m_field_last. simpl rest.
  destruct (field Dot s4) as [[n s5]|]; reflexivity.
Qed.

(** [parse] of the earlier variant through the field-by-field readings. *)
Lemma git_parse_direct (r hub proto : str) :
  Git.parse r hub proto =
  match git_ssh_direct r with
  | Some (h, n) => Git.Build_Parsed "ssh" h n
  | None =>
      match git_protocol_direct r with
      | Some (p, h, n) => Git.Build_Parsed p h n
      | None => Git.Build_Parsed proto hub r
      end
  end.
Proof.
  unfold Git.parse.
  pose proof (git_ssh_groups r) as S.
  pose proof (git_protocol_groups r) as Q.
  destruct (exec Git.re_ssh r) as [x|].
  - destruct (git_ssh_direct r) as [[h n]|]; [|discriminate].
    cbn [option_map] in S. injection S as ->. reflexivity.
  - destruct (git_ssh_direct r) as [[h n]|]; [discriminate|].
    destruct (exec Git.re_protocol r) as [x|].
    + destruct (git_protocol_direct r) as [[[p h] n]|]; [|discriminate].
      cbn [option_map] in Q. injection Q as ->. reflexivity.
    + destruct (git_protocol_direct r) as [[[p h] n]|]; [discriminate|].
      reflexivity.
Qed.

Lemma field_run (a : atom) (h : str) :
  h <> "" -> Forall (fun x => atom_ok a x = true) h ->
  (field a h = Some (h, ""))
  /\ forall c r, atom_ok a c = false ->
                 field a (h ++ c :: r) = Some (h, c :: r).
Proof.
  intros N A. split.
  - apply field_end; assumption.
  - intros c r C. apply field_stop; assumption.
Qed.

Lemma git_ssh_direct_url (host name : str) :
  host <> "" -> no_colon host -> name <> "" -> one_line name ->
  git_ssh_direct ("git@" ++ host ++ ":" ++ name) = Some (host, name).
Proof.
  intros NH CH NN LN. unfold git_ssh_direct.
  rewrite strip_prefix_app.
  change (host ++ ":" ++ name) with (host ++ ":"%char :: name).
  rewrite field_stop;
    [|assumption | apply all_Not; assumption | reflexivity].
  cbn [sep Ascii.eqb Bool.eqb].
  rewrite field_end; [reflexivity | assumption | apply all_Dot; assumption].
Qed.

Lemma git_protocol_direct_url (proto host name : str) :
  proto <> "" -> no_colon proto ->
  host <> "" -> no_slash host -> name <> "" -> one_line name ->
  git_protocol_direct (proto ++ "://" ++ host ++ "/" ++ name)
  = Some (proto, host, name).
Proof.
  intros NP CP NH SH NN LN. unfold git_protocol_direct.
  change (proto ++ "://" ++ host ++ "/" ++ name)
    with (proto ++ ":"%char :: "//" ++ host ++ "/" ++ name).
  rewrite field_stop;
    [|assumption | apply all_Not; assumption | reflexivity].
  change (":"%char :: "//" ++ host ++ "/" ++ name)
    with ("://" ++ host ++ "/" ++ name).
  rewrite strip_prefix_app.
  change (host ++ "/" ++ name) with (host ++ "/"%char :: name).
  rewrite field_stop;
    [|assumption | apply all_Not; assumption | reflexivity].
  cbn [sep Ascii.eqb Bool.eqb].
  rewrite field_end; [reflexivity | assumption | apply all_Dot; assumption].
Qed.

End GitFacts.

(** ** X17 *)

(** X17.  [getUrl] of [git.ts] keeps a full URL as it is: [git@host:name]
    (provided the identifier contains a slash) and [https://host/name]
    resolve to themselves, and [ssh://host/name] to [git@host:name];
    nothing is appended and nothing is reported. *)
Theorem git_full_url_kept (plugin : Git.Plugin) (params : Git.Params)
        (h : Host) (log : list str) (host name : str) :
  host <> "" -> name <> "" -> one_line name ->
  (no_colon host -> In "/"%char (host ++ name) ->
   Git.repo plugin = Some ("git@" ++ host ++ ":" ++ name) ->
   Git.getUrl plugin params h log
   = (Returned ("git@" ++ host ++ ":" ++ name), log))
  /\ (no_slash host ->
      Git.repo plugin = Some ("https://" ++ host ++ "/" ++ name) ->
      Git.getUrl plugin params h log
      = (Returned ("https://" ++ host ++ "/" ++ name), log))
  /\ (no_slash host ->
      Git.repo plugin = Some ("ssh://" ++ host ++ "/" ++ name) ->
      Git.getUrl plugin params h log
      = (Returned ("git@" ++ host ++ ":" ++ name), log)).
Proof.
  intros NH NN LN. split; [|split].
  - intros CH I R. unfold Git.getUrl. rewrite R.
    cbn [Str.truthy app negb orb]. unfold Main.re_slash.
    rewrite test_chr.
    2:{ right; right; right; right.
        apply in_app_or in I. apply in_or_app.
        destruct I as [I|I]; [left; exact I|right; right; exact I]. }
    cbn [negb]. cbv zeta.
    rewrite git_parse_direct.
    change ("g"%char :: "i"%char :: "t"%char :: "@"%char
              :: host ++ ":"%char :: name)
      with ("git@" ++ host ++ ":" ++ name).
    rewrite git_ssh_direct_url by assumption.
    cbn [Git.p_protocol Git.p_host Git.p_name]. reflexivity.
  - intros SH R. unfold Git.getUrl. rewrite R.
    cbn [Str.truthy app negb orb]. unfold Main.re_slash.
    rewrite test_chr by (do 6 right; left; reflexivity).
    cbn [negb]. cbv zeta.
    rewrite git_parse_direct.
    assert (S : git_ssh_direct
                  ("h"%char :: "t"%char :: "t"%char :: "p"%char :: "s"%char
                     :: ":"%char :: "/"%char :: "/"%char
                     :: host ++ "/"%char :: name) = None)
      by reflexivity.
    rewrite S.
    change ("h"%char :: "t"%char :: "t"%char :: "p"%char :: "s"%char
              :: ":"%char :: "/"%char :: "/"%char
              :: host ++ "/"%char :: name)
      with ("https" ++ "://" ++ host ++ "/" ++ name).
    rewrite git_protocol_direct_url;
      try assumption; try discriminate.
    2:{ intros I. repeat (destruct I as [I|I]; [discriminate|]).
        contradiction. }
    cbn [Git.p_protocol Git.p_host Git.p_name]. reflexivity.
  - intros SH R. unfold Git.getUrl. rewrite R.
    cbn [Str.truthy app negb orb]. unfold Main.re_slash.
    rewrite test_chr by (do 4 right; left; reflexivity).
    cbn [negb]. cbv zeta.
    rewrite git_parse_direct.
    assert (S : git_ssh_direct
                  ("s"%char :: "s"%char :: "h"%char
                     :: ":"%char :: "/"%char :: "/"%char
                     :: host ++ "/"%char :: name) = None)
      by reflexivity.
    rewrite S.
    change ("s"%char :: "s"%char :: "h"%char
              :: ":"%char :: "/"%char :: "/"%char
              :: host ++ "/"%char :: name)
      with ("ssh" ++ "://" ++ host ++ "/" ++ name).
    rewrite git_protocol_direct_url;
      try assumption; try discriminate.
    2:{ intros I. repeat (destruct I as [I|I]; [discriminate|]).
        contradiction. }
    cbn [Git.p_protocol Git.p_host Git.p_name]. reflexivity.
Qed.

Lemma git_full_url_kept_witness :
  Git.getUrl (git_plugin "git@github.com:Shougo/dpp.vim" None) Git.params
             (sample_host false "") []
  = (Returned "git@github.com:Shougo/dpp.vim", []).
Proof.
  apply (proj1 (git_full_url_kept
                  (git_plugin "git@github.com:Shougo/dpp.vim" None)
                  Git.params (sample_host false "") []
                  "github.com" "Shougo/dpp.vim"
                  ltac:(discriminate) ltac:(discriminate)
                  ltac:(repeat constructor))).
  - absent.
  - cbn. tauto.
  - reflexivity.
Defined.

Section EffectFacts.

Lemma bind_returns {A B} (c : M A) (f : A -> M B) (h : Host)
      (log log' : list str) (b : B) :
  bind c f h log = (Returned b, log') ->
  exists a log1, c h log = (Returned a, log1)
                 /\ f a h log1 = (Returned b, log').
Proof.
  unfold bind. destruct (c h log) as [[a|] log1]; [|discriminate].
  intros H. exists a, log1. split; [reflexivity|exact H].
Qed.

Lemma quiet_ret {A} (a : A) : quiet (ret a).
Proof. intros h log. reflexivity. Qed.

Lemma quiet_ask {A} (f : Host -> A) : quiet (ask f).
Proof. intros h log. reflexivity. Qed.

Lemma quiet_await {A} (f : Host -> option A) : quiet (await f).
Proof. intros h log. unfold await. destruct (f h); reflexivity. Qed.

Lemma quiet_bind {A B} (c : M A) (f : A -> M B) :
  quiet c -> (forall a, quiet (f a)) -> quiet (bind c f).
Proof.
  intros C F h log. unfold bind. specialize (C h log).
  destruct (c h log) as [[a|] log1]; cbn [snd] in *; subst log1.
  - apply F.
  - reflexivity.
Qed.

Lemma quiet_if {A} (b : bool) (c d : M A) :
  quiet c -> quiet d -> quiet (if b then c else d).
Proof. destruct b; auto. Qed.

Lemma quiet_run (plugin : Main.Plugin) (params : Main.Params)
      (arguments : list str) :
  quiet (Main.run plugin params arguments).
Proof.
  unfold Main.run, Main.workdir.
  repeat first [ apply quiet_bind; [|intros ?] | apply quiet_if
               | apply quiet_ret | apply quiet_ask | apply quiet_await ].
Qed.

End EffectFacts.

#[local] Ltac quietly :=
  repeat first
    [ apply quiet_ret | apply quiet_ask | apply quiet_await
    | apply quiet_run | apply quiet_if
    | apply quiet_bind; [|intros ?]
    | match goal with
      | |- quiet (match ?x with _ => _ end) => destruct x
      | |- quiet (let _ := _ in _) => cbv zeta
      end ].

(** ** X18 *)

(** X18.  No operation of [git/main.ts] writes to the error sink, whether
    it returns or rejects. *)
Theorem main_never_reports (plugin : Main.Plugin) (params : Main.Params) :
  quiet (Main.detect plugin params)
  /\ quiet (Main.getSyncCommands plugin params)
  /\ (forall newRev oldRev,
         quiet (Main.getLogCommands plugin params newRev oldRev))
  /\ quiet (Main.getRevisionLockCommands plugin params)
  /\ quiet (Main.getRevision plugin).
Proof.
  repeat split.
  - unfold Main.detect. quietly.
  - unfold Main.getSyncCommands. quietly.
  - intros newRev oldRev. unfold Main.getLogCommands. quietly.
  - unfold Main.getRevisionLockCommands. quietly.
  - unfold Main.getRevision, Main.getGitDir. quietly.
Qed.

(** ** X19 *)

(** X19.  Every command of every plan of [git/main.ts] runs the configured
    [commandPath]. *)
Theorem plans_run_the_configured_command (plugin : Main.Plugin)
        (params : Main.Params) (h : Host) (log : list str) :
  (forall plan log',
      Main.getSyncCommands plugin params h log = (Returned plan, log') ->
      runs (Main.commandPath params) plan)
  /\ (forall newRev oldRev plan log',
         Main.getLogCommands plugin params newRev oldRev h log
         = (Returned plan, log') ->
         runs (Main.commandPath params) plan)
  /\ (forall plan log',
         Main.getRevisionLockCommands plugin params h log
         = (Returned plan, log') ->
         runs (Main.commandPath params) plan)
  /\ (forall rev, runs (Main.commandPath params)
                       (Main.getRollbackCommands plugin params rev))
  /\ (forall newRev oldRev,
         runs (Main.commandPath params)
              (Main.getDiffCommands plugin params newRev oldRev))
  /\ (forall newRev oldRev,
         runs (Main.commandPath params)
              (Main.getChangesCountCommands plugin params newRev oldRev)).
Proof.
  unfold runs. repeat apply conj.
  - intros plan log' H. unfold Main.getSyncCommands in H.
    destruct (Main.inapplicable plugin); [injection H as <- <-; constructor|].
    cbv zeta in H. unfold bind, ask, ret in H.
    destruct (isDirectory h _).
    + destruct ((Main.cloneDepth params =? 0)%Z
                && (Main.cloneDepth params <=? 0)%Z);
        injection H as <- <-; repeat constructor.
    + injection H as <- <-; repeat constructor.
  - intros newRev oldRev plan log' H. unfold Main.getLogCommands in H.
    destruct (_ || _ || _); [injection H as <- <-; constructor|].
    apply bind_returns in H. destruct H as (out & log1 & _ & H).
    injection H as <- <-; repeat constructor.
  - intros plan log' H. unfold Main.getRevisionLockCommands in H.
    destruct (Main.inapplicable plugin); [injection H as <- <-; constructor|].
    cbv zeta in H.
    apply bind_returns in H. destruct H as (rev1 & log1 & _ & H).
    apply bind_returns in H. destruct H as (rev2 & log2 & _ & H).
    injection H as <- <-; repeat constructor.
  - intros rev. unfold Main.getRollbackCommands.
    destruct (Main.inapplicable plugin); repeat constructor.
  - intros newRev oldRev. unfold Main.getDiffCommands.
    destruct (Main.inapplicable plugin); repeat constructor.
  - intros newRev oldRev. unfold Main.getChangesCountCommands.
    destruct (Main.inapplicable plugin); repeat constructor.
Qed.

Lemma plans_run_the_configured_command_witness :
  runs "git"
       [{| command := "git";
           args := ["-c"; "credential.helper="; "-c";
                    "core.fsmonitor=false"; "clone"; "--recursive";
                    "https://github.com/Shougo/dpp.vim.git"; "/p"] |}].
Proof.
  apply (proj1 (plans_run_the_configured_command
                  (main_plugin "Shougo/dpp.vim" (Some "/p")) Main.params
                  (sample_host false "") [])
               _ [] eq_refl).
Defined.
